(** * Valuation engine of the sports-card arbitrage backend

    A shallow embedding of

    - [backend/app/utils/slugify.py]              (identifier normaliser),
    - [backend/app/models/sales_history.py]       (sale records),
    - [backend/app/services/pricing_service.py]   (matcher, estimator,
                                                   orchestrator, verdict),
    - [backend/app/redis_client.py]               (result cache),
    - [backend/app/api/analyze.py]                (request pipeline),
    - [backend/app/api/bulk_analyze.py]           (analysis of one listing
                                                   of a bulk request),
    - [backend/app/api/database.py]               (pages of the sales),
    - [backend/app/services/openai_service.py]    (retries of the parser),
    - [backend/seed_db.py]                        (seeding of the store),

    followed by the properties of these functions.

    Conventions of the embedding.

    - A Python [str] is a [string]; a character is a code point below 256.
    - The estimator and the verdict calculator compute on Python [float]s:
      they are embedded in [Binary64] over IEEE 754 binary64 numbers, with
      the rounding of every operation, and what they return is stated
      there.
    - The services around them hand prices on, compare them and store
      them.  There a price, a [float] as well as a [Numeric(10, 2)] column,
      is the rational ([Q]) it stands for, and the two functions appear a
      second time, read over rationals; the theorems on these services
      say which sales, which fields and which labels a result is made of,
      not which digits it has.
    - [Optional[T]] is [option T]; a [dict] with string keys is a [gmap];
      a value whose type is only known at run time is a [value].
    - A coroutine is run to completion at each [await]; code that touches
      the session or the cache, or that may raise, lives in the monad [M].
    - Calls to [logger] have no effect on any result and are left out. *)

From Stdlib Require Import ZArith QArith Qround Qabs Qminmax Bool Ascii.
From Stdlib Require Import String List.
From Stdlib Require Import Permutation Sorted Lia.
From Stdlib Require Import DecimalString SpecFloat.
From stdpp Require Import base option list gmap strings.

Import ListNotations.
Local Open Scope Z_scope.
Local Open Scope Q_scope.
Local Open Scope list_scope.
Local Open Scope string_scope.

(** ** Python built-ins used by the services *)

Module Py.

(** [x < y] on floats. *)
Definition ltb (x y : Q) : bool := negb (Qle_bool y x).

(** [sum(xs)]: a left fold that starts from [0]. *)
Definition sum (xs : list Q) : Q := fold_left Qplus xs 0.

(** [len(xs)] as the float that [/] coerces it to. *)
Definition len (xs : list Q) : Q := inject_Z (Z.of_nat (length xs)).

Section Sorted.
Context {A : Type} (lt : A -> A -> bool).

(** Insertion of [x] behind every element that is not greater: the
    step of a stable sort that only ever asks [x < y]. *)
Fixpoint insert (x : A) (l : list A) : list A :=
  match l with
  | [] => [x]
  | y :: r => if lt x y then x :: y :: r else y :: insert x r
  end.

(** [sorted(xs)]: a stable sort driven by [lt] alone; the elements
    enter the sorted prefix from left to right. *)
Definition sorted (xs : list A) : list A :=
  fold_left (fun acc x => insert x acc) xs [].
End Sorted.

(** [xs[1:-1]]. *)
Definition slice_1_m1 {A} (xs : list A) : list A :=
  removelast (tl xs).

Definition ord (c : ascii) : N := N_of_ascii c.

Definition between (lo hi : N) (c : ascii) : bool :=
  ((lo <=? ord c) && (ord c <=? hi))%N.

(** [c.isspace()], which is also the class [\s] of [re] on [str]:
    TAB..CR, FS..US, SPACE, NEL and NO-BREAK SPACE. *)
Definition isspace (c : ascii) : bool :=
  between 9 13 c || between 28 32 c || (ord c =? 133)%N || (ord c =? 160)%N.

(** [c.lower()]: the letters A-Z, and the Latin-1 capitals but for the
    multiplication sign, move up by 32. *)
Definition lower_char (c : ascii) : ascii :=
  if between 65 90 c || (between 192 222 c && negb (ord c =? 215)%N)
  then ascii_of_N (ord c + 32)
  else c.

(** [s.lower()]. *)
Definition lower (s : list ascii) : list ascii := map lower_char s.

(** [s.lstrip(chars)], [s.rstrip(chars)], [s.strip(chars)]. *)
Fixpoint lstrip (chars : ascii -> bool) (s : list ascii) : list ascii :=
  match s with
  | [] => []
  | c :: r => if chars c then lstrip chars r else s
  end.

Definition rstrip (chars : ascii -> bool) (s : list ascii) : list ascii :=
  rev (lstrip chars (rev s)).

Definition strip (chars : ascii -> bool) (s : list ascii) : list ascii :=
  rstrip chars (lstrip chars s).

(** Decimal digits of a natural number. *)
Definition digits (n : Z) : string :=
  NilZero.string_of_uint (N.to_uint (Z.to_N n)).

(** Rounding of a non-negative rational to the nearest integer, ties to
    the even neighbour. *)
Definition round_half_even (x : Q) : Z :=
  let f := Qfloor x in
  let d := x - inject_Z f in
  if ltb d (1 # 2) then f
  else if ltb (1 # 2) d then (f + 1)%Z
  else if Z.even f then f else (f + 1)%Z.

(** [f"{x:.2f}"]: sign, integer part, a dot and two decimals of the
    correctly rounded value. *)
Definition format_2f (x : Q) : string :=
  let cents := round_half_even (Qabs x * 100) in
  let frac := (cents mod 100)%Z in
  (if ltb x 0 then "-" else "")
  ++ digits (cents / 100)%Z ++ "."
  ++ (if (frac <? 10)%Z then "0" else "") ++ digits frac.

End Py.

(** ** The patterns handed to [re.sub] *)

Module Re.

(** A character class. *)
Definition class := ascii -> bool.

Definition lit (x : ascii) : class := Ascii.eqb x.
Definition range (lo hi : ascii) : class :=
  Py.between (Py.ord lo) (Py.ord hi).
Definition union (k1 k2 : class) : class := fun c => k1 c || k2 c.
Definition neg (k : class) : class := fun c => negb (k c).

(** [\s] *)
Definition space : class := Py.isspace.

(** [re.sub(r'K', repl, s)] for a class [K]: every character of the
    class is replaced. *)
Definition sub (k : class) (repl s : list ascii) : list ascii :=
  flat_map (fun c => if k c then repl else [c]) s.

(** [re.sub(r'K+', repl, s)]: every maximal run of characters of the
    class is replaced as a whole; [in_run] tells that the run the
    scanner is in has been replaced already. *)
Fixpoint sub_plus_from (in_run : bool) (k : class) (repl s : list ascii)
  : list ascii :=
  match s with
  | [] => []
  | c :: r =>
      if k c then
        if in_run then sub_plus_from true k repl r
        else (repl ++ sub_plus_from true k repl r)%list
      else c :: sub_plus_from false k repl r
  end.

Definition sub_plus (k : class) (repl s : list ascii) : list ascii :=
  sub_plus_from false k repl s.

End Re.

(** ** Identifier normaliser: [utils/slugify.py] *)

(** The class [[a-z0-9-]]. *)
Definition slug_class : Re.class :=
  Re.union (Re.range "a" "z") (Re.union (Re.range "0" "9") (Re.lit "-")).

Definition slugify (text : option string) : string :=
  match text with
  | None | Some "" => ""
  | Some text =>
      let slug := Py.lower (list_ascii_of_string text) in
      let slug := Re.sub_plus Re.space ["-"%char] slug in
      let slug := Re.sub (Re.neg slug_class) [] slug in
      let slug := Re.sub_plus (Re.lit "-") ["-"%char] slug in
      let slug := Py.strip (Re.lit "-") slug in
      string_of_list_ascii slug
  end.

(** ** Value estimator: [pricing_service.calculate_sanity_average] *)

(** The estimator as the services around it see it, over the rationals
    the prices stand for; [Binary64.calculate_sanity_average] is the
    estimator on floats. *)

Definition calculate_sanity_average (prices : list Q) : option Q :=
  match prices with
  | [] => None
  | _ =>
      if (length prices <? 3)%nat then
        Some (Py.sum prices / Py.len prices)
      else
        let sorted_prices := Py.sorted Py.ltb prices in
        let trimmed_prices := Py.slice_1_m1 sorted_prices in
        Some (Py.sum trimmed_prices / Py.len trimmed_prices)
  end.

(** ** Verdict calculator: [pricing_service.calculate_profit_loss] *)

(** The verdict calculator over rationals; [Binary64.calculate_profit_loss]
    is the calculator on floats. *)

Definition calculate_profit_loss (listing_price : Q) (estimated_value : option Q)
  : option Q * string :=
  match estimated_value with
  | None => (None, "INSUFFICIENT DATA - No comparable sales found")
  | Some estimated_value =>
      let profit_loss := estimated_value - listing_price in
      let verdict :=
        if Py.ltb 0 profit_loss then
          "GOOD DEAL - Potential profit: $" ++ Py.format_2f profit_loss
        else if Py.ltb profit_loss 0 then
          "OVERPRICED - Potential loss: $" ++ Py.format_2f (Qabs profit_loss)
        else
          "FAIR PRICE - Listing matches market value" in
      (Some profit_loss, verdict)
  end.


(** ** Binary floating point: the [float] of the estimator and of the
       verdict calculator *)

(** A Python [float] is an IEEE 754 binary64 number: [spec_float] at
    precision 53 and maximal exponent 1024, with the operations of the
    standard library, which round to nearest, ties to even.  The values of
    the format are the [spec_float]s for which [valid] holds; NaN carries
    no payload. *)
Module Binary64.

Definition prec : Z := 53.
Definition emax : Z := 1024.

Definition t : Type := spec_float.

Definition valid (x : t) : bool := valid_binary prec emax x.

Definition zero : t := S754_zero false.
Definition add : t -> t -> t := SFadd prec emax.
Definition sub : t -> t -> t := SFsub prec emax.
Definition div : t -> t -> t := SFdiv prec emax.
Definition abs : t -> t := SFabs.

(** [x < y], [x <= y] and [x == y]: false as soon as one side is NaN. *)
Definition ltb : t -> t -> bool := SFltb.
Definition leb : t -> t -> bool := SFleb.
Definition eqb : t -> t -> bool := SFeqb.

Definition is_nan (x : t) : bool :=
  match x with
  | S754_nan => true
  | _ => false
  end.

Definition is_infinite (x : t) : bool :=
  match x with
  | S754_infinity _ => true
  | _ => false
  end.

(** [float(n)] of an integer, where it does not overflow: the nearest
    value of the format, the infinity from [2^1024 - 2^970] on. *)
Definition of_Z (n : Z) : t := binary_normalize prec emax n 0 false.

(** The value of the format nearest to a rational: what a decimal
    literal denotes. *)
Definition of_Q (q : Q) : t :=
  match Qnum q with
  | Z0 => zero
  | Zpos n => div (S754_finite false n 0) (S754_finite false (Qden q) 0)
  | Zneg n => div (S754_finite true n 0) (S754_finite false (Qden q) 0)
  end.

(** The number a finite value stands for; [0] for the others. *)
Definition to_Q (x : t) : Q :=
  match x with
  | S754_finite s m e =>
      let v := match e with
               | Zpos p => inject_Z (Zpos m * 2 ^ Zpos p)
               | Z0 => inject_Z (Zpos m)
               | Zneg p => Zpos m # (2 ^ p)
               end in
      if s then - v else v
  | _ => 0
  end.

(** The loop of [sum] over floats from Python 3.12 on: the running sum
    [f_result] and the compensation [c] of Neumaier's summation, which is
    added at the end when it is finite and not zero. *)
Fixpoint neumaier (f_result c : t) (items : list t) : t :=
  match items with
  | [] =>
      match c with
      | S754_finite _ _ _ => add f_result c
      | _ => f_result
      end
  | x :: items =>
      let t := add f_result x in
      let c :=
        if leb (abs x) (abs f_result) then add c (add (sub f_result t) x)
        else add c (add (sub x t) f_result) in
      neumaier t c items
  end.

(** [sum(items)] of floats: the integer [0] it starts from is added to
    the first item as the float [0.0]; the rest is added from left to
    right, with the compensation from Python 3.12 on and plainly
    before. *)
Definition sum (compensated : bool) (items : list t) : t :=
  match items with
  | [] => zero
  | x :: items =>
      let result := add zero x in
      if compensated then neumaier result zero items
      else fold_left add items result
  end.

(** [len(xs)] as the float that [/] coerces it to. *)
Definition len (xs : list t) : t := of_Z (Z.of_nat (length xs)).

(** [f"{x:.2f}"]: the exact value of [x], correctly rounded to two
    decimals. *)
Definition format_2f (x : t) : string :=
  match x with
  | S754_nan => "nan"
  | S754_infinity s => if s then "-inf" else "inf"
  | S754_zero s => if s then "-0.00" else "0.00"
  | S754_finite _ _ _ => Py.format_2f (to_Q x)
  end.

Section Services.

(** Whether [sum] compensates, which the version of the interpreter
    decides, and what [sorted] makes of a list that holds a NaN, where
    [<] is no order and the result depends on the merges of the
    library's sort. *)
Variable compensated : bool.
Variable sorted_with_nan : list t -> list t.

(** [sorted(xs)]: a stable sort by [<]. *)
Definition sorted (xs : list t) : list t :=
  if existsb is_nan xs then sorted_with_nan xs else Py.sorted ltb xs.

(** [pricing_service.calculate_sanity_average] *)
Definition calculate_sanity_average (prices : list t) : option t :=
  match prices with
  | [] => None
  | _ =>
      if (length prices <? 3)%nat then
        Some (div (sum compensated prices) (len prices))
      else
        let sorted_prices := sorted prices in
        let trimmed_prices := Py.slice_1_m1 sorted_prices in
        Some (div (sum compensated trimmed_prices) (len trimmed_prices))
  end.

End Services.

(** [pricing_service.calculate_profit_loss] *)
Definition calculate_profit_loss (listing_price : t)
    (estimated_value : option t) : option t * string :=
  match estimated_value with
  | None => (None, "INSUFFICIENT DATA - No comparable sales found")
  | Some estimated_value =>
      let profit_loss := sub estimated_value listing_price in
      let verdict :=
        if ltb zero profit_loss then
          "GOOD DEAL - Potential profit: $" ++ format_2f profit_loss
        else if ltb profit_loss zero then
          "OVERPRICED - Potential loss: $" ++ format_2f (abs profit_loss)
        else
          "FAIR PRICE - Listing matches market value" in
      (Some profit_loss, verdict)
  end.

End Binary64.
(** ** Data model *)

(** [services/openai_service.ParsedCardData]: what the title parser
    returns. *)
Module ParsedCardData.
Record t := mk {
  player_name : string;
  year : option Z;
  brand : string;
  card_number : option string;
  card_type : option string;
  variation : option string;
  serial_numbered : option Z;
  is_rookie : bool;
  is_prospect : bool;
  is_first_bowman : bool;
  is_autograph : bool;
  has_patch : bool;
  is_graded : bool;
  grading_company : option string;
  grade : option Q;
  has_perfect_subgrade : bool;
  is_reprint : bool;
  is_redemption : bool;
  sport : option string;
  confidence : string;
  warnings : list string
}.
End ParsedCardData.

(** A value of a dictionary that goes through JSON.  [VIso t] is the
    ISO-8601 text of the instant [t]; [VModel p] is [p.model_dump()]. *)
Inductive value :=
| VNone
| VInt (z : Z)
| VFloat (q : Q)
| VStr (s : string)
| VIso (t : Z)
| VModel (p : ParsedCardData.t).

Definition optional_float (x : option Q) : value :=
  match x with Some q => VFloat q | None => VNone end.

(** [models/sales_history.SalesHistory]: one row of [sales_history].
    Every column is [nullable=False]. *)
Module SalesHistory.
Record t := mk {
  id : Z;
  player_id : string;
  brand_id : string;
  variation_id : string;
  year : Z;
  grade : Q;
  grader : string;
  price : Q;
  sold_at : Z
}.

Definition to_dict (self : t) : gmap string value :=
  {[ "id" := VInt (id self);
     "player_id" := VStr (player_id self);
     "brand_id" := VStr (brand_id self);
     "variation_id" := VStr (variation_id self);
     "year" := VInt (year self);
     "grade" := VFloat (grade self);
     "grader" := VStr (grader self);
     "price" := VFloat (price self);
     "sold_at" := VIso (sold_at self) ]}.
End SalesHistory.

(** [pricing_service.PricingResult] *)
Module PricingResult.
Record t := mk {
  estimated_value : option Q;
  match_tier : string;
  sales_count : nat;
  sales_data : list (gmap string value)
}.
End PricingResult.

(** [api/analyze.AnalyzeRequest] and [AnalyzeResponse].  The fields of a
    response that a cache hit fills from the cached dictionary hold
    whatever that dictionary holds. *)
Module AnalyzeRequest.
Record t := mk { title : string; listing_price : Q }.
End AnalyzeRequest.

Module AnalyzeResponse.
Record t := mk {
  parsed_data : value;
  estimated_value : value;
  profit_loss : option Q;
  verdict : string;
  match_tier : value;
  sales_count : value;
  cached : bool
}.
End AnalyzeResponse.

(** ** Statements sent to the record store *)

(** Similarity threshold for fuzzy matching (line 17).  The operator [%]
    of pg_trgm is true when the similarity is above the threshold, 0.3
    unless the server is told otherwise, which no code here does
    (comment at line 164). *)
Definition SIMILARITY_THRESHOLD : Q := 3 # 10.

Module Sql.

(** A condition of a [WHERE]; [PlayerIdSimilar s] is
    [text("player_id % :player_id")] with the parameter bound to [s]. *)
Inductive clause :=
| PlayerIdEq (s : string)
| BrandIdEq (s : string)
| VariationIdEq (s : string)
| GradeEq (g : Q)
| GraderEq (s : string)
| YearEq (y : Z)
| PlayerIdSimilar (s : string).

(** A key of an [ORDER BY]; [SimilarityDesc s] is
    [text("similarity(player_id, :player_id) DESC")] bound to [s]. *)
Inductive order_key :=
| SoldAtDesc
| SimilarityDesc (s : string).

Record Select := mkSelect {
  whereclause : list clause;
  order_by_keys : list order_key;
  limit_count : option nat
}.

(** [select(SalesHistory)] and the generative methods of a statement. *)
Definition select_SalesHistory : Select := mkSelect [] [] None.

Definition where_ (q : Select) (cs : list clause) : Select :=
  mkSelect (whereclause q ++ cs)%list (order_by_keys q) (limit_count q).

Definition order_by (q : Select) (ks : list order_key) : Select :=
  mkSelect (whereclause q) (order_by_keys q ++ ks)%list (limit_count q).

Definition limit (q : Select) (n : nat) : Select :=
  mkSelect (whereclause q) (order_by_keys q) (Some n).

Section Run.
(** [similarity(text, text)] of pg_trgm, a function of the server. *)
Variable similarity : string -> string -> Q.

Definition holds (r : SalesHistory.t) (c : clause) : bool :=
  match c with
  | PlayerIdEq s => String.eqb (SalesHistory.player_id r) s
  | BrandIdEq s => String.eqb (SalesHistory.brand_id r) s
  | VariationIdEq s => String.eqb (SalesHistory.variation_id r) s
  | GradeEq g => Qeq_bool (SalesHistory.grade r) g
  | GraderEq s => String.eqb (SalesHistory.grader r) s
  | YearEq y => Z.eqb (SalesHistory.year r) y
  | PlayerIdSimilar s =>
      Py.ltb SIMILARITY_THRESHOLD (similarity (SalesHistory.player_id r) s)
  end.

(** [a] is strictly ahead of [b] under one key. *)
Definition ahead (k : order_key) (a b : SalesHistory.t) : bool :=
  match k with
  | SoldAtDesc => (SalesHistory.sold_at b <? SalesHistory.sold_at a)%Z
  | SimilarityDesc s =>
      Py.ltb (similarity (SalesHistory.player_id b) s)
             (similarity (SalesHistory.player_id a) s)
  end.

(** [a] is strictly ahead of [b] under the keys, the first key that
    tells them apart deciding. *)
Fixpoint precedes (ks : list order_key) (a b : SalesHistory.t) : bool :=
  match ks with
  | [] => false
  | k :: ks =>
      if ahead k a b then true
      else if ahead k b a then false
      else precedes ks a b
  end.

Definition cap {A} (n : option nat) (l : list A) : list A :=
  match n with Some n => firstn n l | None => l end.

(** The rows a statement returns.  Rows that the keys do not tell
    apart come in an order SQL leaves open; here they keep the order
    of the table. *)
Definition run (q : Select) (table : list SalesHistory.t)
  : list SalesHistory.t :=
  let hits := List.filter (fun r => forallb (holds r) (whereclause q)) table in
  cap (limit_count q) (Py.sorted (precedes (order_by_keys q)) hits).
End Run.

End Sql.

(** ** Effects *)

Inductive exn :=
| SQLAlchemyError
| RedisError
| KeyError (key : string)
| TypeError
| ValueError
| RuntimeError
| HTTPException (status_code : Z) (cause : exn).

(** [isinstance(e, ValueError)] *)
Definition is_ValueError (e : exn) : bool :=
  match e with ValueError => true | _ => false end.

Inductive outcome (A : Type) :=
| Return (a : A)
| Raise (e : exn).
Arguments Return {A} a.
Arguments Raise {A} e.

(** What lies outside the process: the table [sales_history], the
    statements sent to the store so far and whether the [n]-th of them
    fails; the keys of the cache with their time to live (an expired key
    is an absent key), the number of commands sent to the cache and
    whether the [n]-th fails; the answer of the title parser. *)
Record World := mkWorld {
  table : list SalesHistory.t;
  statements : list Sql.Select;
  store_fails : nat -> bool;
  cache : gmap string (Z * gmap string value);
  cache_commands : nat;
  cache_fails : nat -> bool;
  parser : string -> outcome ParsedCardData.t
}.

Definition M (A : Type) : Type := World -> outcome A * World.

Definition ret {A} (a : A) : M A := fun w => (Return a, w).

Definition raise {A} (e : exn) : M A := fun w => (Raise e, w).

Definition bind {A B} (m : M A) (k : A -> M B) : M B :=
  fun w =>
    match m w with
    | (Return a, w') => k a w'
    | (Raise e, w') => (Raise e, w')
    end.

(** [try: body / except Exception as e: handler] *)
Definition try_except {A} (body : M A) (handler : exn -> M A) : M A :=
  fun w =>
    match body w with
    | (Return a, w') => (Return a, w')
    | (Raise e, w') => handler e w'
    end.

Notation "x <- m ;; k" := (bind m (fun x => k))
  (at level 100, m at next level, right associativity).

(** The value and the world a computation ends with. *)
Definition result_of {A} (m : M A) (w : World) : outcome A := fst (m w).
Definition world_after {A} (m : M A) (w : World) : World := snd (m w).

Definition log_statement (q : Sql.Select) (w : World) : World :=
  mkWorld (table w) (statements w ++ [q])%list (store_fails w)
          (cache w) (cache_commands w) (cache_fails w) (parser w).

Definition count_command (c : gmap string (Z * gmap string value)) (w : World)
  : World :=
  mkWorld (table w) (statements w) (store_fails w)
          c (S (cache_commands w)) (cache_fails w) (parser w).

(** Truth value of an [Optional[str]] and of an [Optional[dict]]. *)
Definition truthy_str (s : option string) : option string :=
  match s with
  | Some "" | None => None
  | Some s => Some s
  end.

Definition truthy_dict (d : option (gmap string value))
  : option (gmap string value) :=
  match d with
  | Some d => if decide (d = ∅) then None else Some d
  | None => None
  end.

(** [d.get(key)] and [d[key]]. *)
Definition dict_get (d : gmap string value) (key : string) : value :=
  default VNone (d !! key).

Definition dict_getitem (d : gmap string value) (key : string) : M value :=
  match d !! key with
  | Some v => ret v
  | None => raise (KeyError key)
  end.

(** A run-time value where [calculate_profit_loss] expects an
    [Optional[float]]: [None], a number, or else the [TypeError] of the
    subtraction at line 299. *)
Definition optional_float_of (v : value) : option (option Q) :=
  match v with
  | VNone => Some None
  | VFloat q => Some (Some q)
  | VInt z => Some (Some (inject_Z z))
  | _ => None
  end.

Definition as_optional_float (v : value) : M (option Q) :=
  match optional_float_of v with
  | Some x => ret x
  | None => raise TypeError
  end.

Section Engine.

(** Functions of the libraries and servers the code calls:
    [similarity(text, text)] of pg_trgm, and
    [hashlib.md5(s.encode('utf-8')).hexdigest()]. *)
Variable similarity : string -> string -> Q.
Variable md5_hexdigest : string -> string.

(** [(await db.execute(query)).scalars().all()] *)
Definition execute (query : Sql.Select) : M (list SalesHistory.t) :=
  fun w =>
    if store_fails w (length (statements w)) then
      (Raise SQLAlchemyError, log_statement query w)
    else
      (Return (Sql.run similarity query (table w)), log_statement query w).

(** *** Record matcher *)

Definition query_tier1_exact_match
    (player_id brand_id variation_id : string)
    (grade : option Q) (grader : option string) (limit : nat)
  : M (list SalesHistory.t) :=
  try_except
    (let query :=
       Sql.where_ Sql.select_SalesHistory
         [Sql.PlayerIdEq player_id;
          Sql.BrandIdEq brand_id;
          Sql.VariationIdEq variation_id] in
     let query :=
       match grade with
       | Some grade => Sql.where_ query [Sql.GradeEq grade]
       | None => query
       end in
     let query :=
       match truthy_str grader with
       | Some grader => Sql.where_ query [Sql.GraderEq grader]
       | None => query
       end in
     let query := Sql.limit (Sql.order_by query [Sql.SoldAtDesc]) limit in
     sales <- execute query ;;
     ret sales)
    (fun e => ret []).

Definition query_tier2_fuzzy_match
    (player_id brand_id : string) (year : option Z) (limit : nat)
  : M (list SalesHistory.t) :=
  try_except
    (let query :=
       Sql.where_ Sql.select_SalesHistory
         [Sql.PlayerIdSimilar player_id;
          Sql.BrandIdEq brand_id] in
     let query :=
       match year with
       | Some year => Sql.where_ query [Sql.YearEq year]
       | None => query
       end in
     let query :=
       Sql.limit
         (Sql.order_by query [Sql.SimilarityDesc player_id; Sql.SoldAtDesc])
         limit in
     sales <- execute query ;;
     ret sales)
    (fun e => ret []).

(** *** Valuation orchestrator *)

(** The default of the parameter [limit] of both tiers. *)
Definition default_limit : nat := 10.

Definition get_estimated_value
    (player_id brand_id variation_id : string)
    (year : option Z) (grade : option Q) (grader : option string)
  : M PricingResult.t :=
  sales <- query_tier1_exact_match player_id brand_id variation_id
                                   grade grader default_limit ;;
  matched <-
    match sales with
    | _ :: _ => ret (sales, "exact")
    | [] =>
        sales <- query_tier2_fuzzy_match player_id brand_id year
                                         default_limit ;;
        match sales with
        | _ :: _ => ret (sales, "fuzzy")
        | [] => ret (sales, "none")
        end
    end ;;
  let sales := fst matched in
  let match_tier := snd matched in
  let prices := map SalesHistory.price sales in
  let estimated_value := calculate_sanity_average prices in
  let sales_data := map SalesHistory.to_dict sales in
  ret (PricingResult.mk estimated_value match_tier (length sales) sales_data).

(** *** Result cache: [redis_client] *)

Definition REDIS_DEFAULT_TTL : Z := 3600.

Definition generate_cache_key (prefix identifier : string) : string :=
  prefix ++ ":" ++ md5_hexdigest identifier.

(** [await client.get(key)] followed by [json.loads], and
    [await client.setex(key, ttl, json.dumps(value))]. *)
Definition client_get (key : string) : M (option (gmap string value)) :=
  fun w =>
    if cache_fails w (cache_commands w) then
      (Raise RedisError, count_command (cache w) w)
    else
      (Return (snd <$> cache w !! key), count_command (cache w) w).

Definition client_setex (key : string) (ttl : Z) (value : gmap string value)
  : M unit :=
  fun w =>
    if cache_fails w (cache_commands w) then
      (Raise RedisError, count_command (cache w) w)
    else
      (Return tt, count_command (<[key := (ttl, value)]> (cache w)) w).

Definition get_cached_value (key : string) : M (option (gmap string value)) :=
  try_except
    (value <- client_get key ;;
     match value with
     | Some value => ret (Some value)
     | None => ret None
     end)
    (fun e => ret None).

Definition set_cached_value (key : string) (value : gmap string value) (ttl : Z)
  : M bool :=
  try_except
    (_ <- client_setex key ttl value ;;
     ret true)
    (fun e => ret false).

(** *** Request pipeline: [api/analyze.analyze_listing] *)

(** [await parse_listing_title_with_retry(title)] *)
Definition parse_listing_title_with_retry (title : string)
  : M ParsedCardData.t :=
  fun w => (parser w title, w).

Definition analyze_listing (request : AnalyzeRequest.t)
  : M AnalyzeResponse.t :=
  try_except
    (let cache_key :=
       generate_cache_key "analysis" (AnalyzeRequest.title request) in
     cached_result <- get_cached_value cache_key ;;
     match truthy_dict cached_result with
     | Some cached_result =>
         estimated_value <-
           as_optional_float (dict_get cached_result "estimated_value") ;;
         let (profit_loss, verdict) :=
           calculate_profit_loss (AnalyzeRequest.listing_price request)
                                 estimated_value in
         parsed_data <- dict_getitem cached_result "parsed_data" ;;
         estimated_value <- dict_getitem cached_result "estimated_value" ;;
         match_tier <- dict_getitem cached_result "match_tier" ;;
         sales_count <- dict_getitem cached_result "sales_count" ;;
         ret (AnalyzeResponse.mk parsed_data estimated_value
                profit_loss verdict match_tier sales_count true)
     | None =>
         parsed_data <-
           parse_listing_title_with_retry (AnalyzeRequest.title request) ;;
         let player_id :=
           slugify (Some (ParsedCardData.player_name parsed_data)) in
         let brand_id :=
           slugify (Some (ParsedCardData.brand parsed_data)) in
         let variation_id :=
           slugify (Some (default "Base"
                            (truthy_str (ParsedCardData.variation parsed_data)))) in
         pricing_result <-
           get_estimated_value player_id brand_id variation_id
             (ParsedCardData.year parsed_data)
             (ParsedCardData.grade parsed_data)
             (ParsedCardData.grading_company parsed_data) ;;
         let cache_data : gmap string value :=
           {[ "parsed_data" := VModel parsed_data;
              "estimated_value" :=
                optional_float (PricingResult.estimated_value pricing_result);
              "match_tier" := VStr (PricingResult.match_tier pricing_result);
              "sales_count" :=
                VInt (Z.of_nat (PricingResult.sales_count pricing_result)) ]} in
         _ <- set_cached_value cache_key cache_data REDIS_DEFAULT_TTL ;;
         let (profit_loss, verdict) :=
           calculate_profit_loss (AnalyzeRequest.listing_price request)
             (PricingResult.estimated_value pricing_result) in
         ret (AnalyzeResponse.mk
                (VModel parsed_data)
                (optional_float (PricingResult.estimated_value pricing_result))
                profit_loss verdict
                (VStr (PricingResult.match_tier pricing_result))
                (VInt (Z.of_nat (PricingResult.sales_count pricing_result)))
                false)
     end)
    (fun e =>
       if is_ValueError e then raise (HTTPException 400 e)
       else raise (HTTPException 500 e)).

End Engine.

(** ** More of the result cache: [redis_client] *)

(** [await client.delete] of one or more keys: the keys go one after
    the other, and the answer counts those that were there. *)
Fixpoint delete_keys (keys : list string)
    (c : gmap string (Z * gmap string value))
  : nat * gmap string (Z * gmap string value) :=
  match keys with
  | [] => (0%nat, c)
  | k :: r =>
      let (n, c') := delete_keys r (delete k c) in
      (if decide (is_Some (c !! k)) then S n else n, c')
  end.

Definition client_delete (keys : list string) : M nat :=
  fun w =>
    if cache_fails w (cache_commands w) then
      (Raise RedisError, count_command (cache w) w)
    else
      let (n, c) := delete_keys keys (cache w) in
      (Return n, count_command c w).

Definition delete_cached_value (key : string) : M bool :=
  try_except
    (_ <- client_delete [key] ;;
     ret true)
    (fun e => ret false).

Section CacheAdmin.

(** The glob matching of the cache server: [glob_match pattern key]. *)
Variable glob_match : string -> string -> bool.

(** [[key async for key in client.scan_iter(match=pattern)]]; the
    iteration counts as one command. *)
Definition client_scan (pattern : string) : M (list string) :=
  fun w =>
    if cache_fails w (cache_commands w) then
      (Raise RedisError, count_command (cache w) w)
    else
      (Return (List.filter (glob_match pattern)
                 (map fst (map_to_list (cache w)))),
       count_command (cache w) w).

Definition clear_cache_by_pattern (pattern : string) : M nat :=
  try_except
    (keys <- client_scan pattern ;;
     match keys with
     | _ :: _ =>
         deleted <- client_delete keys ;;
         ret deleted
     | [] => ret 0%nat
     end)
    (fun e => ret 0%nat).

End CacheAdmin.

(** ** Validation of a request: [api/analyze.AnalyzeRequest] *)

(** The validator of [title]: [v.strip()], refused when empty. *)
Definition validate_title (v : string) : outcome string :=
  match Py.strip Py.isspace (list_ascii_of_string v) with
  | [] => Raise ValueError
  | stripped => Return (string_of_list_ascii stripped)
  end.

(** The fields of the model: [title] of 1 to 500 characters, then its
    validator; [listing_price] above 0.  A refusal is a [ValidationError],
    which is a [ValueError]. *)
Definition validate_AnalyzeRequest (title : string) (listing_price : Q)
  : outcome AnalyzeRequest.t :=
  if (String.length title <? 1)%nat || (500 <? String.length title)%nat then
    Raise ValueError
  else
    match validate_title title with
    | Raise e => Raise e
    | Return title =>
        if Py.ltb 0 listing_price then
          Return (AnalyzeRequest.mk title listing_price)
        else Raise ValueError
    end.

(** ** The retries of the title parser: [services/openai_service] *)

Module OpenAI.
Section Retry.

(** The outcome of the [k]-th call of [parse_listing_title]. *)
Variable parse_listing_title : nat -> string -> outcome ParsedCardData.t.

(** The loop [for attempt in range(max_retries + 1)] with [n] rounds to
    go, [k] calls made and the error of the last one; after the loop,
    [raise last_error], which is a [TypeError] when there is none.  The
    result comes with the number of calls made. *)
Fixpoint attempts (title : string) (n k : nat) (last_error : option exn)
  : outcome ParsedCardData.t * nat :=
  match n with
  | O =>
      (match last_error with
       | Some e => Raise e
       | None => Raise TypeError
       end, k)
  | S n =>
      match parse_listing_title k title with
      | Return data => (Return data, S k)
      | Raise e => attempts title n (S k) (Some e)
      end
  end.

Definition parse_listing_title_with_retry (title : string) (max_retries : Z)
  : outcome ParsedCardData.t * nat :=
  attempts title (Z.to_nat (max_retries + 1)) 0 None.

End Retry.
End OpenAI.

(** ** Bulk analysis: [api/bulk_analyze] *)

(** The [data] of a step: a dictionary written out, or
    [p.model_dump()]. *)
Inductive step_data :=
| Dict (d : gmap string value)
| ModelDump (p : ParsedCardData.t).

Module AnalysisStep.
Record t := mk {
  step : Z;
  name : string;
  status : string;
  details : string;
  data : option step_data;
  timestamp : string
}.
End AnalysisStep.

(** A value of the [data] of a result: a value as above, or a
    boolean. *)
Inductive item_value :=
| Plain (v : value)
| Flag (b : bool).

Module BulkAnalyzeResultItem.
Record t := mk {
  index : Z;
  title : string;
  listing_price : Q;
  success : bool;
  data : option (gmap string item_value);
  error : option string;
  analysis_steps : list AnalysisStep.t
}.
End BulkAnalyzeResultItem.

(** [str(n)] of an integer, and [s.replace(old, new)] for single
    characters. *)
Definition str_int (n : Z) : string :=
  if (n <? 0)%Z then "-" ++ Py.digits (- n) else Py.digits n.

Definition replace_char (old new : ascii) (s : string) : string :=
  string_of_list_ascii
    (map (fun c => if Ascii.eqb c old then new else c)
         (list_ascii_of_string s)).

(** [x or y] for an [Optional[int]] and an [Optional[float]] [x]: zero
    is as false as [None]. *)
Definition truthy_int (x : option Z) : option Z :=
  match x with
  | Some n => if (n =? 0)%Z then None else Some n
  | None => None
  end.

Definition truthy_float (x : option Q) : option Q :=
  match x with
  | Some q => if Qeq_bool q 0 then None else Some q
  | None => None
  end.

(** The local variables [analysis_steps] and [step_counter] of
    [analyze_single_listing]: they are assigned inside the [try] and read
    by the handler, so they outlive an exception. *)
Record locals := mkLocals {
  analysis_steps : list AnalysisStep.t;
  step_counter : Z
}.

Definition L (A : Type) : Type := locals -> World -> outcome A * locals * World.

Definition retL {A} (a : A) : L A := fun l w => (Return a, l, w).

Definition bindL {A B} (m : L A) (k : A -> L B) : L B :=
  fun l w =>
    match m l w with
    | (Return a, l', w') => k a l' w'
    | (Raise e, l', w') => (Raise e, l', w')
    end.

Definition liftL {A} (m : M A) : L A :=
  fun l w => let (r, w') := m w in (r, l, w').

Definition try_exceptL {A} (body : L A) (handler : exn -> L A) : L A :=
  fun l w =>
    match body l w with
    | (Return a, l', w') => (Return a, l', w')
    | (Raise e, l', w') => handler e l' w'
    end.

Notation "x <~ m ;; k" := (bindL m (fun x => k))
  (at level 100, m at next level, right associativity).

(** [step_counter += 1], and the value of [analysis_steps]. *)
Definition increment : L unit :=
  fun l w => (Return tt, mkLocals (analysis_steps l) (step_counter l + 1), w).

Definition steps_so_far : L (list AnalysisStep.t) :=
  fun l w => (Return (analysis_steps l), l, w).

Section Bulk.

Variable similarity : string -> string -> Q.
Variable md5_hexdigest : string -> string.

(** What the code asks of the clock and of the library:
    [datetime.now(timezone.utc).isoformat()] at the [n]-th reading of the
    clock during the call, [format(x)] of a float, [s.title()] and
    [str(e)] of an exception. *)
Variable now : nat -> string.
Variable str_float : Q -> string.
Variable str_title : string -> string.
Variable str_exn : exn -> string.

(** [analysis_steps.append(AnalysisStep(step=step_counter, ...,
    timestamp=datetime.now(timezone.utc).isoformat()))]: every step reads
    the clock once. *)
Definition append_step (name status details : string)
    (data : option step_data) : L unit :=
  fun l w =>
    let s :=
      AnalysisStep.mk (step_counter l) name status details data
                      (now (length (analysis_steps l))) in
    (Return tt, mkLocals (analysis_steps l ++ [s])%list (step_counter l), w).

Definition analyze_single_listing (index : Z) (title : string)
    (listing_price : Q) : M BulkAnalyzeResultItem.t :=
  fun w =>
    let '(r, _, w') :=
      try_exceptL
        (let cache_key := generate_cache_key md5_hexdigest "analysis" title in
         cached_result <~ liftL (get_cached_value cache_key) ;;
         match truthy_dict cached_result with
         | Some cached_result =>
             _ <~ append_step "Cache Check" "success"
                    "Cache hit - Retrieved cached result for this title"
                    None ;;
             _ <~ increment ;;
             estimated_value <~
               liftL (as_optional_float
                        (dict_get cached_result "estimated_value")) ;;
             let (profit_loss, verdict) :=
               calculate_profit_loss listing_price estimated_value in
             let profit_value := default 0 profit_loss in
             _ <~ append_step "Pricing Calculation" "success"
                    ("Calculated profit/loss: $" ++ Py.format_2f profit_value)
                    (Some (Dict
                       {[ "listing_price" := VFloat listing_price;
                          "estimated_value" :=
                            dict_get cached_result "estimated_value";
                          "profit_loss" := optional_float profit_loss ]})) ;;
             parsed_data <~ liftL (dict_getitem cached_result "parsed_data") ;;
             estimated_value <~
               liftL (dict_getitem cached_result "estimated_value") ;;
             match_tier <~ liftL (dict_getitem cached_result "match_tier") ;;
             sales_count <~ liftL (dict_getitem cached_result "sales_count") ;;
             analysis_steps <~ steps_so_far ;;
             retL (BulkAnalyzeResultItem.mk index title listing_price true
                     (Some {[ "parsed_data" := Plain parsed_data;
                              "estimated_value" := Plain estimated_value;
                              "profit_loss" :=
                                Plain (optional_float profit_loss);
                              "verdict" := Plain (VStr verdict);
                              "match_tier" := Plain match_tier;
                              "sales_count" := Plain sales_count;
                              "cached" := Flag true ]})
                     None analysis_steps)
         | None =>
             _ <~ append_step "Cache Check" "success"
                    "Cache miss - No cached result found, proceeding with fresh analysis"
                    None ;;
             _ <~ increment ;;
             parsed_data <~ liftL (parse_listing_title_with_retry title) ;;
             _ <~ append_step "LLM Parsing" "success"
                    ("Extracted: " ++ ParsedCardData.player_name parsed_data
                     ++ ", "
                     ++ match truthy_int (ParsedCardData.year parsed_data) with
                        | Some year => str_int year
                        | None => "N/A"
                        end
                     ++ ", " ++ ParsedCardData.brand parsed_data
                     ++ ", "
                     ++ default "Base"
                          (truthy_str (ParsedCardData.variation parsed_data))
                     ++ ", "
                     ++ default "Ungraded"
                          (truthy_str
                             (ParsedCardData.grading_company parsed_data))
                     ++ " "
                     ++ match truthy_float (ParsedCardData.grade parsed_data)
                        with
                        | Some grade => str_float grade
                        | None => ""
                        end)
                    (Some (ModelDump parsed_data)) ;;
             _ <~ increment ;;
             let player_id :=
               slugify (Some (ParsedCardData.player_name parsed_data)) in
             let brand_id :=
               slugify (Some (ParsedCardData.brand parsed_data)) in
             let variation_id :=
               slugify (Some (default "Base"
                                (truthy_str
                                   (ParsedCardData.variation parsed_data)))) in
             _ <~ append_step "ID Normalization" "success"
                    ("Normalized IDs - player: " ++ player_id
                     ++ ", brand: " ++ brand_id
                     ++ ", variation: " ++ variation_id)
                    (Some (Dict {[ "player_id" := VStr player_id;
                                   "brand_id" := VStr brand_id;
                                   "variation_id" := VStr variation_id ]})) ;;
             _ <~ increment ;;
             pricing_result <~
               liftL (get_estimated_value similarity
                        player_id brand_id variation_id
                        (ParsedCardData.year parsed_data)
                        (ParsedCardData.grade parsed_data)
                        (ParsedCardData.grading_company parsed_data)) ;;
             let sales_count := PricingResult.sales_count pricing_result in
             let match_tier_display :=
               str_title
                 (replace_char "_" " "
                    (PricingResult.match_tier pricing_result)) in
             _ <~ (if (0 <? sales_count)%nat then
                     append_step "Database Matching" "success"
                       (match_tier_display ++ " Match - Found "
                        ++ str_int (Z.of_nat sales_count)
                        ++ " comparable sales")
                       (Some (Dict
                          {[ "match_tier" :=
                               VStr (PricingResult.match_tier pricing_result);
                             "sales_count" := VInt (Z.of_nat sales_count) ]}))
                   else
                     append_step "Database Matching" "warning"
                       "No comparable sales found in database"
                       (Some (Dict
                          {[ "match_tier" :=
                               VStr (PricingResult.match_tier pricing_result);
                             "sales_count" := VInt 0 ]}))) ;;
             _ <~ increment ;;
             let cache_data : gmap string value :=
               {[ "parsed_data" := VModel parsed_data;
                  "estimated_value" :=
                    optional_float
                      (PricingResult.estimated_value pricing_result);
                  "match_tier" :=
                    VStr (PricingResult.match_tier pricing_result);
                  "sales_count" := VInt (Z.of_nat sales_count) ]} in
             _ <~ liftL (set_cached_value cache_key cache_data
                           REDIS_DEFAULT_TTL) ;;
             let (profit_loss, verdict) :=
               calculate_profit_loss listing_price
                 (PricingResult.estimated_value pricing_result) in
             let estimated_value_display :=
               default 0 (PricingResult.estimated_value pricing_result) in
             _ <~ (if (3 <=? sales_count)%nat then
                     let outliers_removed := 2%Z in
                     let sales_used :=
                       (Z.of_nat sales_count - outliers_removed)%Z in
                     append_step "Pricing Calculation" "success"
                       ("Used " ++ str_int (Z.of_nat sales_count)
                        ++ " sales, removed " ++ str_int outliers_removed
                        ++ " outliers (highest & lowest), averaged remaining "
                        ++ str_int sales_used ++ " sales: $"
                        ++ Py.format_2f estimated_value_display)
                       (Some (Dict
                          {[ "total_sales" := VInt (Z.of_nat sales_count);
                             "outliers_removed" := VInt outliers_removed;
                             "sales_used" := VInt sales_used;
                             "estimated_value" :=
                               optional_float
                                 (PricingResult.estimated_value
                                    pricing_result) ]}))
                   else if (0 <? sales_count)%nat then
                     append_step "Pricing Calculation" "success"
                       ("Used all " ++ str_int (Z.of_nat sales_count)
                        ++ " sales (no outlier removal for <3 sales), average: $"
                        ++ Py.format_2f estimated_value_display)
                       (Some (Dict
                          {[ "total_sales" := VInt (Z.of_nat sales_count);
                             "outliers_removed" := VInt 0;
                             "sales_used" := VInt (Z.of_nat sales_count);
                             "estimated_value" :=
                               optional_float
                                 (PricingResult.estimated_value
                                    pricing_result) ]}))
                   else
                     append_step "Pricing Calculation" "warning"
                       "Could not calculate estimated value - no sales data available"
                       (Some (Dict
                          {[ "total_sales" := VInt 0;
                             "outliers_removed" := VInt 0;
                             "sales_used" := VInt 0;
                             "estimated_value" := VNone ]}))) ;;
             analysis_steps <~ steps_so_far ;;
             retL (BulkAnalyzeResultItem.mk index title listing_price true
                     (Some {[ "parsed_data" := Plain (VModel parsed_data);
                              "estimated_value" :=
                                Plain (optional_float
                                         (PricingResult.estimated_value
                                            pricing_result));
                              "profit_loss" :=
                                Plain (optional_float profit_loss);
                              "verdict" := Plain (VStr verdict);
                              "match_tier" :=
                                Plain (VStr (PricingResult.match_tier
                                               pricing_result));
                              "sales_count" :=
                                Plain (VInt (Z.of_nat sales_count));
                              "cached" := Flag false ]})
                     None analysis_steps)
         end)
        (fun e =>
           _ <~ append_step "Error" "error"
                  ("Analysis failed: " ++ str_exn e) None ;;
           analysis_steps <~ steps_so_far ;;
           retL (BulkAnalyzeResultItem.mk index title listing_price false
                   None (Some (str_exn e)) analysis_steps))
        (mkLocals [] 1) w in
    (r, w').

End Bulk.

(** ** Seeding the store: [seed_db.py] *)

(** What [json.load] returns. *)
Module Json.
#[local] Unset Elimination Schemes.
Inductive t :=
| Null
| Bool (b : bool)
| Int (n : Z)
| Float (x : Q)
| Str (s : string)
| Array (l : list t)
| Object (o : gmap string t).
#[local] Set Elimination Schemes.

(** [bool(v)] *)
Definition truthy (v : t) : bool :=
  match v with
  | Null => false
  | Bool b => b
  | Int n => negb (n =? 0)%Z
  | Float x => negb (Qeq_bool x 0)
  | Str s => negb (String.eqb s "")
  | Array l => negb (Nat.eqb (length l) 0)
  | Object o => negb (Nat.eqb (size o) 0)
  end.
End Json.

Module Seed.

(** The exceptions of the script.  [JSONDecodeError] is a [ValueError];
    [Exception] is the plain exception the session helpers raise. *)
Inductive error :=
| ValueError
| JSONDecodeError
| TypeError
| KeyError
| AttributeError
| InvalidOperation
| OverflowError
| FileNotFoundError
| Exception.

(** [isinstance(e, ValueError)] *)
Definition is_ValueError (e : error) : bool :=
  match e with
  | ValueError | JSONDecodeError => true
  | _ => false
  end.

Inductive result (A : Type) :=
| Ok (a : A)
| Err (e : error).
Arguments Ok {A} a.
Arguments Err {A} e.

Definition and_then {A B} (r : result A) (k : A -> result B) : result B :=
  match r with
  | Ok a => k a
  | Err e => Err e
  end.

Notation "x <-? m ;; k" := (and_then m (fun x => k))
  (at level 100, m at next level, right associativity).

(** A [SalesHistory] as [transform_record] builds it: no [id] yet, and
    [year] and [grader] hold what the record holds. *)
Module Instance.
Record t := mk {
  player_id : string;
  brand_id : string;
  variation_id : string;
  year : Json.t;
  grade : Q;
  grader : Json.t;
  price : Q;
  sold_at : Z
}.
End Instance.

(** [field in record] and [record[field]] for a string [field]: a
    dictionary has keys, a list has elements, a string has substrings,
    and only a dictionary can be subscripted by a string. *)
Definition contains (record : Json.t) (field : string) : result bool :=
  match record with
  | Json.Object o => Ok (bool_decide (is_Some (o !! field)))
  | Json.Array l =>
      Ok (existsb (fun v => match v with
                            | Json.Str s => String.eqb s field
                            | _ => false
                            end) l)
  | Json.Str s =>
      Ok (match String.index 0 field s with Some _ => true | None => false end)
  | _ => Err TypeError
  end.

Definition getitem (record : Json.t) (field : string) : result Json.t :=
  match record with
  | Json.Object o =>
      match o !! field with
      | Some v => Ok v
      | None => Err KeyError
      end
  | _ => Err TypeError
  end.

(** [isinstance(v, int)] and [isinstance(v, (int, float))]: a [bool] is an
    [int]. *)
Definition is_int (v : Json.t) : bool :=
  match v with
  | Json.Int _ | Json.Bool _ => true
  | _ => false
  end.

Definition is_number (v : Json.t) : bool :=
  match v with
  | Json.Int _ | Json.Bool _ | Json.Float _ => true
  | _ => false
  end.

Definition required_fields : list string :=
  ["player_name"; "brand"; "variation"; "year"; "grade"; "grader"; "price";
   "sold_at"].

(** The loop over [required_fields]. *)
Fixpoint check_fields (record : Json.t) (fields : list string) : result unit :=
  match fields with
  | [] => Ok tt
  | field :: fields =>
      present <-? contains record field ;;
      if present then check_fields record fields else Err ValueError
  end.

Definition validate_record (record : Json.t) (index : nat) : result unit :=
  _ <-? check_fields record required_fields ;;
  year <-? getitem record "year" ;;
  if negb (is_int year) then Err ValueError
  else
    grade <-? getitem record "grade" ;;
    if negb (is_number grade) then Err ValueError
    else
      price <-? getitem record "price" ;;
      if negb (is_number price) then Err ValueError
      else Ok tt.

(** [s.replace('Z', '+00:00')] *)
Definition replace_Z (s : string) : string :=
  string_of_list_ascii
    (Re.sub (Re.lit "Z") (list_ascii_of_string "+00:00")
            (list_ascii_of_string s)).

Section Transform.

(** The parsers of the library: [datetime.fromisoformat], [float] and
    [Decimal] of a string; [None] stands for their error. *)
Variable fromisoformat : string -> option Z.
Variable float_of_str : string -> option Q.
Variable decimal_of_str : string -> option Q.

(** [slugify(v)] for whatever the record holds: a false value gives the
    empty string, a string is normalised, and anything else has no
    [lower]. *)
Definition slugify_value (v : Json.t) : result string :=
  match v with
  | Json.Null => Ok (slugify None)
  | Json.Str s => Ok (slugify (Some s))
  | _ => if Json.truthy v then Err AttributeError else Ok ""
  end.

(** [float(v)]: an integer gives the float nearest to it, and an
    [OverflowError] when that is no finite float, from [2^1024 - 2^970]
    on in size. *)
Definition float_of (v : Json.t) : result Q :=
  match v with
  | Json.Int n =>
      let x := Binary64.of_Z n in
      if Binary64.is_infinite x then Err OverflowError
      else Ok (Binary64.to_Q x)
  | Json.Bool b => Ok (inject_Z (Z.b2z b))
  | Json.Float x => Ok x
  | Json.Str s =>
      match float_of_str s with
      | Some x => Ok x
      | None => Err ValueError
      end
  | _ => Err TypeError
  end.

(** [Decimal(str(v))]: the text of a number is a number, the text of
    anything else but a string is none. *)
Definition decimal_of (v : Json.t) : result Q :=
  match v with
  | Json.Int n => Ok (inject_Z n)
  | Json.Float x => Ok x
  | Json.Str s =>
      match decimal_of_str s with
      | Some x => Ok x
      | None => Err InvalidOperation
      end
  | _ => Err InvalidOperation
  end.

Definition transform_record (record : Json.t) : result Instance.t :=
  player_name <-? getitem record "player_name" ;;
  player_id <-? slugify_value player_name ;;
  brand <-? getitem record "brand" ;;
  brand_id <-? slugify_value brand ;;
  variation <-? getitem record "variation" ;;
  variation_id <-? slugify_value variation ;;
  sold_at <-? getitem record "sold_at" ;;
  sold_at <-?
    match sold_at with
    | Json.Str s =>
        match fromisoformat (replace_Z s) with
        | Some t => Ok t
        | None => Err ValueError
        end
    | _ => Err AttributeError
    end ;;
  year <-? getitem record "year" ;;
  grade <-? getitem record "grade" ;;
  grade <-? float_of grade ;;
  grader <-? getitem record "grader" ;;
  price <-? getitem record "price" ;;
  price <-? decimal_of price ;;
  Ok (Instance.mk player_id brand_id variation_id year grade grader price
                  sold_at).

(** The loop that validates and transforms: a [ValueError] skips the
    record and counts it, any other exception ends the loop. *)
Fixpoint validate_and_transform (raw_data : list Json.t) (i : nat)
    (records : list Instance.t) (errors : nat)
  : result (list Instance.t * nat) :=
  match raw_data with
  | [] => Ok (records, errors)
  | record :: raw_data =>
      match (_ <-? validate_record record i ;; transform_record record) with
      | Ok instance =>
          validate_and_transform raw_data (S i) (records ++ [instance])%list
                                 errors
      | Err e =>
          if is_ValueError e then
            validate_and_transform raw_data (S i) records (S errors)
          else Err e
      end
  end.

(** What lies outside the script: the rows of [sales_history], the
    number of sessions opened so far and whether the work of the [n]-th
    session fails, and what there is to read at a path: nothing, a text
    that is not JSON, or a JSON value. *)
Record Db := mkDb {
  rows : list Instance.t;
  sessions : nat;
  session_fails : nat -> bool;
  files : string -> option (option Json.t)
}.

Definition Script (A : Type) : Type := Db -> result A * Db.

Definition retS {A} (a : A) : Script A := fun db => (Ok a, db).

Definition raiseS {A} (e : error) : Script A := fun db => (Err e, db).

Definition bindS {A B} (m : Script A) (k : A -> Script B) : Script B :=
  fun db =>
    match m db with
    | (Ok a, db') => k a db'
    | (Err e, db') => (Err e, db')
    end.

Definition liftS {A} (r : result A) : Script A := fun db => (r, db).

Notation "x <<- m ;; k" := (bindS m (fun x => k))
  (at level 100, m at next level, right associativity).

(** A session whose work is [change]: committed, or rolled back with
    the exception of the helper. *)
Definition session {A} (change : list Instance.t -> A * list Instance.t)
  : Script A :=
  fun db =>
    if session_fails db (sessions db) then
      (Err Exception,
       mkDb (rows db) (S (sessions db)) (session_fails db) (files db))
    else
      let (a, rows') := change (rows db) in
      (Ok a, mkDb rows' (S (sessions db)) (session_fails db) (files db)).

Definition clear_sales_history : Script nat :=
  session (fun rows => (length rows, [])).

Definition insert_batch (records : list Instance.t) : Script nat :=
  session (fun rows => (length records, (rows ++ records)%list)).

Definition load_json_data (file_path : string) : Script (list Json.t) :=
  fun db =>
    match files db file_path with
    | None => (Err FileNotFoundError, db)
    | Some None => (Err JSONDecodeError, db)
    | Some (Some (Json.Array data)) => (Ok data, db)
    | Some (Some _) => (Err ValueError, db)
    end.

(** The dictionary [stats]. *)
Record Stats := mkStats {
  total_records : nat;
  inserted : nat;
  cleared : nat;
  errors : nat
}.

(** [range(0, stop, step)]: an error for the step 0, empty for a
    negative step. *)
Definition range (stop : nat) (step : Z) : result (list nat) :=
  if (step =? 0)%Z then Err ValueError
  else if (step <? 0)%Z then Ok []
  else
    let step := Z.to_nat step in
    Ok (map (fun k => k * step)%nat (seq 0 ((stop + step - 1) / step))).

(** [records[i:i + batch_size]] for [0 <= i]. *)
Definition slice (records : list Instance.t) (i : nat) (batch_size : Z)
  : list Instance.t :=
  let stop := (Z.of_nat i + batch_size)%Z in
  if (stop <? 0)%Z then
    firstn (length records - Z.to_nat (- stop) - i) (skipn i records)
  else firstn (Z.to_nat stop - i) (skipn i records).

(** The loop that inserts: the exception of a batch is caught and its
    records are counted as errors. *)
Fixpoint insert_batches (starts : list nat) (records : list Instance.t)
    (batch_size : Z) (total_inserted : nat) (stats : Stats) : Script Stats :=
  match starts with
  | [] => retS stats
  | i :: starts =>
      let batch := slice records i batch_size in
      fun db =>
        match insert_batch batch db with
        | (Ok inserted, db') =>
            let total_inserted := (total_inserted + inserted)%nat in
            insert_batches starts records batch_size total_inserted
              (mkStats (total_records stats) total_inserted (cleared stats)
                       (errors stats)) db'
        | (Err e, db') =>
            insert_batches starts records batch_size total_inserted
              (mkStats (total_records stats) (inserted stats) (cleared stats)
                       (errors stats + length batch)) db'
        end
  end.

(** Every handler of the outer [try] raises the exception again. *)
Definition seed_database (file_path : string) (batch_size : Z)
    (clear_existing : bool) : Script Stats :=
  let stats := mkStats 0 0 0 0 in
  stats <<-
    (if clear_existing then
       cleared <<- clear_sales_history ;;
       retS (mkStats (total_records stats) (inserted stats) cleared
                     (errors stats))
     else retS stats) ;;
  raw_data <<- load_json_data file_path ;;
  let stats :=
    mkStats (length raw_data) (inserted stats) (cleared stats)
            (errors stats) in
  validated <<-
    liftS (validate_and_transform raw_data 0 [] (errors stats)) ;;
  let records := fst validated in
  let stats :=
    mkStats (total_records stats) (inserted stats) (cleared stats)
            (snd validated) in
  let total_inserted := 0%nat in
  starts <<- liftS (range (length records) batch_size) ;;
  insert_batches starts records batch_size total_inserted stats.

End Transform.
End Seed.

(** ** Browsing the sales: [api/database.py] *)

Module Browse.

(** The columns of [sales_history], which are the attributes of
    [SalesHistory] that have [asc] and [desc]. *)
Inductive column :=
| Id
| PlayerId
| BrandId
| VariationId
| Year
| Grade
| Grader
| Price
| SoldAt.

(** [getattr(SalesHistory, sort_by)], where it is a column. *)
Definition column_of (sort_by : string) : option column :=
  if String.eqb sort_by "id" then Some Id
  else if String.eqb sort_by "player_id" then Some PlayerId
  else if String.eqb sort_by "brand_id" then Some BrandId
  else if String.eqb sort_by "variation_id" then Some VariationId
  else if String.eqb sort_by "year" then Some Year
  else if String.eqb sort_by "grade" then Some Grade
  else if String.eqb sort_by "grader" then Some Grader
  else if String.eqb sort_by "price" then Some Price
  else if String.eqb sort_by "sold_at" then Some SoldAt
  else None.

(** The conditions the endpoint collects in [filters]. *)
Inductive condition :=
| PlayerIdEq (s : string)
| BrandIdEq (s : string)
| GraderEq (s : string)
| GradeGe (g : Q)
| GradeLe (g : Q).

(** The two statements of the endpoint: [select(func.count())] and
    [select(SalesHistory)] with an order, an offset and a limit; the
    flag of the order is on for [desc]. *)
Inductive statement :=
| Count (filters : list condition)
| Select (filters : list condition) (sort_column : column) (desc : bool)
         (offset limit : Z).

Inductive error :=
| DatabaseError
| AttributeError
| ZeroDivisionError
| HTTPException (status_code : Z) (cause : error).

Inductive result (A : Type) :=
| Return (a : A)
| Raise (e : error).
Arguments Return {A} a.
Arguments Raise {A} e.

(** The session: the table, the statements sent so far, and whether the
    [n]-th statement fails. *)
Record Session := mkSession {
  table : list SalesHistory.t;
  statements : list statement;
  statement_fails : nat -> bool
}.

Definition Task (A : Type) : Type := Session -> result A * Session.

Definition ret {A} (a : A) : Task A := fun s => (Return a, s).

Definition raise {A} (e : error) : Task A := fun s => (Raise e, s).

Definition bind {A B} (m : Task A) (k : A -> Task B) : Task B :=
  fun s =>
    match m s with
    | (Return a, s') => k a s'
    | (Raise e, s') => (Raise e, s')
    end.

Definition try_except {A} (body : Task A) (handler : error -> Task A)
  : Task A :=
  fun s =>
    match body s with
    | (Return a, s') => (Return a, s')
    | (Raise e, s') => handler e s'
    end.

Notation "x <-- m ;; k" := (bind m (fun x => k))
  (at level 100, m at next level, right associativity).

Section Run.

(** The order of the collation of the store on texts. *)
Variable collation_lt : string -> string -> bool.

Definition holds (r : SalesHistory.t) (c : condition) : bool :=
  match c with
  | PlayerIdEq s => String.eqb (SalesHistory.player_id r) s
  | BrandIdEq s => String.eqb (SalesHistory.brand_id r) s
  | GraderEq s => String.eqb (SalesHistory.grader r) s
  | GradeGe g => Qle_bool g (SalesHistory.grade r)
  | GradeLe g => Qle_bool (SalesHistory.grade r) g
  end.

(** [a] has the smaller value in a column. *)
Definition below (c : column) (a b : SalesHistory.t) : bool :=
  match c with
  | Id => (SalesHistory.id a <? SalesHistory.id b)%Z
  | PlayerId =>
      collation_lt (SalesHistory.player_id a) (SalesHistory.player_id b)
  | BrandId =>
      collation_lt (SalesHistory.brand_id a) (SalesHistory.brand_id b)
  | VariationId =>
      collation_lt (SalesHistory.variation_id a) (SalesHistory.variation_id b)
  | Year => (SalesHistory.year a <? SalesHistory.year b)%Z
  | Grade => Py.ltb (SalesHistory.grade a) (SalesHistory.grade b)
  | Grader =>
      collation_lt (SalesHistory.grader a) (SalesHistory.grader b)
  | Price => Py.ltb (SalesHistory.price a) (SalesHistory.price b)
  | SoldAt => (SalesHistory.sold_at a <? SalesHistory.sold_at b)%Z
  end.

Definition matching (filters : list condition) (rows : list SalesHistory.t)
  : list SalesHistory.t :=
  List.filter (fun r => forallb (holds r) filters) rows.

(** The rows in the order asked for; rows with equal values keep the
    order of the table, where SQL leaves their order open. *)
Definition ordered (sort_column : column) (desc : bool)
    (rows : list SalesHistory.t) : list SalesHistory.t :=
  Py.sorted (fun a b => if desc then below sort_column b a
                        else below sort_column a b) rows.

Definition log (q : statement) (s : Session) : Session :=
  mkSession (table s) (statements s ++ [q])%list (statement_fails s).

(** [(await db.execute(count_query)).scalar()] *)
Definition execute_scalar (filters : list condition) : Task Z :=
  fun s =>
    if statement_fails s (length (statements s)) then
      (Raise DatabaseError, log (Count filters) s)
    else
      (Return (Z.of_nat (length (matching filters (table s)))),
       log (Count filters) s).

(** [(await db.execute(query)).scalars().all()]; the store refuses a
    negative offset and a negative limit. *)
Definition execute_scalars (filters : list condition) (sort_column : column)
    (desc : bool) (offset limit : Z) : Task (list SalesHistory.t) :=
  fun s =>
    let q := Select filters sort_column desc offset limit in
    if statement_fails s (length (statements s))
       || (offset <? 0)%Z || (limit <? 0)%Z then
      (Raise DatabaseError, log q s)
    else
      (Return (firstn (Z.to_nat limit)
                 (skipn (Z.to_nat offset)
                    (ordered sort_column desc (matching filters (table s))))),
       log q s).

Record Pagination := mkPagination {
  total : Z;
  page : Z;
  per_page : Z;
  total_pages : Z
}.

Record Response := mkResponse {
  data : list (gmap string value);
  pagination : Pagination
}.

Definition get_sales_history (page per_page : Z)
    (player_id brand_id grader : option string)
    (min_grade max_grade : option Q) (sort_by sort_order : string)
  : Task Response :=
  try_except
    (let filters :=
       (match truthy_str player_id with
        | Some player_id => [PlayerIdEq player_id]
        | None => []
        end
        ++ match truthy_str brand_id with
           | Some brand_id => [BrandIdEq brand_id]
           | None => []
           end
        ++ match truthy_str grader with
           | Some grader => [GraderEq grader]
           | None => []
           end
        ++ match min_grade with
           | Some min_grade => [GradeGe min_grade]
           | None => []
           end
        ++ match max_grade with
           | Some max_grade => [GradeLe max_grade]
           | None => []
           end)%list in
     total <-- execute_scalar filters ;;
     sort_column <--
       match column_of sort_by with
       | Some c => ret c
       | None => raise AttributeError
       end ;;
     let desc := String.eqb sort_order "desc" in
     let offset := ((page - 1) * per_page)%Z in
     results <-- execute_scalars filters sort_column desc offset per_page ;;
     total_pages <--
       (if (0 <? total)%Z then
          if (per_page =? 0)%Z then raise ZeroDivisionError
          else ret ((total + per_page - 1) / per_page)%Z
        else ret 0%Z) ;;
     let data :=
       map (fun record =>
              ({[ "id" := VInt (SalesHistory.id record);
                  "player_id" := VStr (SalesHistory.player_id record);
                  "brand_id" := VStr (SalesHistory.brand_id record);
                  "variation_id" := VStr (SalesHistory.variation_id record);
                  "year" := VInt (SalesHistory.year record);
                  "grade" := VFloat (SalesHistory.grade record);
                  "grader" := VStr (SalesHistory.grader record);
                  "price" := VFloat (SalesHistory.price record);
                  "sold_at" := VIso (SalesHistory.sold_at record) ]}
               : gmap string value))
           results in
     ret (mkResponse data (mkPagination total page per_page total_pages)))
    (fun e => raise (HTTPException 500 e)).

End Run.
End Browse.

(** ** Vocabulary of the statements *)

(** The arithmetic mean: the sum of the values over their number. *)
Definition arithmetic_mean (xs : list Q) : Q :=
  fold_right Qplus 0 xs / inject_Z (Z.of_nat (length xs)).


(** [x] may stand before [y] in a list sorted by [lt]. *)
Definition ascending {A} (lt : A -> A -> bool) (x y : A) : Prop :=
  lt y x = false.

Definition hyphen : ascii := "-"%char.

(** The shape of a normalised identifier: characters of [[a-z0-9-]] only,
    no hyphen at either end, no two hyphens in a row. *)
Record slug_shaped (s : list ascii) : Prop := {
  shaped_chars : Forall (fun c => slug_class c = true) s;
  shaped_head : forall r, s <> hyphen :: r;
  shaped_last : forall l, s <> (l ++ [hyphen])%list;
  shaped_runs : forall l r, s <> (l ++ hyphen :: hyphen :: r)%list
}.

(** The five steps of [slugify] on the characters of a string. *)
Definition slugify_steps (s : list ascii) : list ascii :=
  Py.strip (Re.lit hyphen)
    (Re.sub_plus (Re.lit hyphen) [hyphen]
       (Re.sub (Re.neg slug_class) []
          (Re.sub_plus Re.space [hyphen] (Py.lower s)))).

#[global] Instance Qeq_decision (x y : Q) : Decision (x == y) := Qeq_dec x y.

(** The records Tier 1 asks for: equal player, brand and variation; equal
    grade when a grade is given; equal grading authority when one is given
    (the empty text names none). *)
Definition tier1_hit (player_id brand_id variation_id : string)
    (grade : option Q) (grader : option string) (r : SalesHistory.t) : Prop :=
  SalesHistory.player_id r = player_id /\
  SalesHistory.brand_id r = brand_id /\
  SalesHistory.variation_id r = variation_id /\
  match grade with
  | Some g => SalesHistory.grade r == g
  | None => True
  end /\
  match grader with
  | Some a => a = "" \/ SalesHistory.grader r = a
  | None => True
  end.

#[global] Instance tier1_hit_decision p b v grade grader r :
  Decision (tier1_hit p b v grade grader r).
Proof. unfold tier1_hit. destruct grade, grader; apply _. Defined.

(** The records Tier 2 asks for: equal brand, a player identifier whose
    similarity to the query's is above the threshold, and equal year when
    a year is given. *)
Definition tier2_hit (similarity : string -> string -> Q)
    (player_id brand_id : string) (year : option Z) (r : SalesHistory.t)
  : Prop :=
  SIMILARITY_THRESHOLD < similarity (SalesHistory.player_id r) player_id /\
  SalesHistory.brand_id r = brand_id /\
  match year with
  | Some y => SalesHistory.year r = y
  | None => True
  end.

#[global] Instance Qlt_decision (x y : Q) : Decision (x < y).
Proof.
  destruct (Qlt_le_dec x y) as [H|H]; [left; exact H|right].
  apply Qle_not_lt, H.
Defined.

#[global] Instance tier2_hit_decision sim p b year r :
  Decision (tier2_hit sim p b year r).
Proof. unfold tier2_hit. destruct year; apply _. Defined.

(** Orders of the result sets: the later sale first; the more similar
    player first and, at equal similarity, the later sale first. *)
Definition recent_first (a b : SalesHistory.t) : Prop :=
  (SalesHistory.sold_at b <= SalesHistory.sold_at a)%Z.

Definition closest_first (similarity : string -> string -> Q)
    (player_id : string) (a b : SalesHistory.t) : Prop :=
  similarity (SalesHistory.player_id b) player_id
    < similarity (SalesHistory.player_id a) player_id \/
  (similarity (SalesHistory.player_id a) player_id
     == similarity (SalesHistory.player_id b) player_id /\
   recent_first a b).

(** The statements the two tiers send. *)
Definition tier1_statement (player_id brand_id variation_id : string)
    (grade : option Q) (grader : option string) (limit : nat) : Sql.Select :=
  Sql.mkSelect
    ([Sql.PlayerIdEq player_id; Sql.BrandIdEq brand_id;
      Sql.VariationIdEq variation_id]
     ++ match grade with Some g => [Sql.GradeEq g] | None => [] end
     ++ match grader with
        | Some "" | None => []
        | Some a => [Sql.GraderEq a]
        end)%list
    [Sql.SoldAtDesc] (Some limit).

Definition tier2_statement (player_id brand_id : string) (year : option Z)
    (limit : nat) : Sql.Select :=
  Sql.mkSelect
    ([Sql.PlayerIdSimilar player_id; Sql.BrandIdEq brand_id]
     ++ match year with Some y => [Sql.YearEq y] | None => [] end)%list
    [Sql.SimilarityDesc player_id; Sql.SoldAtDesc] (Some limit).

(** The result the orchestrator builds from the records of a tier. *)
Definition pricing_of (sales : list SalesHistory.t) (match_tier : string)
  : PricingResult.t :=
  PricingResult.mk
    (calculate_sanity_average (map SalesHistory.price sales))
    match_tier (length sales) (map SalesHistory.to_dict sales).

(** The names under which a valuation is cached. *)
Definition cached_fields : gset string :=
  {[ "parsed_data"; "estimated_value"; "match_tier"; "sales_count" ]}.

(** The error a failed request is answered with. *)
Definition http_error (e : exn) : exn :=
  if is_ValueError e then HTTPException 400 e else HTTPException 500 e.

(** The dictionary a request caches for a parsed title and its
    valuation. *)
Definition cache_data_of (parsed_data : ParsedCardData.t)
    (pricing_result : PricingResult.t) : gmap string value :=
  {[ "parsed_data" := VModel parsed_data;
     "estimated_value" :=
       optional_float (PricingResult.estimated_value pricing_result);
     "match_tier" := VStr (PricingResult.match_tier pricing_result);
     "sales_count" :=
       VInt (Z.of_nat (PricingResult.sales_count pricing_result)) ]}.

(** The identifiers a parsed title is looked up with. *)
Definition valuation_of (similarity : string -> string -> Q)
    (parsed_data : ParsedCardData.t) : M PricingResult.t :=
  get_estimated_value similarity
    (slugify (Some (ParsedCardData.player_name parsed_data)))
    (slugify (Some (ParsedCardData.brand parsed_data)))
    (slugify (Some (default "Base"
                      (truthy_str (ParsedCardData.variation parsed_data)))))
    (ParsedCardData.year parsed_data)
    (ParsedCardData.grade parsed_data)
    (ParsedCardData.grading_company parsed_data).

(** *** The normaliser in the words of the specification

    Lowercase; interior whitespace runs collapsed to a single hyphen;
    characters outside [[a-z0-9-]] dropped; repeated hyphens collapsed;
    leading and trailing hyphens trimmed. *)

Module Normalizer.

Definition lowercase (s : list ascii) : list ascii := map Py.lower_char s.

(** The characters of a class a string begins with, and ends with. *)
Fixpoint leading (k : ascii -> bool) (s : list ascii) : list ascii :=
  match s with
  | c :: r => if k c then c :: leading k r else []
  | [] => []
  end.

Definition trailing (k : ascii -> bool) (s : list ascii) : list ascii :=
  rev (leading k (rev s)).

(** A string without the characters of a class it begins and ends with. *)
Definition trim (k : ascii -> bool) (s : list ascii) : list ascii :=
  let rest := skipn (length (leading k s)) s in
  firstn (length rest - length (trailing k rest)) rest.

(** Every run of characters of a class becomes one hyphen: a character of
    the class is left out when the next one is of the class too, and
    becomes a hyphen otherwise. *)
Fixpoint collapse_runs (k : ascii -> bool) (s : list ascii) : list ascii :=
  match s with
  | [] => []
  | c :: r =>
      if k c then
        match r with
        | c' :: _ => if k c' then collapse_runs k r else hyphen :: collapse_runs k r
        | [] => [hyphen]
        end
      else c :: collapse_runs k r
  end.

(** The whitespace inside a string is what lies between its first and
    its last character that is not whitespace. *)
Definition interior_whitespace_to_hyphen (s : list ascii) : list ascii :=
  let rest := skipn (length (leading Py.isspace s)) s in
  (leading Py.isspace s
   ++ collapse_runs Py.isspace (trim Py.isspace s)
   ++ trailing Py.isspace rest)%list.

Definition drop_outside_class (s : list ascii) : list ascii :=
  List.filter slug_class s.

Definition normalize (text : option string) : string :=
  match text with
  | None => ""
  | Some text =>
      string_of_list_ascii
        (trim (Ascii.eqb hyphen)
           (collapse_runs (Ascii.eqb hyphen)
              (drop_outside_class
                 (interior_whitespace_to_hyphen
                    (lowercase (list_ascii_of_string text))))))
  end.

End Normalizer.

(** ** Sample data *)

Definition sample_table : list SalesHistory.t :=
  [ SalesHistory.mk 1 "ken-griffey-jr" "topps-chrome" "base" 1989 (19 # 2) "PSA" 80 100;
    SalesHistory.mk 2 "ken-griffey-jr" "topps-chrome" "base" 1989 (19 # 2) "PSA" 100 300;
    SalesHistory.mk 3 "ken-griffey-jr" "topps-chrome" "base" 1989 (19 # 2) "PSA" 120 200;
    SalesHistory.mk 4 "ken-griffey-jr" "topps-chrome" "refractor" 1989 10 "BGS" 900 400;
    SalesHistory.mk 5 "ken-griffey" "topps-chrome" "base" 1990 9 "PSA" 50 500 ].

(** A stand-in for the similarity of the server: 1 for equal texts, 1/2
    when one text begins the other, 0 otherwise. *)
Definition sample_similarity (a b : string) : Q :=
  if String.eqb a b then 1
  else if String.prefix a b || String.prefix b a then 1 # 2
  else 0.

Definition sample_md5 (s : string) : string := s.

Definition sample_card : ParsedCardData.t :=
  ParsedCardData.mk "Ken Griffey Jr." (Some 1989%Z) "Topps Chrome" None None
    None None false false false false false true (Some "PSA") (Some (19 # 2))
    false false false (Some "baseball") "high" [].

(** A world in which the store and the cache answer, the cache is empty
    and the parser reads every title as [sample_card]. *)
Definition sample_world : World :=
  mkWorld sample_table [] (fun _ => false) ∅ 0 (fun _ => false)
          (fun _ => Return sample_card).

(** The same world with a store that fails every statement. *)
Definition sample_world_store_down : World :=
  mkWorld sample_table [] (fun _ => true) ∅ 0 (fun _ => false)
          (fun _ => Return sample_card).

(** The same world with a store that fails its first statement only. *)
Definition sample_world_store_flaky : World :=
  mkWorld sample_table [] (fun n => (n =? 0)%nat) ∅ 0 (fun _ => false)
          (fun _ => Return sample_card).

Definition sample_title : string := "1989 Topps Chrome Ken Griffey Jr. PSA 9.5".

(** The valuation of [sample_card]. *)
Definition sample_valuation : M PricingResult.t :=
  get_estimated_value sample_similarity
    "ken-griffey-jr" "topps-chrome" "base"
    (Some 1989%Z) (Some (19 # 2)) (Some "PSA").

(** The estimate, the tier and the count of a result, when there is
    one; the identifiers of records. *)
Definition summary (r : outcome PricingResult.t)
  : option (option Q * string * nat) :=
  match r with
  | Return res =>
      Some (PricingResult.estimated_value res,
            PricingResult.match_tier res,
            PricingResult.sales_count res)
  | Raise _ => None
  end.

Definition ids (r : outcome (list SalesHistory.t)) : option (list Z) :=
  match r with
  | Return sales => Some (map SalesHistory.id sales)
  | Raise _ => None
  end.

(** The two requests of the example: the same title at two prices, and
    what the first one caches. *)
Definition sample_request_90 : AnalyzeRequest.t :=
  AnalyzeRequest.mk sample_title 90.

Definition sample_request_150 : AnalyzeRequest.t :=
  AnalyzeRequest.mk sample_title 150.

Definition sample_cached : gmap string value :=
  {[ "parsed_data" := VModel sample_card;
     "estimated_value" := VFloat 100;
     "match_tier" := VStr "exact";
     "sales_count" := VInt 3 ]}.

Definition sample_world_cached : World :=
  world_after (analyze_listing sample_similarity sample_md5 sample_request_90)
              sample_world.

Definition sample_response_150 : AnalyzeResponse.t :=
  AnalyzeResponse.mk (VModel sample_card) (VFloat 100) (Some (-50))
    "OVERPRICED - Potential loss: $50.00" (VStr "exact") (VInt 3) true.

(** ** Vocabulary of the further statements *)

(** The sum, the lowest and the highest of a list of prices. *)
Definition total (xs : list Q) : Q := fold_right Qplus 0 xs.




(** The class [[a-z0-9]], and the letters and digits of a text once in
    lowercase. *)
Definition alnum : Re.class := Re.union (Re.range "a" "z") (Re.range "0" "9").

Definition letters_digits (text : string) : list ascii :=
  List.filter alnum (Py.lower (list_ascii_of_string text)).

(** The fields of a response as a dictionary. *)
Definition item_data_of (response : AnalyzeResponse.t)
  : gmap string item_value :=
  {[ "parsed_data" := Plain (AnalyzeResponse.parsed_data response);
     "estimated_value" := Plain (AnalyzeResponse.estimated_value response);
     "profit_loss" :=
       Plain (optional_float (AnalyzeResponse.profit_loss response));
     "verdict" := Plain (VStr (AnalyzeResponse.verdict response));
     "match_tier" := Plain (AnalyzeResponse.match_tier response);
     "sales_count" := Plain (AnalyzeResponse.sales_count response);
     "cached" := Flag (AnalyzeResponse.cached response) ]}.

(** A cached dictionary whose fields, where present, have the types the
    response model declares for them: a dictionary, an optional float, a
    string and an integer. *)
Definition entry_typed (d : gmap string value) : Prop :=
  (forall v, d !! "parsed_data" = Some v -> exists p, v = VModel p) /\
  (forall v, d !! "estimated_value" = Some v ->
             v = VNone \/ exists q, v = VFloat q) /\
  (forall v, d !! "match_tier" = Some v -> exists s, v = VStr s) /\
  (forall v, d !! "sales_count" = Some v -> exists n, v = VInt n).

(** The names, numbers, statuses and timestamps of the steps of a
    result. *)
Definition step_names (item : BulkAnalyzeResultItem.t) : list string :=
  map AnalysisStep.name (BulkAnalyzeResultItem.analysis_steps item).

Definition step_numbers (item : BulkAnalyzeResultItem.t) : list Z :=
  map AnalysisStep.step (BulkAnalyzeResultItem.analysis_steps item).

Definition step_statuses (item : BulkAnalyzeResultItem.t) : list string :=
  map AnalysisStep.status (BulkAnalyzeResultItem.analysis_steps item).

Definition step_timestamps (item : BulkAnalyzeResultItem.t) : list string :=
  map AnalysisStep.timestamp (BulkAnalyzeResultItem.analysis_steps item).

(** [v is None] *)
Definition is_VNone (v : value) : bool :=
  match v with VNone => true | _ => false end.

(** A record the seeding accepts: a dictionary with the eight fields, an
    integer for the year and numbers for the grade and the price, where
    a boolean passes for an integer. *)
Definition accepted_record (record : Json.t) : Prop :=
  exists o,
    record = Json.Object o /\
    Forall (fun field => is_Some (o !! field)) Seed.required_fields /\
    (forall v, o !! "year" = Some v -> Seed.is_int v = true) /\
    (forall v, o !! "grade" = Some v -> Seed.is_number v = true) /\
    (forall v, o !! "price" = Some v -> Seed.is_number v = true).

(** An instance whose identifiers have the shape of a normalised
    identifier and whose year is an integer. *)
Definition instance_shaped (r : Seed.Instance.t) : Prop :=
  slug_shaped (list_ascii_of_string (Seed.Instance.player_id r)) /\
  slug_shaped (list_ascii_of_string (Seed.Instance.brand_id r)) /\
  slug_shaped (list_ascii_of_string (Seed.Instance.variation_id r)) /\
  Seed.is_int (Seed.Instance.year r) = true.

#[global] Instance Qle_decision (x y : Q) : Decision (x <= y).
Proof.
  destruct (Qlt_le_dec y x) as [H|H]; [right|left; exact H].
  apply Qlt_not_le, H.
Defined.

(** The rows a request to browse asks for: equal player, brand and
    grader where one is given (the empty text names none) and a grade
    within the bounds that are given. *)
Definition wanted (player_id brand_id grader : option string)
    (min_grade max_grade : option Q) (r : SalesHistory.t) : Prop :=
  match player_id with
  | Some p => p = "" \/ SalesHistory.player_id r = p
  | None => True
  end /\
  match brand_id with
  | Some b => b = "" \/ SalesHistory.brand_id r = b
  | None => True
  end /\
  match grader with
  | Some g => g = "" \/ SalesHistory.grader r = g
  | None => True
  end /\
  match min_grade with
  | Some g => g <= SalesHistory.grade r
  | None => True
  end /\
  match max_grade with
  | Some g => SalesHistory.grade r <= g
  | None => True
  end.

#[global] Instance wanted_decision p b g lo hi r :
  Decision (wanted p b g lo hi r).
Proof. unfold wanted. destruct p, b, g, lo, hi; apply _. Defined.

(** The conditions the endpoint collects. *)
Definition filters_of (player_id brand_id grader : option string)
    (min_grade max_grade : option Q) : list Browse.condition :=
  (match truthy_str player_id with
   | Some player_id => [Browse.PlayerIdEq player_id]
   | None => []
   end
   ++ match truthy_str brand_id with
      | Some brand_id => [Browse.BrandIdEq brand_id]
      | None => []
      end
   ++ match truthy_str grader with
      | Some grader => [Browse.GraderEq grader]
      | None => []
      end
   ++ match min_grade with
      | Some min_grade => [Browse.GradeGe min_grade]
      | None => []
      end
   ++ match max_grade with
      | Some max_grade => [Browse.GradeLe max_grade]
      | None => []
      end)%list.


Definition sample_response_90 : AnalyzeResponse.t :=
  AnalyzeResponse.mk (VModel sample_card) (VFloat 100) (Some 10)
    "GOOD DEAL - Potential profit: $10.00" (VStr "exact") (VInt 3) false.

(** Stand-ins for the clock and for the texts the library renders. *)
Definition sample_now (n : nat) : string :=
  "2025-01-01T00:00:0" ++ Py.digits (Z.of_nat n) ++ "+00:00".

Definition sample_str_float (x : Q) : string := Py.format_2f x.

Definition sample_str_title (s : string) : string := s.

Definition sample_str_exn (e : exn) : string := "error".

(** A file of three records, the second of which lacks most fields, an
    empty table whose sessions all succeed, and stand-ins for the parsers
    of the library. *)
Definition sample_record : Json.t :=
  Json.Object
    {[ "player_name" := Json.Str "Ken Griffey Jr.";
       "brand" := Json.Str "Topps Chrome";
       "variation" := Json.Str "Base";
       "year" := Json.Int 1989;
       "grade" := Json.Float (19 # 2);
       "grader" := Json.Str "PSA";
       "price" := Json.Int 100;
       "sold_at" := Json.Str "2024-01-01T00:00:00Z" ]}.

Definition sample_bad_record : Json.t :=
  Json.Object {[ "player_name" := Json.Str "Ken Griffey Jr." ]}.

(** A record whose grade is an integer beyond the floats. *)
Definition sample_huge_record : Json.t :=
  Json.Object
    {[ "player_name" := Json.Str "Ken Griffey Jr.";
       "brand" := Json.Str "Topps Chrome";
       "variation" := Json.Str "Base";
       "year" := Json.Int 1989;
       "grade" := Json.Int (10 ^ 400);
       "grader" := Json.Str "PSA";
       "price" := Json.Int 100;
       "sold_at" := Json.Str "2024-01-01T00:00:00Z" ]}.

Definition sample_fromisoformat (s : string) : option Z := Some 0%Z.

Definition sample_number_of_str (s : string) : option Q := None.

Definition sample_db : Seed.Db :=
  Seed.mkDb [] 0 (fun _ => false)
    (fun _ => Some (Some (Json.Array
                            [sample_record; sample_bad_record;
                             sample_record]))).

Definition sample_seed (batch_size : Z) (clear_existing : bool)
  : Seed.Script Seed.Stats :=
  Seed.seed_database sample_fromisoformat sample_number_of_str
    sample_number_of_str "dummy_sales_data.json" batch_size clear_existing.

Definition sample_stats : Seed.Stats := Seed.mkStats 3 2 0 1.

(** A session on the sample table that answers every statement, and a
    stand-in for the collation of the store. *)
Definition sample_session : Browse.Session :=
  Browse.mkSession sample_table [] (fun _ => false).

Definition sample_collation_lt (a b : string) : bool := String.ltb a b.

(** ** Notions for the estimator and the verdict on floats *)

(** The mean as floats compute it: the sum of the values, rounded at
    each addition, divided by their number, rounded once more. *)
Definition float_mean (compensated : bool) (xs : list Binary64.t)
  : Binary64.t :=
  Binary64.div (Binary64.sum compensated xs)
               (Binary64.of_Z (Z.of_nat (length xs))).

Definition not_nan (x : Binary64.t) : Prop := Binary64.is_nan x = false.

(** [x <= y] holds. *)
Definition float_le (x y : Binary64.t) : Prop := Binary64.leb x y = true.

(** The place of a value in the order: its class, from minus infinity
    to plus infinity, then its exponent and its mantissa. *)
Definition rank (x : Binary64.t) : Z * Z * Z :=
  match x with
  | S754_infinity true => (-2, 0, 0)%Z
  | S754_finite true m e => (-1, - e, Zneg m)%Z
  | S754_zero _ => (0, 0, 0)%Z
  | S754_finite false m e => (1, e, Zpos m)%Z
  | S754_infinity false => (2, 0, 0)%Z
  | S754_nan => (3, 0, 0)%Z
  end.

Definition rank_lt (a b : Z * Z * Z) : Prop :=
  let '(a1, a2, a3) := a in
  let '(b1, b2, b3) := b in
  (a1 < b1 \/ (a1 = b1 /\ (a2 < b2 \/ (a2 = b2 /\ a3 < b3))))%Z.

Definition rank_ltb (a b : Z * Z * Z) : bool :=
  let '(a1, a2, a3) := a in
  let '(b1, b2, b3) := b in
  ((a1 <? b1) || ((a1 =? b1) && ((a2 <? b2) || ((a2 =? b2) && (a3 <? b3)))))%Z.

(** [<] made total: NaN comes last. *)
Definition total_ltb (x y : Binary64.t) : bool := rank_ltb (rank x) (rank y).

(** Sample floats: the values that [0.1], [0.3] and [1000.1] denote, and
    five sales at [0.10]. *)
Definition tenth : Binary64.t := Eval vm_compute in Binary64.of_Q (1 # 10).
Definition three_tenths : Binary64.t :=
  Eval vm_compute in Binary64.of_Q (3 # 10).
Definition thousand_and_tenth : Binary64.t :=
  Eval vm_compute in Binary64.of_Q (10001 # 10).
Definition five_tenths : list Binary64.t := repeat tenth 5.

Definition float_prices (prices : list Z) : list Binary64.t :=
  map Binary64.of_Z prices.

(** * Properties *)

(** ** Sorting *)

Section SortedFacts.
Context {A : Type} (lt : A -> A -> bool).

Lemma insert_perm (x : A) (l : list A) :
  Permutation (Py.insert lt x l) (x :: l).
Proof.
  induction l as [|y r IH]; simpl.
  - reflexivity.
  - destruct (lt x y).
    + reflexivity.
    + rewrite IH. apply perm_swap.
Qed.

Lemma sorted_from_perm (xs acc : list A) :
  Permutation (fold_left (fun acc x => Py.insert lt x acc) xs acc)
              (xs ++ acc)%list.
Proof.
  revert acc. induction xs as [|x xs IH]; intros acc; simpl.
  - reflexivity.
  - rewrite IH, insert_perm. symmetry. apply Permutation_middle.
Qed.

Lemma sorted_perm (xs : list A) : Permutation (Py.sorted lt xs) xs.
Proof.
  unfold Py.sorted. rewrite sorted_from_perm, app_nil_r. reflexivity.
Qed.

Lemma sorted_length (xs : list A) : length (Py.sorted lt xs) = length xs.
Proof. apply Permutation_length, sorted_perm. Qed.

Hypothesis lt_asym : forall x y, lt x y = true -> lt y x = false.
Hypothesis ge_trans :
  forall x y z, ascending lt x y -> ascending lt y z -> ascending lt x z.

Lemma insert_sorted (x : A) (l : list A) :
  StronglySorted (ascending lt) l ->
  StronglySorted (ascending lt) (Py.insert lt x l).
Proof.
  induction 1 as [|y r Hr IH Hy]; simpl.
  - repeat constructor.
  - destruct (lt x y) eqn:E.
    + constructor; [constructor; assumption|].
      constructor; [exact (lt_asym _ _ E)|].
      eapply List.Forall_impl; [|exact Hy].
      intros z Hz. exact (ge_trans _ _ _ (lt_asym _ _ E) Hz).
    + constructor; [exact IH|].
      eapply Permutation_Forall; [symmetry; apply insert_perm|].
      constructor; assumption.
Qed.

Lemma sorted_from_sorted (xs acc : list A) :
  StronglySorted (ascending lt) acc ->
  StronglySorted (ascending lt)
                 (fold_left (fun acc x => Py.insert lt x acc) xs acc).
Proof.
  revert acc. induction xs as [|x xs IH]; intros acc Hacc; simpl.
  - exact Hacc.
  - apply IH, insert_sorted, Hacc.
Qed.

Lemma sorted_sorted (xs : list A) :
  StronglySorted (ascending lt) (Py.sorted lt xs).
Proof. apply sorted_from_sorted. constructor. Qed.
End SortedFacts.

Lemma ltb_lt (x y : Q) : Py.ltb x y = true <-> x < y.
Proof.
  unfold Py.ltb. rewrite negb_true_iff. split.
  - intros H. apply Qnot_le_lt. intros L.
    apply Qle_bool_iff in L. congruence.
  - intros H. destruct (Qle_bool y x) eqn:E; [|reflexivity].
    apply Qle_bool_iff in E. exfalso. exact (Qlt_not_le _ _ H E).
Qed.

Lemma ltb_ascending (x y : Q) : ascending Py.ltb x y <-> x <= y.
Proof.
  unfold ascending, Py.ltb. rewrite negb_false_iff. apply Qle_bool_iff.
Qed.

Lemma ltb_asym (x y : Q) : Py.ltb x y = true -> Py.ltb y x = false.
Proof.
  rewrite ltb_lt. intros H. apply ltb_ascending, Qlt_le_weak, H.
Qed.

Lemma ltb_ge_trans (x y z : Q) :
  ascending Py.ltb x y -> ascending Py.ltb y z -> ascending Py.ltb x z.
Proof. rewrite !ltb_ascending. apply Qle_trans. Qed.


(** A list of two or more elements is its head, its [[1:-1]] slice and
    its last element. *)
Lemma slice_1_m1_split {A} (d : A) (xs : list A) :
  (2 <= length xs)%nat ->
  xs = (hd d xs :: Py.slice_1_m1 xs ++ [List.last xs d])%list /\
  length (Py.slice_1_m1 xs) = (length xs - 2)%nat.
Proof.
  destruct xs as [|a [|b r]]; simpl; try lia. intros _.
  assert (N : b :: r <> []) by discriminate.
  pose proof (app_removelast_last d N) as E.
  split.
  - f_equal. exact E.
  - apply (f_equal (@length A)) in E. rewrite length_app in E.
    simpl in *. unfold Py.slice_1_m1. simpl. lia.
Qed.



(** ** Value estimator *)



Lemma calculate_sanity_average_none (prices : list Q) :
  calculate_sanity_average prices = None <-> prices = [].
Proof.
  split; [|intros ->; reflexivity].
  destruct prices as [|p r]; [reflexivity|].
  unfold calculate_sanity_average.
  destruct (length (p :: r) <? 3)%nat; discriminate.
Qed.


(** ** Value estimator on floats *)

(** *** The order of floats *)

Lemma compare_cont_lt (m n : positive) :
  Pos.compare_cont Eq m n = Lt <-> (Zpos m < Zpos n)%Z.
Proof. change (Pos.compare_cont Eq m n) with (Pos.compare m n).
       rewrite Pos.compare_lt_iff. reflexivity. Qed.

Lemma compare_cont_gt (m n : positive) :
  Pos.compare_cont Eq m n = Gt <-> (Zpos n < Zpos m)%Z.
Proof. change (Pos.compare_cont Eq m n) with (Pos.compare m n).
       rewrite Pos.compare_gt_iff. reflexivity. Qed.

Lemma ltb_rank (x y : Binary64.t) :
  Binary64.is_nan x = false -> Binary64.is_nan y = false ->
  (Binary64.ltb x y = true <-> rank_lt (rank x) (rank y)).
Proof.
  unfold Binary64.ltb, SFltb, SFcompare, rank_lt.
  destruct x as [sx|sx| |sx mx ex], y as [sy|sy| |sy my ey];
    try discriminate; intros _ _;
    try destruct sx; try destruct sy; cbn [rank]; cbv beta iota;
    try (split; [discriminate|intros H; exfalso; lia]);
    try (split; [intros _; lia|reflexivity]).
  - destruct (Z.compare_spec ex ey) as [E|E|E].
    + subst. destruct (Pos.compare_cont Eq mx my) eqn:C; cbn [CompOpp].
      * split; [discriminate|]. intros H. exfalso.
        apply Pos.compare_eq in C. subst. lia.
      * split; [discriminate|]. intros H. exfalso.
        apply (proj1 (compare_cont_lt _ _)) in C. lia.
      * split; [intros _|reflexivity]. apply (proj1 (compare_cont_gt _ _)) in C. lia.
    + split; [discriminate|]. intros H. exfalso. lia.
    + split; [intros _; lia|reflexivity].
  - destruct (Z.compare_spec ex ey) as [E|E|E].
    + subst. destruct (Pos.compare_cont Eq mx my) eqn:C.
      * split; [discriminate|]. intros H. exfalso.
        apply Pos.compare_eq in C. subst. lia.
      * split; [intros _|reflexivity]. apply (proj1 (compare_cont_lt _ _)) in C. lia.
      * split; [discriminate|]. intros H. exfalso.
        apply (proj1 (compare_cont_gt _ _)) in C. lia.
    + split; [intros _; lia|reflexivity].
    + split; [discriminate|]. intros H. exfalso. lia.
Qed.

Lemma leb_rank (x y : Binary64.t) :
  Binary64.is_nan x = false -> Binary64.is_nan y = false ->
  (Binary64.leb x y = true <-> ~ rank_lt (rank y) (rank x)).
Proof.
  unfold Binary64.leb, SFleb, SFcompare, rank_lt.
  destruct x as [sx|sx| |sx mx ex], y as [sy|sy| |sy my ey];
    try discriminate; intros _ _;
    try destruct sx; try destruct sy; cbn [rank]; cbv beta iota;
    try (split; [discriminate|intros H; exfalso; lia]);
    try (split; [intros _; lia|reflexivity]).
  - destruct (Z.compare_spec ex ey) as [E|E|E].
    + subst. destruct (Pos.compare_cont Eq mx my) eqn:C.
      * split; [intros _|reflexivity].
        apply Pos.compare_eq in C. subst. lia.
      * split; [discriminate|]. intros H. exfalso.
        apply (proj1 (compare_cont_lt _ _)) in C. lia.
      * split; [intros _|reflexivity].
        apply (proj1 (compare_cont_gt _ _)) in C. lia.
    + split; [discriminate|]. intros H. exfalso. lia.
    + split; [intros _; lia|reflexivity].
  - destruct (Z.compare_spec ex ey) as [E|E|E].
    + subst. destruct (Pos.compare_cont Eq mx my) eqn:C; cbn [CompOpp].
      * split; [intros _|reflexivity].
        apply Pos.compare_eq in C. subst. lia.
      * split; [intros _|reflexivity].
        apply (proj1 (compare_cont_lt _ _)) in C. lia.
      * split; [discriminate|]. intros H. exfalso.
        apply (proj1 (compare_cont_gt _ _)) in C. lia.
    + split; [intros _; lia|reflexivity].
    + split; [discriminate|]. intros H. exfalso. lia.
Qed.

Lemma rank_ltb_lt (a b : Z * Z * Z) : rank_ltb a b = true <-> rank_lt a b.
Proof.
  destruct a as [[a1 a2] a3], b as [[b1 b2] b3]. unfold rank_ltb, rank_lt.
  rewrite !orb_true_iff, !andb_true_iff, !orb_true_iff, !andb_true_iff,
    !Z.ltb_lt, !Z.eqb_eq.
  reflexivity.
Qed.

Lemma rank_ltb_ge (a b : Z * Z * Z) : rank_ltb a b = false <-> ~ rank_lt a b.
Proof.
  rewrite <- rank_ltb_lt. destruct (rank_ltb a b); split; congruence.
Qed.

Lemma total_ltb_ltb (x y : Binary64.t) :
  not_nan x -> not_nan y -> Binary64.ltb x y = total_ltb x y.
Proof.
  intros Hx Hy. pose proof (ltb_rank x y Hx Hy) as H.
  rewrite <- rank_ltb_lt in H. fold (total_ltb x y) in H.
  destruct (Binary64.ltb x y), (total_ltb x y); try reflexivity.
  - symmetry. apply H. reflexivity.
  - apply H. reflexivity.
Qed.

Lemma total_ltb_asym (x y : Binary64.t) :
  total_ltb x y = true -> total_ltb y x = false.
Proof.
  unfold total_ltb. rewrite rank_ltb_lt, rank_ltb_ge.
  destruct (rank x) as [[a1 a2] a3], (rank y) as [[b1 b2] b3].
  unfold rank_lt. lia.
Qed.

Lemma total_ltb_ge_trans (x y z : Binary64.t) :
  ascending total_ltb x y -> ascending total_ltb y z ->
  ascending total_ltb x z.
Proof.
  unfold ascending, total_ltb. rewrite !rank_ltb_ge.
  destruct (rank x) as [[a1 a2] a3], (rank y) as [[b1 b2] b3],
    (rank z) as [[c1 c2] c3].
  unfold rank_lt. lia.
Qed.

(** Two comparisons that agree on the elements of a list sort it alike. *)
Lemma insert_agree {A} (lt lt' : A -> A -> bool) (x : A) (l : list A) :
  Forall (fun y => lt x y = lt' x y) l -> Py.insert lt x l = Py.insert lt' x l.
Proof.
  induction 1 as [|y r E _ IH]; simpl; [reflexivity|].
  rewrite E, IH. reflexivity.
Qed.

Lemma sorted_from_agree {A} (lt lt' : A -> A -> bool) (P : A -> Prop)
    (xs acc : list A) :
  (forall x y, P x -> P y -> lt x y = lt' x y) ->
  Forall P xs -> Forall P acc ->
  fold_left (fun acc x => Py.insert lt x acc) xs acc
  = fold_left (fun acc x => Py.insert lt' x acc) xs acc.
Proof.
  intros E Hxs. revert acc.
  induction Hxs as [|x xs Hx Hxs IH]; intros acc Hacc; simpl; [reflexivity|].
  rewrite IH.
  - f_equal. apply insert_agree.
    eapply List.Forall_impl; [|exact Hacc]. intros y Hy. apply E; assumption.
  - eapply Permutation_Forall; [symmetry; apply insert_perm|].
    constructor; assumption.
Qed.

Lemma sorted_agree {A} (lt lt' : A -> A -> bool) (P : A -> Prop)
    (xs : list A) :
  (forall x y, P x -> P y -> lt x y = lt' x y) ->
  Forall P xs -> Py.sorted lt xs = Py.sorted lt' xs.
Proof.
  intros E H. unfold Py.sorted.
  apply (sorted_from_agree lt lt' P); [exact E|exact H|constructor].
Qed.

(** Without a NaN, [sorted] puts floats in ascending order. *)
Lemma sorted_floats_ascending (xs : list Binary64.t) :
  Forall not_nan xs -> StronglySorted float_le (Py.sorted Binary64.ltb xs).
Proof.
  intros H.
  rewrite (sorted_agree Binary64.ltb total_ltb not_nan xs total_ltb_ltb H).
  assert (N : Forall not_nan (Py.sorted total_ltb xs)).
  { eapply Permutation_Forall; [symmetry; apply sorted_perm|exact H]. }
  pose proof (sorted_sorted total_ltb total_ltb_asym total_ltb_ge_trans xs)
    as S.
  induction S as [|x l _ IH Hx]; constructor.
  - apply IH. inversion N; assumption.
  - inversion N as [|? ? Nx Nl]; subst.
    rewrite List.Forall_forall in *. intros y Hy.
    unfold float_le. apply leb_rank; [exact Nx|exact (Nl y Hy)|].
    apply rank_ltb_ge. exact (Hx y Hy).
Qed.

Section EstimatorOnFloats.
Variable compensated : bool.
Variable sorted_with_nan : list Binary64.t -> list Binary64.t.

Local Abbreviation estimate :=
  (Binary64.calculate_sanity_average compensated sorted_with_nan).

Lemma estimate_small (prices : list Binary64.t) :
  prices <> [] -> (length prices < 3)%nat ->
  estimate prices = Some (float_mean compensated prices).
Proof.
  intros N L. destruct prices as [|p r]; [congruence|].
  unfold Binary64.calculate_sanity_average.
  destruct (Nat.ltb_spec (length (p :: r)) 3); [reflexivity | lia].
Qed.

Lemma estimate_trim (prices : list Binary64.t) :
  (3 <= length prices)%nat ->
  estimate prices
  = Some (float_mean compensated
            (Py.slice_1_m1 (Binary64.sorted sorted_with_nan prices))).
Proof.
  intros L. destruct prices as [|p r]; [simpl in L; lia|].
  unfold Binary64.calculate_sanity_average.
  destruct (Nat.ltb_spec (length (p :: r)) 3); [lia | reflexivity].
Qed.

Lemma existsb_is_nan (xs : list Binary64.t) :
  Forall not_nan xs -> existsb Binary64.is_nan xs = false.
Proof.
  induction 1 as [|x xs Hx _ IH]; simpl; [reflexivity|].
  rewrite Hx, IH. reflexivity.
Qed.

Hypothesis sorted_with_nan_perm :
  forall xs, Permutation (sorted_with_nan xs) xs.

Lemma float_sorted_perm (xs : list Binary64.t) :
  Permutation (Binary64.sorted sorted_with_nan xs) xs.
Proof.
  unfold Binary64.sorted. destruct (existsb Binary64.is_nan xs).
  - apply sorted_with_nan_perm.
  - apply sorted_perm.
Qed.

(** C1.  On floats [calculate_sanity_average] returns [None] for no
    price; for one or two prices the float mean of the prices, that is
    their float sum divided by their number; and for three or more prices
    the float mean of the sorted arrangement of the prices without its
    first and its last element, an arrangement that is ascending when no
    price is NaN: one occurrence of the lowest and one of the highest
    price go, whatever their number.  The float mean is the arithmetic
    mean up to the rounding of each operation.  So [[]] gives [None],
    [[10]] gives 10, [[10, 20]] gives 15, [[10, 20, 30]] gives 20 and
    [[50, 100, 150, 200, 1000]] gives 150, all exactly. *)
Theorem calculate_sanity_average_binary64 :
  (forall prices : list Binary64.t,
     match length prices with
     | O => estimate prices = None
     | 1%nat | 2%nat => estimate prices = Some (float_mean compensated prices)
     | _ =>
         exists lo mid hi,
           Permutation prices (lo :: mid ++ [hi])%list /\
           (Forall not_nan prices ->
            StronglySorted float_le (lo :: mid ++ [hi])%list) /\
           length mid = (length prices - 2)%nat /\
           estimate prices = Some (float_mean compensated mid)
     end) /\
  estimate [] = None /\
  estimate (float_prices [10]%Z) = Some (Binary64.of_Z 10) /\
  estimate (float_prices [10; 20]%Z) = Some (Binary64.of_Z 15) /\
  estimate (float_prices [10; 20; 30]%Z) = Some (Binary64.of_Z 20) /\
  estimate (float_prices [50; 100; 150; 200; 1000]%Z) = Some (Binary64.of_Z 150).
Proof.
  split.
  - intros prices. destruct (length prices) as [|[|[|n]]] eqn:L.
    + destruct prices; [reflexivity | discriminate].
    + apply estimate_small; [intros ->; discriminate|lia].
    + apply estimate_small; [intros ->; discriminate|lia].
    + set (s := Binary64.sorted sorted_with_nan prices).
      assert (Ls : length s = length prices).
      { apply Permutation_length, float_sorted_perm. }
      destruct (slice_1_m1_split Binary64.zero s) as [E Lm]; [lia|].
      exists (hd Binary64.zero s), (Py.slice_1_m1 s),
             (List.last s Binary64.zero).
      split; [|split; [|split]].
      * rewrite <- E. symmetry. apply float_sorted_perm.
      * intros N. rewrite <- E. subst s. unfold Binary64.sorted.
        rewrite (existsb_is_nan prices N).
        apply sorted_floats_ascending, N.
      * lia.
      * apply estimate_trim. lia.
  - clear sorted_with_nan_perm.
    destruct compensated; repeat split; vm_compute; reflexivity.
Qed.

End EstimatorOnFloats.

(** ** Verdict on floats *)

Lemma float_sign (x : Binary64.t) :
  Binary64.ltb Binary64.zero x = true \/
  Binary64.ltb x Binary64.zero = true \/
  Binary64.eqb x Binary64.zero = true \/
  Binary64.is_nan x = true.
Proof. destruct x as [s|[]| |[] m e]; vm_compute; tauto. Qed.

Lemma float_sign_exclusive (x : Binary64.t) :
  Binary64.eqb x Binary64.zero = true \/ Binary64.is_nan x = true ->
  Binary64.ltb Binary64.zero x = false /\
  Binary64.ltb x Binary64.zero = false.
Proof.
  destruct x as [s|[]| |[] m e]; vm_compute; intros [H|H];
    try discriminate H; split; reflexivity.
Qed.

(** C3.  With no estimate the verdict is [(None, insufficient data)].
    Otherwise the amount is the float difference of the estimated value
    and the asking price, which is their difference rounded to the
    nearest float.  When the amount is above zero the label is the
    favourable one and carries the amount with two decimals; when it is
    below zero the label is the overpriced one and carries its absolute
    value with two decimals; when it is zero, or no number, the label is
    the fair-price one; and one of these is the case.  So an asking price
    of 100 against an estimate of 150 gives 50 and a favourable verdict,
    200 against 150 gives -50 and an overpriced verdict, and 100 against
    100 gives 0 and a fair-price verdict. *)
Theorem calculate_profit_loss_binary64 :
  (forall listing_price : Binary64.t,
     Binary64.calculate_profit_loss listing_price None
     = (None, "INSUFFICIENT DATA - No comparable sales found")) /\
  (forall listing_price estimated_value : Binary64.t,
     let profit_loss := Binary64.sub estimated_value listing_price in
     let result :=
       Binary64.calculate_profit_loss listing_price (Some estimated_value) in
     fst result = Some profit_loss /\
     (Binary64.ltb Binary64.zero profit_loss = true ->
      snd result = "GOOD DEAL - Potential profit: $"
                   ++ Binary64.format_2f profit_loss) /\
     (Binary64.ltb profit_loss Binary64.zero = true ->
      snd result = "OVERPRICED - Potential loss: $"
                   ++ Binary64.format_2f (Binary64.abs profit_loss)) /\
     (Binary64.eqb profit_loss Binary64.zero = true \/
      Binary64.is_nan profit_loss = true ->
      snd result = "FAIR PRICE - Listing matches market value") /\
     (Binary64.ltb Binary64.zero profit_loss = true \/
      Binary64.ltb profit_loss Binary64.zero = true \/
      Binary64.eqb profit_loss Binary64.zero = true \/
      Binary64.is_nan profit_loss = true)) /\
  Binary64.calculate_profit_loss (Binary64.of_Z 100) (Some (Binary64.of_Z 150))
  = (Some (Binary64.of_Z 50), "GOOD DEAL - Potential profit: $50.00") /\
  Binary64.calculate_profit_loss (Binary64.of_Z 200) (Some (Binary64.of_Z 150))
  = (Some (Binary64.of_Z (-50)), "OVERPRICED - Potential loss: $50.00") /\
  Binary64.calculate_profit_loss (Binary64.of_Z 100) (Some (Binary64.of_Z 100))
  = (Some (Binary64.of_Z 0), "FAIR PRICE - Listing matches market value").
Proof.
  split; [reflexivity|]. split; [|repeat split; vm_compute; reflexivity].
  intros listing_price estimated_value profit_loss result.
  subst result. unfold Binary64.calculate_profit_loss.
  fold profit_loss. cbn [fst snd].
  split; [reflexivity|]. split; [|split; [|split]].
  - intros ->. reflexivity.
  - intros H. rewrite H.
    destruct (Binary64.ltb Binary64.zero profit_loss) eqn:P; [|reflexivity].
    exfalso. clear - H P. destruct profit_loss as [s|[]| |[] m e];
      vm_compute in H, P; discriminate.
  - intros H. destruct (float_sign_exclusive profit_loss H) as [-> ->].
    reflexivity.
  - apply float_sign.
Qed.

(** ** Identifier normaliser *)

Arguments Re.lit x c : simpl never.

Lemma lit_hyphen (c : ascii) : Re.lit hyphen c = true <-> c = hyphen.
Proof. unfold Re.lit. rewrite Ascii.eqb_eq. split; congruence. Qed.

Lemma lit_not_hyphen (c : ascii) : Re.lit hyphen c = false <-> c <> hyphen.
Proof.
  rewrite <- lit_hyphen. destruct (Re.lit hyphen c); split; congruence.
Qed.

(** A character of the class is neither blank nor changed by [lower]:
    a check of the 256 characters. *)
Lemma slug_class_cases (c : ascii) :
  slug_class c = true ->
  Py.isspace c = false /\ Py.lower_char c = c.
Proof.
  assert (H : implb (slug_class c)
                (negb (Py.isspace c) && Ascii.eqb (Py.lower_char c) c) = true)
    by (destruct c as [[] [] [] [] [] [] [] []]; vm_compute; reflexivity).
  intros E. rewrite E in H. simpl in H.
  apply andb_true_iff in H. destruct H as [H1 H2].
  split; [apply negb_true_iff, H1 | apply Ascii.eqb_eq, H2].
Qed.

Lemma slugify_unfold (text : string) :
  slugify (Some text) =
    string_of_list_ascii (slugify_steps (list_ascii_of_string text)).
Proof. destruct text; reflexivity. Qed.

(** *** What each step leaves behind *)

Lemma sub_neg_class_filter (s : list ascii) :
  Re.sub (Re.neg slug_class) [] s = List.filter slug_class s.
Proof.
  unfold Re.sub, Re.neg. induction s as [|c s IH]; simpl; [reflexivity|].
  rewrite IH. destruct (slug_class c); reflexivity.
Qed.

Lemma sub_neg_class_chars (s : list ascii) :
  Forall (fun c => slug_class c = true) (Re.sub (Re.neg slug_class) [] s).
Proof.
  rewrite sub_neg_class_filter. apply List.Forall_forall.
  intros c H. apply List.filter_In in H. tauto.
Qed.

Section Collapse.
Local Abbreviation collapse b :=
  (Re.sub_plus_from b (Re.lit hyphen) [hyphen]).

Lemma collapse_chars (P : ascii -> Prop) (b : bool) (s : list ascii) :
  Forall P s -> Forall P (collapse b s).
Proof.
  intros H. revert b. induction H as [|c s Hc Hs IH]; intros b; simpl.
  - constructor.
  - destruct (Re.lit hyphen c) eqn:E.
    + apply lit_hyphen in E. subst c.
      destruct b; [apply IH|]. constructor; [exact Hc|apply IH].
    + constructor; [exact Hc|apply IH].
Qed.

Lemma collapse_head (b : bool) (s r : list ascii) :
  collapse b s = hyphen :: r -> b = false.
Proof.
  revert b r. induction s as [|c s IH]; intros b r; simpl.
  - discriminate.
  - destruct (Re.lit hyphen c) eqn:E.
    + destruct b; [|reflexivity]. intros H. apply IH in H. discriminate.
    + intros H. injection H as -> _.
      apply lit_not_hyphen in E. congruence.
Qed.

Lemma collapse_runs (b : bool) (s l r : list ascii) :
  collapse b s <> (l ++ hyphen :: hyphen :: r)%list.
Proof.
  revert b l. induction s as [|c s IH]; intros b l; simpl.
  - destruct l; discriminate.
  - destruct (Re.lit hyphen c) eqn:E.
    + destruct b; [apply IH|].
      destruct l as [|a l]; simpl; intros H.
      * injection H as H. apply collapse_head in H. discriminate.
      * injection H as _ H. exact (IH _ _ H).
    + apply lit_not_hyphen in E.
      destruct l as [|a l]; simpl; intros H.
      * injection H as H _. congruence.
      * injection H as _ H. exact (IH _ _ H).
Qed.

Lemma collapse_fixed (b : bool) (s : list ascii) :
  (b = true -> forall r, s <> hyphen :: r) ->
  (forall l r, s <> (l ++ hyphen :: hyphen :: r)%list) ->
  collapse b s = s.
Proof.
  revert b. induction s as [|c s IH]; intros b Hh Hr; simpl; [reflexivity|].
  destruct (Re.lit hyphen c) eqn:E.
  - apply lit_hyphen in E. subst c.
    destruct b; [exfalso; exact (Hh eq_refl s eq_refl)|].
    simpl. f_equal. apply IH.
    + intros _ r ->. exact (Hr [] r eq_refl).
    + intros l r ->. exact (Hr (hyphen :: l) r eq_refl).
  - f_equal. apply IH; [discriminate|].
    intros l r ->. exact (Hr (c :: l) r eq_refl).
Qed.
End Collapse.

Lemma sub_plus_fixed (k : Re.class) (repl s : list ascii) (b : bool) :
  Forall (fun c => k c = false) s -> Re.sub_plus_from b k repl s = s.
Proof.
  intros H. revert b. induction H as [|c s Hc Hs IH]; intros b; simpl.
  - reflexivity.
  - rewrite Hc, IH. reflexivity.
Qed.

Lemma lstrip_split (k : Re.class) (s : list ascii) :
  exists pre, s = (pre ++ Py.lstrip k s)%list.
Proof.
  induction s as [|c s [pre IH]]; simpl.
  - exists []. reflexivity.
  - destruct (k c).
    + exists (c :: pre). simpl. f_equal. exact IH.
    + exists []. reflexivity.
Qed.

Lemma lstrip_head (k : Re.class) (s r : list ascii) (c : ascii) :
  Py.lstrip k s = c :: r -> k c = false.
Proof.
  induction s as [|a s IH]; simpl; [discriminate|].
  destruct (k a) eqn:E; [exact IH|]. intros H. injection H as -> _. exact E.
Qed.

Lemma lstrip_fixed (k : Re.class) (s : list ascii) :
  (forall c r, s = c :: r -> k c = false) -> Py.lstrip k s = s.
Proof.
  destruct s as [|c s]; simpl; [reflexivity|].
  intros H. rewrite (H c s eq_refl). reflexivity.
Qed.

Lemma rstrip_split (k : Re.class) (s : list ascii) :
  exists suf, s = (Py.rstrip k s ++ suf)%list.
Proof.
  unfold Py.rstrip. destruct (lstrip_split k (rev s)) as [pre E].
  exists (rev pre). rewrite <- rev_app_distr, <- E, rev_involutive.
  reflexivity.
Qed.

Lemma rstrip_last (k : Re.class) (s l : list ascii) (c : ascii) :
  Py.rstrip k s = (l ++ [c])%list -> k c = false.
Proof.
  unfold Py.rstrip. intros H. apply (f_equal (@rev ascii)) in H.
  rewrite rev_involutive, rev_app_distr in H. simpl in H.
  exact (lstrip_head _ _ _ _ H).
Qed.

Lemma rstrip_fixed (k : Re.class) (s : list ascii) :
  (forall c l, s = (l ++ [c])%list -> k c = false) -> Py.rstrip k s = s.
Proof.
  intros H. unfold Py.rstrip. rewrite lstrip_fixed; [apply rev_involutive|].
  intros c r E. apply (H c (rev r)).
  rewrite <- (rev_involutive s), E. reflexivity.
Qed.

(** The steps end in a string of the shape of an identifier. *)
Lemma slugify_steps_shaped (s : list ascii) : slug_shaped (slugify_steps s).
Proof.
  unfold slugify_steps, Py.strip, Re.sub_plus.
  pose proof (collapse_runs false
                (Re.sub (Re.neg slug_class) []
                   (Re.sub_plus_from false Re.space [hyphen] (Py.lower s))))
    as Nr.
  set (x := Re.sub_plus_from false _ _ (Re.sub _ _ _)) in *.
  destruct (lstrip_split (Re.lit hyphen) x) as [pre Ex].
  destruct (rstrip_split (Re.lit hyphen) (Py.lstrip (Re.lit hyphen) x))
    as [suf Ey].
  set (y := Py.rstrip _ _) in *.
  assert (Cx : Forall (fun c => slug_class c = true) x)
    by apply collapse_chars, sub_neg_class_chars.
  split.
  - rewrite Ex, Ey in Cx.
    apply List.Forall_app in Cx. destruct Cx as [_ Cx].
    apply List.Forall_app in Cx. tauto.
  - intros r E. rewrite E in Ey. simpl in Ey.
    apply lstrip_head in Ey. vm_compute in Ey. discriminate.
  - intros l E. apply rstrip_last in E. vm_compute in E. discriminate.
  - intros l r E. rewrite E in Ey. rewrite Ey in Ex.
    apply (Nr (pre ++ l) (r ++ suf))%list. rewrite Ex.
    repeat (rewrite <- ?List.app_assoc; simpl). reflexivity.
Qed.

Lemma lower_fixed (s : list ascii) :
  Forall (fun c => slug_class c = true) s -> Py.lower s = s.
Proof.
  unfold Py.lower. induction 1 as [|c s Hc _ IH]; simpl; [reflexivity|].
  rewrite (proj2 (slug_class_cases c Hc)), IH. reflexivity.
Qed.

Lemma sub_neg_class_fixed (s : list ascii) :
  Forall (fun c => slug_class c = true) s ->
  Re.sub (Re.neg slug_class) [] s = s.
Proof.
  unfold Re.sub, Re.neg. induction 1 as [|c s Hc _ IH]; simpl; [reflexivity|].
  rewrite Hc, IH. reflexivity.
Qed.

(** A string of that shape goes through the steps unchanged. *)
Lemma slugify_steps_fixed (s : list ascii) :
  slug_shaped s -> slugify_steps s = s.
Proof.
  intros [Hc Hh Hl Hr]. unfold slugify_steps, Py.strip, Re.sub_plus.
  rewrite (lower_fixed s Hc).
  rewrite (sub_plus_fixed Re.space).
  2:{ eapply List.Forall_impl; [|exact Hc].
      intros c H. exact (proj1 (slug_class_cases c H)). }
  rewrite (sub_neg_class_fixed s Hc).
  rewrite collapse_fixed; [|discriminate|exact Hr].
  rewrite lstrip_fixed.
  2:{ intros c r ->. apply lit_not_hyphen. intros ->. exact (Hh r eq_refl). }
  apply rstrip_fixed.
  intros c l ->. apply lit_not_hyphen. intros ->. exact (Hl l eq_refl).
Qed.

Lemma slugify_shaped (text : option string) :
  slug_shaped (list_ascii_of_string (slugify text)).
Proof.
  destruct text as [text|].
  - rewrite slugify_unfold, list_ascii_of_string_of_list_ascii.
    apply slugify_steps_shaped.
  - apply (slugify_steps_shaped []).
Qed.

(** *** The steps of the code and the words of the specification *)

Section Runs.
Variable k : Re.class.

Lemma leading_lstrip (s : list ascii) :
  (Normalizer.leading k s ++ Py.lstrip k s)%list = s.
Proof.
  induction s as [|c s IH]; simpl; [reflexivity|].
  destruct (k c); simpl; [rewrite IH|]; reflexivity.
Qed.

Lemma leading_all (s : list ascii) :
  Forall (fun c => k c = true) (Normalizer.leading k s).
Proof.
  induction s as [|c s IH]; simpl; [constructor|].
  destruct (k c) eqn:E; constructor; assumption.
Qed.

Lemma skipn_leading (s : list ascii) :
  skipn (length (Normalizer.leading k s)) s = Py.lstrip k s.
Proof.
  rewrite <- (leading_lstrip s) at 2. apply drop_app_length.
Qed.

Lemma trailing_rstrip (s : list ascii) :
  (Py.rstrip k s ++ Normalizer.trailing k s)%list = s.
Proof.
  unfold Py.rstrip, Normalizer.trailing.
  rewrite <- rev_app_distr, leading_lstrip. apply rev_involutive.
Qed.

Lemma trailing_all (s : list ascii) :
  Forall (fun c => k c = true) (Normalizer.trailing k s).
Proof.
  unfold Normalizer.trailing. apply List.Forall_rev, leading_all.
Qed.

Lemma trim_strip (s : list ascii) : Normalizer.trim k s = Py.strip k s.
Proof.
  unfold Normalizer.trim, Py.strip. rewrite skipn_leading.
  set (rest := Py.lstrip k s).
  pose proof (trailing_rstrip rest) as E.
  assert (L : (length rest - length (Normalizer.trailing k rest))%nat
              = length (Py.rstrip k rest)).
  { rewrite <- E at 1. rewrite length_app. lia. }
  rewrite L. rewrite <- E at 2. apply take_app_length.
Qed.

(** The scanner with its flag and the rule that looks one character
    ahead replace the same runs. *)
Lemma collapse_runs_flag (s : list ascii) :
  Re.sub_plus_from false k [hyphen] s = Normalizer.collapse_runs k s /\
  (forall c, k c = true ->
     Normalizer.collapse_runs k (c :: s)
     = hyphen :: Re.sub_plus_from true k [hyphen] s).
Proof.
  induction s as [|c' r [IH1 IH2]].
  - split; [reflexivity|]. intros c Hc. simpl. rewrite Hc. reflexivity.
  - split.
    + simpl Re.sub_plus_from. destruct (k c') eqn:E.
      * rewrite (IH2 c' E). reflexivity.
      * rewrite IH1. simpl. rewrite E. reflexivity.
    + intros c Hc.
      change (Normalizer.collapse_runs k (c :: c' :: r))
        with (if k c then
                if k c' then Normalizer.collapse_runs k (c' :: r)
                else hyphen :: Normalizer.collapse_runs k (c' :: r)
              else c :: Normalizer.collapse_runs k (c' :: r)).
      rewrite Hc. simpl Re.sub_plus_from. destruct (k c') eqn:E.
      * apply (IH2 c' E).
      * rewrite IH1. simpl. rewrite E. reflexivity.
Qed.

Lemma collapse_runs_sub_plus (s : list ascii) :
  Normalizer.collapse_runs k s = Re.sub_plus k [hyphen] s.
Proof. symmetry. apply collapse_runs_flag. Qed.

Lemma sub_plus_from_run (t : list ascii) (b : bool) :
  Forall (fun c => k c = true) t ->
  Re.sub_plus_from b k [hyphen] t =
    if b then [] else match t with [] => [] | _ => [hyphen] end.
Proof.
  intros Ht.
  assert (T : Re.sub_plus_from true k [hyphen] t = []).
  { induction Ht as [|c t Hc _ IH]; simpl; [reflexivity|].
    rewrite Hc. exact IH. }
  destruct b; [exact T|].
  destruct Ht as [|c t Hc Ht]; [reflexivity|].
  simpl. rewrite Hc. simpl. f_equal.
  clear T. induction Ht as [|x u Hx _ IH]; simpl; [reflexivity|].
  rewrite Hx. exact IH.
Qed.

(** A run at the end of a string adds a hyphen or nothing. *)
Lemma sub_plus_from_app_run (s t : list ascii) (b : bool) :
  Forall (fun c => k c = true) t ->
  exists tl, (tl = [] \/ tl = [hyphen]) /\
    Re.sub_plus_from b k [hyphen] (s ++ t)
    = (Re.sub_plus_from b k [hyphen] s ++ tl)%list.
Proof.
  intros Ht. revert b. induction s as [|c s IH]; intros b.
  - simpl. rewrite (sub_plus_from_run t b Ht).
    destruct b; [exists []; split; [left|]; reflexivity|].
    destruct t.
    + exists []. split; [left|]; reflexivity.
    + exists [hyphen]. split; [right|]; reflexivity.
  - simpl. destruct (k c).
    + destruct b.
      * apply IH.
      * destruct (IH true) as [tl [Htl E]]. exists tl. split; [exact Htl|].
        simpl. rewrite E. reflexivity.
    + destruct (IH false) as [tl [Htl E]]. exists tl. split; [exact Htl|].
      rewrite E. reflexivity.
Qed.

(** A run at the start of a string adds a hyphen or nothing. *)
Lemma sub_plus_from_run_app (lead rest : list ascii) (b : bool) :
  Forall (fun c => k c = true) lead ->
  (forall c r, rest = c :: r -> k c = false) ->
  exists hd, (hd = [] \/ hd = [hyphen]) /\
    Re.sub_plus_from b k [hyphen] (lead ++ rest)
    = (hd ++ Re.sub_plus_from false k [hyphen] rest)%list.
Proof.
  intros Hl Hr.
  assert (T : Re.sub_plus_from true k [hyphen] (lead ++ rest)
              = Re.sub_plus_from false k [hyphen] rest).
  { induction Hl as [|c l Hc _ IH]; simpl.
    - destruct rest as [|c r]; [reflexivity|].
      simpl. rewrite (Hr c r eq_refl). reflexivity.
    - rewrite Hc. exact IH. }
  destruct b.
  - exists []. split; [left; reflexivity|exact T].
  - destruct Hl as [|c l Hc Hl].
    + exists []. split; [left|]; reflexivity.
    + exists [hyphen]. split; [right; reflexivity|].
      simpl in T. rewrite Hc in T.
      simpl. rewrite Hc. simpl. f_equal. exact T.
Qed.

Lemma lstrip_snoc (s : list ascii) (c : ascii) :
  k c = true ->
  Py.lstrip k (s ++ [c]) = (Py.lstrip k s ++ [c])%list \/
  (Py.lstrip k (s ++ [c]) = [] /\ Py.lstrip k s = []).
Proof.
  intros Hc. induction s as [|a s IH]; simpl.
  - rewrite Hc. right. split; reflexivity.
  - destruct (k a); [exact IH|]. left. reflexivity.
Qed.

Lemma rstrip_snoc (s : list ascii) (c : ascii) :
  k c = true -> Py.rstrip k (s ++ [c]) = Py.rstrip k s.
Proof.
  intros Hc. unfold Py.rstrip. rewrite rev_app_distr. simpl.
  rewrite Hc. reflexivity.
Qed.

Lemma strip_snoc (s : list ascii) (c : ascii) :
  k c = true -> Py.strip k (s ++ [c]) = Py.strip k s.
Proof.
  intros Hc. unfold Py.strip.
  destruct (lstrip_snoc s c Hc) as [E|[E1 E2]].
  - rewrite E. apply rstrip_snoc, Hc.
  - rewrite E1, E2. reflexivity.
Qed.
End Runs.

Lemma lstrip_collapse_flag (s : list ascii) :
  Py.lstrip (Re.lit hyphen) (Re.sub_plus_from true (Re.lit hyphen) [hyphen] s)
  = Py.lstrip (Re.lit hyphen)
      (Re.sub_plus_from false (Re.lit hyphen) [hyphen] s).
Proof.
  destruct s as [|c s]; simpl; [reflexivity|].
  destruct (Re.lit hyphen c) eqn:E; [|reflexivity].
  simpl. change (Re.lit hyphen hyphen) with true. reflexivity.
Qed.

Lemma strip_collapse_hd (hd s : list ascii) :
  hd = [] \/ hd = [hyphen] ->
  Py.strip (Re.lit hyphen) (Re.sub_plus (Re.lit hyphen) [hyphen] (hd ++ s))
  = Py.strip (Re.lit hyphen) (Re.sub_plus (Re.lit hyphen) [hyphen] s).
Proof.
  intros [->| ->]; [reflexivity|].
  unfold Py.strip, Re.sub_plus. simpl.
  change (Re.lit hyphen hyphen) with true. simpl.
  change (Re.lit hyphen hyphen) with true.
  rewrite lstrip_collapse_flag. reflexivity.
Qed.

Lemma strip_collapse_tl (tl s : list ascii) :
  tl = [] \/ tl = [hyphen] ->
  Py.strip (Re.lit hyphen) (Re.sub_plus (Re.lit hyphen) [hyphen] (s ++ tl))
  = Py.strip (Re.lit hyphen) (Re.sub_plus (Re.lit hyphen) [hyphen] s).
Proof.
  intros [->| ->]; [rewrite app_nil_r; reflexivity|].
  unfold Re.sub_plus.
  destruct (sub_plus_from_app_run (Re.lit hyphen) s [hyphen] false)
    as [tl [[->| ->] E]].
  - repeat constructor.
  - rewrite E, app_nil_r. reflexivity.
  - rewrite E. apply strip_snoc. reflexivity.
Qed.

Lemma filter_blank (l : list ascii) :
  Forall (fun c => Py.isspace c = true) l -> List.filter slug_class l = [].
Proof.
  induction 1 as [|c l Hc _ IH]; simpl; [reflexivity|].
  destruct (slug_class c) eqn:E; [|exact IH].
  apply slug_class_cases in E. destruct E as [E _]. congruence.
Qed.

(** The five steps of the code compute what the specification words. *)
Lemma slugify_steps_normalize (s : list ascii) :
  slugify_steps s =
    Normalizer.trim (Ascii.eqb hyphen)
      (Normalizer.collapse_runs (Ascii.eqb hyphen)
         (Normalizer.drop_outside_class
            (Normalizer.interior_whitespace_to_hyphen
               (Normalizer.lowercase s)))).
Proof.
  unfold slugify_steps, Normalizer.interior_whitespace_to_hyphen,
    Normalizer.drop_outside_class, Normalizer.lowercase.
  fold (Py.lower s). set (x := Py.lower s).
  change (Ascii.eqb hyphen) with (Re.lit hyphen).
  rewrite (trim_strip (Re.lit hyphen)), (collapse_runs_sub_plus (Re.lit hyphen)).
  rewrite (trim_strip Py.isspace), (collapse_runs_sub_plus Py.isspace).
  rewrite (skipn_leading Py.isspace), sub_neg_class_filter.
  rewrite !List.filter_app.
  rewrite (filter_blank _ (leading_all Py.isspace x)).
  rewrite (filter_blank _ (trailing_all Py.isspace _)).
  rewrite app_nil_r. simpl app.
  (* the code hyphenates the blanks around the string as well *)
  set (lead := Normalizer.leading Py.isspace x).
  set (rest := Py.lstrip Py.isspace x).
  set (body := Py.rstrip Py.isspace rest).
  set (trail := Normalizer.trailing Py.isspace rest).
  assert (Ex : x = (lead ++ body ++ trail)%list).
  { subst lead body trail rest.
    rewrite (trailing_rstrip Py.isspace), (leading_lstrip Py.isspace).
    reflexivity. }
  assert (Hrest : forall c r, (body ++ trail)%list = c :: r ->
                              Py.isspace c = false).
  { subst body trail. rewrite (trailing_rstrip Py.isspace).
    intros c r. apply lstrip_head. }
  destruct (sub_plus_from_run_app Py.isspace lead (body ++ trail) false
              (leading_all Py.isspace x) Hrest) as [hd [Hhd E1]].
  destruct (sub_plus_from_app_run Py.isspace body trail false
              (trailing_all Py.isspace rest)) as [tl [Htl E2]].
  change (Py.strip Py.isspace x) with body.
  unfold Re.sub_plus at 2 4. fold Re.space in E1, E2.
  rewrite Ex, E1, E2.
  rewrite !List.filter_app.
  assert (Fh : forall u, u = [] \/ u = [hyphen] ->
                         List.filter slug_class u = u).
  { intros u [->| ->]; reflexivity. }
  rewrite (Fh hd Hhd), (Fh tl Htl).
  rewrite (strip_collapse_hd hd _ Hhd).
  apply (strip_collapse_tl tl _ Htl).
Qed.

(** C9.  The normaliser is idempotent: applied to its own result it
    returns that result. *)
Theorem slugify_idempotent (x : option string) :
  slugify (Some (slugify x)) = slugify x.
Proof.
  rewrite slugify_unfold, slugify_steps_fixed by apply slugify_shaped.
  apply string_of_list_ascii_of_string.
Qed.

Lemma slugify_normalize (text : option string) :
  slugify text = Normalizer.normalize text.
Proof.
  destruct text as [text|]; [|reflexivity].
  rewrite slugify_unfold, slugify_steps_normalize. reflexivity.
Qed.

(** C7.  [slugify] is a total function of an optional string.  Its
    result is the text in lowercase, with each interior run of whitespace
    turned into one hyphen, the characters outside [[a-z0-9-]] dropped,
    each run of hyphens turned into one hyphen, and the hyphens at both
    ends removed: a string over [[a-z0-9-]] with no hyphen at either end
    and no two hyphens in a row.  The absent and the empty text give the
    empty string, and ["  Ken Griffey   Jr.  "] gives
    ["ken-griffey-jr"]. *)
Theorem slugify_spec :
  (forall text : option string,
     slugify text = Normalizer.normalize text /\
     slug_shaped (list_ascii_of_string (slugify text))) /\
  slugify None = "" /\
  slugify (Some "") = "" /\
  slugify (Some "  Ken Griffey   Jr.  ") = "ken-griffey-jr".
Proof.
  split.
  - intros text. split; [apply slugify_normalize|apply slugify_shaped].
  - repeat split; reflexivity.
Qed.

(** The examples of the docstring. *)
Example slugify_docstring :
  slugify (Some "Michael Jordan") = "michael-jordan" /\
  slugify (Some "Ken Griffey Jr.") = "ken-griffey-jr" /\
  slugify (Some "Topps Chrome") = "topps-chrome" /\
  slugify (Some "O'Neal") = "oneal" /\
  slugify (Some "  Multiple   Spaces  ") = "multiple-spaces".
Proof. repeat split; reflexivity. Qed.

(** ** Statements and their rows *)

Lemma StronglySorted_impl {A} (R R' : A -> A -> Prop) (l : list A) :
  (forall x y, R x y -> R' x y) -> StronglySorted R l -> StronglySorted R' l.
Proof.
  intros H. induction 1 as [|x l _ IH Hx]; constructor; [exact IH|].
  eapply List.Forall_impl; [|exact Hx]. intros y. apply H.
Qed.

Lemma filter_decide {A} (f : A -> bool) (P : A -> Prop)
    `{forall x, Decision (P x)} (l : list A) :
  (forall x, f x = true <-> P x) -> List.filter f l = filter P l.
Proof.
  intros E. induction l as [|x l IH]; [reflexivity|].
  simpl. rewrite filter_cons, IH.
  destruct (decide (P x)) as [p|n].
  - apply E in p. rewrite p. reflexivity.
  - destruct (f x) eqn:F; [|reflexivity]. apply E in F. contradiction.
Qed.

Section Order.
Variable similarity : string -> string -> Q.

Lemma ahead_asym (k : Sql.order_key) (a b : SalesHistory.t) :
  Sql.ahead similarity k a b = true -> Sql.ahead similarity k b a = false.
Proof.
  destruct k; simpl.
  - rewrite Z.ltb_lt, Z.ltb_ge. lia.
  - apply ltb_asym.
Qed.

Lemma ahead_neg_trans (k : Sql.order_key) (a b c : SalesHistory.t) :
  Sql.ahead similarity k a b = false ->
  Sql.ahead similarity k b c = false ->
  Sql.ahead similarity k a c = false.
Proof.
  destruct k; simpl.
  - rewrite !Z.ltb_ge. lia.
  - intros H1 H2. exact (ltb_ge_trans _ _ _ H1 H2).
Qed.

Lemma precedes_asym (ks : list Sql.order_key) (a b : SalesHistory.t) :
  Sql.precedes similarity ks a b = true ->
  Sql.precedes similarity ks b a = false.
Proof.
  induction ks as [|k ks IH]; simpl; [discriminate|].
  destruct (Sql.ahead similarity k a b) eqn:E1.
  - rewrite (ahead_asym _ _ _ E1). reflexivity.
  - destruct (Sql.ahead similarity k b a) eqn:E2; [discriminate|exact IH].
Qed.

Lemma precedes_neg_trans (ks : list Sql.order_key) (a b c : SalesHistory.t) :
  Sql.precedes similarity ks a b = false ->
  Sql.precedes similarity ks b c = false ->
  Sql.precedes similarity ks a c = false.
Proof.
  induction ks as [|k ks IH]; simpl; [reflexivity|].
  destruct (Sql.ahead similarity k a b) eqn:Eab; [discriminate|].
  destruct (Sql.ahead similarity k b c) eqn:Ebc; [discriminate|].
  rewrite (ahead_neg_trans _ _ _ _ Eab Ebc).
  destruct (Sql.ahead similarity k b a) eqn:Eba.
  - intros _ H2.
    destruct (Sql.ahead similarity k c a) eqn:Eca; [reflexivity|].
    destruct (Sql.ahead similarity k c b) eqn:Ecb.
    + rewrite (ahead_neg_trans _ _ _ _ Ebc Eca) in Eba. discriminate.
    + rewrite (ahead_neg_trans _ _ _ _ Ebc Eca) in Eba. discriminate.
  - destruct (Sql.ahead similarity k c b) eqn:Ecb.
    + intros _ _.
      destruct (Sql.ahead similarity k c a) eqn:Eca; [reflexivity|].
      rewrite (ahead_neg_trans _ _ _ _ Eca Eab) in Ecb. discriminate.
    + intros H1 H2.
      destruct (Sql.ahead similarity k c a); [reflexivity|].
      exact (IH H1 H2).
Qed.

(** The rows of a statement are the hits of its [WHERE] in the order of
    its [ORDER BY], cut at its [LIMIT]. *)
Lemma run_spec (q : Sql.Select) (table : list SalesHistory.t) :
  let hits :=
    List.filter (fun r => forallb (Sql.holds similarity r) (Sql.whereclause q))
                table in
  exists rest,
    Permutation hits (Sql.run similarity q table ++ rest)%list /\
    StronglySorted
      (ascending (Sql.precedes similarity (Sql.order_by_keys q)))
      (Sql.run similarity q table ++ rest)%list /\
    length (Sql.run similarity q table) =
      match Sql.limit_count q with
      | Some n => Nat.min n (length hits)
      | None => length hits
      end.
Proof.
  intros hits. unfold Sql.run. fold hits.
  set (s := Py.sorted _ hits).
  assert (P : Permutation hits s) by (symmetry; apply sorted_perm).
  assert (S : StronglySorted
                (ascending (Sql.precedes similarity (Sql.order_by_keys q))) s).
  { apply sorted_sorted.
    - apply precedes_asym.
    - intros x y z H1 H2. exact (precedes_neg_trans _ _ _ _ H2 H1). }
  destruct (Sql.limit_count q) as [n|]; simpl.
  - exists (skipn n s). rewrite firstn_skipn. split; [exact P|].
    split; [exact S|].
    rewrite length_firstn, (Permutation_length P). reflexivity.
  - exists []. rewrite app_nil_r. split; [exact P|].
    split; [exact S|]. rewrite (Permutation_length P). reflexivity.
Qed.
End Order.

(** ** Record matcher *)

Section Matcher.
Variable similarity : string -> string -> Q.

Lemma tier1_unfold (p b v : string) (grade : option Q)
    (grader : option string) (limit : nat) (w : World) :
  query_tier1_exact_match similarity p b v grade grader limit w =
    (Return (if store_fails w (length (statements w)) then []
             else Sql.run similarity
                    (tier1_statement p b v grade grader limit) (table w)),
     log_statement (tier1_statement p b v grade grader limit) w).
Proof.
  unfold query_tier1_exact_match, try_except, bind, execute, ret.
  destruct grade as [g|], grader as [[|c a]|];
    simpl; destruct (store_fails w _); reflexivity.
Qed.

Lemma tier2_unfold (p b : string) (year : option Z) (limit : nat)
    (w : World) :
  query_tier2_fuzzy_match similarity p b year limit w =
    (Return (if store_fails w (length (statements w)) then []
             else Sql.run similarity
                    (tier2_statement p b year limit) (table w)),
     log_statement (tier2_statement p b year limit) w).
Proof.
  unfold query_tier2_fuzzy_match, try_except, bind, execute, ret.
  destruct year as [y|]; simpl; destruct (store_fails w _); reflexivity.
Qed.

Lemma tier1_where (p b v : string) (grade : option Q)
    (grader : option string) (limit : nat) (r : SalesHistory.t) :
  forallb (Sql.holds similarity r)
          (Sql.whereclause (tier1_statement p b v grade grader limit)) = true
  <-> tier1_hit p b v grade grader r.
Proof.
  unfold tier1_hit.
  destruct grade as [g|], grader as [[|c a]|]; simpl;
    rewrite ?andb_true_iff, ?String.eqb_eq, ?Qeq_bool_iff;
    intuition discriminate.
Qed.

Lemma tier2_where (p b : string) (year : option Z) (limit : nat)
    (r : SalesHistory.t) :
  forallb (Sql.holds similarity r)
          (Sql.whereclause (tier2_statement p b year limit)) = true
  <-> tier2_hit similarity p b year r.
Proof.
  unfold tier2_hit.
  destruct year as [y|]; simpl;
    rewrite ?andb_true_iff, ?String.eqb_eq, ?Z.eqb_eq, ?ltb_lt; tauto.
Qed.

Lemma tier1_order (a b : SalesHistory.t) :
  ascending (Sql.precedes similarity [Sql.SoldAtDesc]) a b ->
  recent_first a b.
Proof.
  unfold ascending, recent_first. simpl.
  destruct (Z.ltb_spec (SalesHistory.sold_at a) (SalesHistory.sold_at b));
    [discriminate|lia].
Qed.

Lemma tier2_order (p : string) (a b : SalesHistory.t) :
  ascending (Sql.precedes similarity [Sql.SimilarityDesc p; Sql.SoldAtDesc])
            a b ->
  closest_first similarity p a b.
Proof.
  unfold ascending, closest_first, recent_first. simpl.
  set (sa := similarity (SalesHistory.player_id a) p).
  set (sb := similarity (SalesHistory.player_id b) p).
  destruct (Py.ltb sa sb) eqn:E1; [discriminate|].
  destruct (Py.ltb sb sa) eqn:E2.
  - intros _. left. apply ltb_lt, E2.
  - destruct (Z.ltb_spec (SalesHistory.sold_at a) (SalesHistory.sold_at b));
      [discriminate|].
    intros _. right. split; [|lia].
    apply ltb_ascending in E1, E2. apply Qle_antisym; assumption.
Qed.

(** C5.  When the store answers, Tier 1 returns the records of the
    store with the player, brand and variation of the query, with the
    grade of the query when one is given and with its grading authority
    when one is given, and with any year; the later sale comes first
    and the result stops after ten records.  Without such a record the
    result is the empty list, which is returned, not raised. *)
Theorem query_tier1_exact_match_spec (p b v : string) (grade : option Q)
    (grader : option string) (w : World) :
  store_fails w (length (statements w)) = false ->
  exists sales rest,
    result_of (query_tier1_exact_match similarity p b v grade grader 10) w
      = Return sales /\
    Permutation (filter (tier1_hit p b v grade grader) (table w))
                (sales ++ rest)%list /\
    StronglySorted recent_first (sales ++ rest)%list /\
    length sales = Nat.min 10 (length (sales ++ rest)%list) /\
    (filter (tier1_hit p b v grade grader) (table w) = [] -> sales = []).
Proof.
  intros Up. unfold result_of. rewrite tier1_unfold, Up. simpl.
  destruct (run_spec similarity (tier1_statement p b v grade grader 10)
                     (table w)) as [rest [P [S L]]].
  rewrite (filter_decide _ (tier1_hit p b v grade grader)) in P, L
    by (intros r; apply tier1_where).
  set (sales := Sql.run _ _ _) in *.
  exists sales, rest. split; [reflexivity|]. split; [exact P|].
  split; [exact (StronglySorted_impl _ _ _ tier1_order S)|].
  split.
  - rewrite <- (Permutation_length P). exact L.
  - intros E. rewrite E in L. simpl in L.
    destruct sales; [reflexivity|]. simpl in L. lia.
Qed.

(** C6.  When the store answers, Tier 2 returns the records of the
    store with the brand of the query whose player identifier has a
    similarity above 0.3 to the player identifier of the query, with the
    year of the query when one is given, and with any grade and grading
    authority; the more similar player comes first, the later sale
    first among equally similar ones, and the result stops after ten
    records. *)
Theorem query_tier2_fuzzy_match_spec (p b : string) (year : option Z)
    (w : World) :
  store_fails w (length (statements w)) = false ->
  SIMILARITY_THRESHOLD == 3 / 10 /\
  exists sales rest,
    result_of (query_tier2_fuzzy_match similarity p b year 10) w
      = Return sales /\
    Permutation (filter (tier2_hit similarity p b year) (table w))
                (sales ++ rest)%list /\
    StronglySorted (closest_first similarity p) (sales ++ rest)%list /\
    length sales = Nat.min 10 (length (sales ++ rest)%list).
Proof.
  intros Up. split; [reflexivity|].
  unfold result_of. rewrite tier2_unfold, Up. simpl.
  destruct (run_spec similarity (tier2_statement p b year 10) (table w))
    as [rest [P [S L]]].
  rewrite (filter_decide _ (tier2_hit similarity p b year)) in P, L
    by (intros r; apply tier2_where).
  set (sales := Sql.run _ _ _) in *.
  exists sales, rest. split; [reflexivity|]. split; [exact P|].
  split; [exact (StronglySorted_impl _ _ _ (tier2_order p) S)|].
  rewrite <- (Permutation_length P). exact L.
Qed.
End Matcher.

(** ** Valuation orchestrator *)

Section Orchestrator.
Variable similarity : string -> string -> Q.

Local Abbreviation tier1 p b v grade grader :=
  (query_tier1_exact_match similarity p b v grade grader default_limit).
Local Abbreviation tier2 p b year :=
  (query_tier2_fuzzy_match similarity p b year default_limit).

(** Both tiers return; neither raises. *)
Lemma tier1_returns p b v grade grader limit w :
  exists sales,
    result_of (query_tier1_exact_match similarity p b v grade grader limit) w
      = Return sales.
Proof. unfold result_of. rewrite tier1_unfold. eexists. reflexivity. Qed.

Lemma tier2_returns p b year limit w :
  exists sales,
    result_of (query_tier2_fuzzy_match similarity p b year limit) w
      = Return sales.
Proof. unfold result_of. rewrite tier2_unfold. eexists. reflexivity. Qed.

(** The orchestrator in terms of what the tiers return. *)
Lemma get_estimated_value_unfold p b v year grade grader w sales1 sales2 :
  result_of (tier1 p b v grade grader) w = Return sales1 ->
  result_of (tier2 p b year) (world_after (tier1 p b v grade grader) w)
    = Return sales2 ->
  get_estimated_value similarity p b v year grade grader w =
    match sales1, sales2 with
    | _ :: _, _ =>
        (Return (pricing_of sales1 "exact"),
         world_after (tier1 p b v grade grader) w)
    | [], _ :: _ =>
        (Return (pricing_of sales2 "fuzzy"),
         world_after (tier2 p b year)
                     (world_after (tier1 p b v grade grader) w))
    | [], [] =>
        (Return (pricing_of [] "none"),
         world_after (tier2 p b year)
                     (world_after (tier1 p b v grade grader) w))
    end.
Proof.
  unfold result_of, world_after, get_estimated_value, bind.
  destruct (query_tier1_exact_match _ _ _ _ _ _ _ w) as [r1 w1]. simpl.
  intros ->.
  destruct sales1 as [|x l]; [|intros _; reflexivity].
  destruct (query_tier2_fuzzy_match _ _ _ _ _ w1) as [r2 w2]. simpl.
  intros ->.
  destruct sales2; reflexivity.
Qed.

(** C2.  Tier 2 is run exactly when Tier 1 returned no record, and its
    records are never added to those of Tier 1.  The tier reported is
    [exact] exactly when Tier 1 returned a record, [fuzzy] exactly when
    Tier 1 returned none and Tier 2 returned one, [none] exactly when
    both returned none.  The records of a non-empty Tier 1 are the ones
    reported, whatever Tier 2 would have found. *)
Theorem get_estimated_value_tiers p b v year grade grader w :
  exists sales1 sales2 res,
    result_of (tier1 p b v grade grader) w = Return sales1 /\
    result_of (tier2 p b year) (world_after (tier1 p b v grade grader) w)
      = Return sales2 /\
    result_of (get_estimated_value similarity p b v year grade grader) w
      = Return res /\
    (PricingResult.match_tier res = "exact" <-> sales1 <> []) /\
    (PricingResult.match_tier res = "fuzzy" <->
       sales1 = [] /\ sales2 <> []) /\
    (PricingResult.match_tier res = "none" <-> sales1 = [] /\ sales2 = []) /\
    PricingResult.sales_data res =
      map SalesHistory.to_dict
          (match sales1 with _ :: _ => sales1 | [] => sales2 end) /\
    world_after (get_estimated_value similarity p b v year grade grader) w =
      match sales1 with
      | _ :: _ => world_after (tier1 p b v grade grader) w
      | [] => world_after (tier2 p b year)
                          (world_after (tier1 p b v grade grader) w)
      end /\
    statements
      (world_after (get_estimated_value similarity p b v year grade grader) w)
    = (statements w
       ++ tier1_statement p b v grade grader default_limit
       :: match sales1 with
          | _ :: _ => []
          | [] => [tier2_statement p b year default_limit]
          end)%list.
Proof.
  destruct (tier1_returns p b v grade grader default_limit w) as [sales1 E1].
  destruct (tier2_returns p b year default_limit
              (world_after (tier1 p b v grade grader) w)) as [sales2 E2].
  pose proof (get_estimated_value_unfold _ _ _ _ _ _ _ _ _ E1 E2) as U.
  assert (W1 : statements (world_after (tier1 p b v grade grader) w) =
               (statements w
                ++ [tier1_statement p b v grade grader default_limit])%list).
  { unfold world_after. rewrite tier1_unfold. reflexivity. }
  assert (W2 : statements
                 (world_after (tier2 p b year)
                    (world_after (tier1 p b v grade grader) w)) =
               (statements w
                ++ [tier1_statement p b v grade grader default_limit;
                    tier2_statement p b year default_limit])%list).
  { unfold world_after at 1. rewrite tier2_unfold. simpl.
    rewrite W1, <- List.app_assoc. reflexivity. }
  set (g := get_estimated_value similarity p b v year grade grader) in *.
  assert (Rg : result_of g w = fst (g w)) by reflexivity.
  assert (Wg : world_after g w = snd (g w)) by reflexivity.
  rewrite U in Rg, Wg. clear U.
  exists sales1, sales2.
  destruct sales1 as [|x1 l1], sales2 as [|x2 l2];
    simpl in Rg, Wg; eexists;
    (split; [exact E1|]); (split; [exact E2|]); (split; [exact Rg|]);
    rewrite Wg; simpl;
    repeat split; try tauto; try discriminate; try assumption;
    try (intros [? ?]; discriminate); try (intros H; exfalso; tauto).
Qed.

Lemma get_estimated_value_returns p b v year grade grader w :
  exists sales tier,
    result_of (get_estimated_value similarity p b v year grade grader) w
      = Return (pricing_of sales tier) /\
    (tier = "none" <-> sales = []).
Proof.
  destruct (tier1_returns p b v grade grader default_limit w) as [sales1 E1].
  destruct (tier2_returns p b year default_limit
              (world_after (tier1 p b v grade grader) w)) as [sales2 E2].
  unfold result_of at 1.
  rewrite (get_estimated_value_unfold _ _ _ _ _ _ _ _ _ E1 E2).
  destruct sales1 as [|x1 l1]; [destruct sales2 as [|x2 l2]|].
  - exists [], "none". split; [reflexivity|tauto].
  - exists (x2 :: l2), "fuzzy". split; [reflexivity|].
    split; discriminate.
  - exists (x1 :: l1), "exact". split; [reflexivity|].
    split; discriminate.
Qed.

(** C8.  A statement that fails inside a tier makes that tier return no
    record: after a failure in Tier 1 the orchestrator goes on to Tier 2
    and reports what Tier 2 returns, and after failures in both tiers it
    reports the tier [none] with no estimate.  In every world the
    orchestrator returns a result; it never raises. *)
Theorem get_estimated_value_absorbs_failures p b v year grade grader w :
  (store_fails w (length (statements w)) = true ->
   result_of (tier1 p b v grade grader) w = Return [] /\
   result_of (tier2 p b year) w = Return []) /\
  (exists res,
     result_of (get_estimated_value similarity p b v year grade grader) w
       = Return res) /\
  (store_fails w (length (statements w)) = true ->
   exists sales2,
     result_of (tier2 p b year) (world_after (tier1 p b v grade grader) w)
       = Return sales2 /\
     result_of (get_estimated_value similarity p b v year grade grader) w
       = Return (pricing_of sales2
                   (match sales2 with _ :: _ => "fuzzy" | [] => "none" end)) /\
     statements
       (world_after (get_estimated_value similarity p b v year grade grader) w)
     = (statements w
        ++ [tier1_statement p b v grade grader default_limit;
            tier2_statement p b year default_limit])%list) /\
  (store_fails w (length (statements w)) = true ->
   store_fails w (S (length (statements w))) = true ->
   result_of (get_estimated_value similarity p b v year grade grader) w
     = Return (PricingResult.mk None "none" 0 [])).
Proof.
  assert (F1 : store_fails w (length (statements w)) = true ->
               result_of (tier1 p b v grade grader) w = Return []).
  { intros F. unfold result_of. rewrite tier1_unfold, F. reflexivity. }
  assert (F2 : store_fails w (length (statements w)) = true ->
               exists sales2,
                 result_of (tier2 p b year)
                   (world_after (tier1 p b v grade grader) w)
                 = Return sales2 /\
                 result_of
                   (get_estimated_value similarity p b v year grade grader) w
                 = Return (pricing_of sales2
                             (match sales2 with
                              | _ :: _ => "fuzzy" | [] => "none" end)) /\
                 world_after
                   (get_estimated_value similarity p b v year grade grader) w
                 = world_after (tier2 p b year)
                     (world_after (tier1 p b v grade grader) w)).
  { intros F.
    destruct (tier2_returns p b year default_limit
                (world_after (tier1 p b v grade grader) w)) as [sales2 E2].
    exists sales2. split; [exact E2|].
    unfold result_of at 1, world_after at 1.
    rewrite (get_estimated_value_unfold _ _ _ _ _ _ _ _ _ (F1 F) E2).
    destruct sales2; split; reflexivity. }
  split; [|split; [|split]].
  - intros F. split; [exact (F1 F)|].
    unfold result_of. rewrite tier2_unfold, F. reflexivity.
  - destruct (get_estimated_value_returns p b v year grade grader w)
      as [sales [tier [E _]]].
    eexists. exact E.
  - intros F. destruct (F2 F) as [sales2 [E2 [Eg Wg]]].
    exists sales2. split; [exact E2|]. split; [exact Eg|].
    rewrite Wg. unfold world_after. rewrite tier2_unfold, tier1_unfold.
    simpl. rewrite <- List.app_assoc. reflexivity.
  - intros F G. destruct (F2 F) as [sales2 [E2 [Eg _]]].
    rewrite Eg. revert E2.
    unfold result_of, world_after. rewrite tier2_unfold, tier1_unfold.
    simpl. rewrite length_app, Nat.add_1_r, G. simpl.
    intros E. injection E as <-. reflexivity.
Qed.

(** C10.  In every result of the orchestrator the estimate is absent
    exactly when the count of records is 0, which is exactly when the
    tier is [none]; the count is the number of records reported, and
    these are the records whose prices the estimator was given. *)
Theorem get_estimated_value_invariant p b v year grade grader w :
  exists res sales,
    result_of (get_estimated_value similarity p b v year grade grader) w
      = Return res /\
    PricingResult.sales_data res = map SalesHistory.to_dict sales /\
    PricingResult.estimated_value res =
      calculate_sanity_average (map SalesHistory.price sales) /\
    PricingResult.sales_count res = length (PricingResult.sales_data res) /\
    (PricingResult.estimated_value res = None <->
       PricingResult.sales_count res = 0%nat) /\
    (PricingResult.sales_count res = 0%nat <->
       PricingResult.match_tier res = "none") /\
    (PricingResult.estimated_value res = None <->
       PricingResult.match_tier res = "none").
Proof.
  destruct (get_estimated_value_returns p b v year grade grader w)
    as [sales [tier [E T]]].
  exists (pricing_of sales tier), sales.
  split; [exact E|]. simpl.
  split; [reflexivity|]. split; [reflexivity|].
  split; [rewrite length_map; reflexivity|].
  rewrite calculate_sanity_average_none, T.
  assert (L : length sales = 0%nat <-> sales = [])
    by (destruct sales; simpl; split; congruence).
  assert (N : map SalesHistory.price sales = [] <-> sales = [])
    by (destruct sales; simpl; split; congruence).
  rewrite L, N. tauto.
Qed.

(** The orchestrator reads the store and leaves the cache alone. *)
Lemma get_estimated_value_cache p b v year grade grader w :
  cache (world_after (get_estimated_value similarity p b v year grade grader) w)
    = cache w.
Proof.
  destruct (tier1_returns p b v grade grader default_limit w) as [sales1 E1].
  destruct (tier2_returns p b year default_limit
              (world_after (tier1 p b v grade grader) w)) as [sales2 E2].
  unfold world_after at 1.
  rewrite (get_estimated_value_unfold _ _ _ _ _ _ _ _ _ E1 E2).
  destruct sales1, sales2; simpl; unfold world_after;
    rewrite ?tier2_unfold, tier1_unfold; reflexivity.
Qed.
End Orchestrator.

(** ** Result cache and request pipeline *)

Section Pipeline.
Variable similarity : string -> string -> Q.
Variable md5_hexdigest : string -> string.

Lemma get_cached_value_unfold (key : string) (w : World) :
  get_cached_value key w =
    (Return (if cache_fails w (cache_commands w) then None
             else snd <$> cache w !! key),
     count_command (cache w) w).
Proof.
  unfold get_cached_value, try_except, bind, client_get, ret.
  destruct (cache_fails w _); [reflexivity|].
  destruct (snd <$> cache w !! key); reflexivity.
Qed.

Lemma set_cached_value_unfold (key : string) (value : gmap string value)
    (ttl : Z) (w : World) :
  set_cached_value key value ttl w =
    if cache_fails w (cache_commands w) then
      (Return false, count_command (cache w) w)
    else
      (Return true, count_command (<[key := (ttl, value)]> (cache w)) w).
Proof.
  unfold set_cached_value, try_except, bind, client_setex, ret.
  destruct (cache_fails w _); reflexivity.
Qed.

(** What a request does, case by case: a hit answers from the cached
    dictionary and touches nothing but the cache's command count; a miss
    parses, values, caches and answers. *)
Lemma analyze_listing_cases (request : AnalyzeRequest.t) (w : World) :
  let key := generate_cache_key md5_hexdigest "analysis"
               (AnalyzeRequest.title request) in
  let price := AnalyzeRequest.listing_price request in
  let w0 := world_after (get_cached_value key) w in
  let a := analyze_listing similarity md5_hexdigest request in
  (exists d,
     result_of (get_cached_value key) w = Return (Some d) /\ d <> ∅ /\
     world_after a w = w0 /\
     ((exists e, result_of a w = Raise (http_error e)) \/
      (exists est pd ev mt sc,
         optional_float_of ev = Some est /\
         d !! "parsed_data" = Some pd /\
         d !! "estimated_value" = Some ev /\
         d !! "match_tier" = Some mt /\
         d !! "sales_count" = Some sc /\
         result_of a w =
           Return (AnalyzeResponse.mk pd ev
                     (fst (calculate_profit_loss price est))
                     (snd (calculate_profit_loss price est)) mt sc true))))
  \/
  (truthy_dict (match result_of (get_cached_value key) w with
                | Return r => r | Raise _ => None end) = None /\
   ((exists e,
       parser w (AnalyzeRequest.title request) = Raise e /\
       result_of a w = Raise (http_error e) /\
       world_after a w = w0) \/
    (exists parsed res,
       parser w (AnalyzeRequest.title request) = Return parsed /\
       result_of (valuation_of similarity parsed) w0 = Return res /\
       result_of a w =
         Return (AnalyzeResponse.mk
                   (VModel parsed)
                   (optional_float (PricingResult.estimated_value res))
                   (fst (calculate_profit_loss price
                           (PricingResult.estimated_value res)))
                   (snd (calculate_profit_loss price
                           (PricingResult.estimated_value res)))
                   (VStr (PricingResult.match_tier res))
                   (VInt (Z.of_nat (PricingResult.sales_count res)))
                   false) /\
       world_after a w =
         world_after
           (set_cached_value key (cache_data_of parsed res) REDIS_DEFAULT_TTL)
           (world_after (valuation_of similarity parsed) w0)))).
Proof.
  intros key price w0 a. subst a w0.
  unfold result_of, world_after.
  destruct (analyze_listing similarity md5_hexdigest request w)
    as [r w'] eqn:E.
  simpl fst. simpl snd.
  unfold analyze_listing in E. fold key in E. fold price in E.
  unfold try_except at 1 in E. unfold bind at 1 in E.
  rewrite get_cached_value_unfold in *. simpl fst. simpl snd.
  set (w0 := count_command (cache w) w) in *.
  set (r0 := if cache_fails w (cache_commands w) then None else _) in *.
  destruct (truthy_dict r0) as [d|] eqn:T.
  - left. exists d.
    assert (r0 = Some d /\ d <> ∅) as [R0 Hd].
    { destruct r0 as [d'|]; [|discriminate]. simpl in T.
      destruct (decide (d' = ∅)); [discriminate|].
      injection T as <-. tauto. }
    split; [rewrite R0; reflexivity|]. split; [exact Hd|].
    unfold dict_get, as_optional_float, dict_getitem, bind, ret, raise in E.
    destruct (d !! "estimated_value") as [ev|] eqn:Eev; simpl in E.
    + destruct (optional_float_of ev) as [est|] eqn:Eest; simpl in E.
      * destruct (calculate_profit_loss price est) as [pl vd] eqn:Ec.
        destruct (d !! "parsed_data") as [pd|] eqn:Epd; simpl in E;
          [|injection E as <- <-;
            split; [reflexivity|left; exists (KeyError "parsed_data");
                                 reflexivity]].
        destruct (d !! "match_tier") as [mt|] eqn:Emt; simpl in E;
          [|injection E as <- <-;
            split; [reflexivity|left; exists (KeyError "match_tier");
                                 reflexivity]].
        destruct (d !! "sales_count") as [sc|] eqn:Esc; simpl in E;
          [|injection E as <- <-;
            split; [reflexivity|left; exists (KeyError "sales_count");
                                 reflexivity]].
        injection E as <- <-.
        split; [reflexivity|]. right.
        exists est, pd, ev, mt, sc.
        rewrite Ec. repeat split; try assumption; try reflexivity.
      * injection E as <- <-.
        split; [reflexivity|]. left. exists TypeError. reflexivity.
    + destruct (calculate_profit_loss price None) as [pl vd] eqn:Ec.
      destruct (d !! "parsed_data") as [pd|] eqn:Epd; simpl in E;
        injection E as <- <-.
      * split; [reflexivity|]. left. exists (KeyError "estimated_value").
        reflexivity.
      * split; [reflexivity|]. left. exists (KeyError "parsed_data").
        reflexivity.
  - right. split; [reflexivity|].
    unfold parse_listing_title_with_retry in E. unfold bind at 1 in E.
    change (parser w0) with (parser w) in E.
    destruct (parser w (AnalyzeRequest.title request)) as [parsed|e] eqn:Ep.
    + right. exists parsed.
      destruct (get_estimated_value_returns similarity
                  (slugify (Some (ParsedCardData.player_name parsed)))
                  (slugify (Some (ParsedCardData.brand parsed)))
                  (slugify (Some (default "Base"
                     (truthy_str (ParsedCardData.variation parsed)))))
                  (ParsedCardData.year parsed)
                  (ParsedCardData.grade parsed)
                  (ParsedCardData.grading_company parsed) w0)
        as [sales [tier [Eg _]]].
      exists (pricing_of sales tier).
      split; [reflexivity|]. unfold valuation_of.
      unfold result_of in Eg. split; [exact Eg|].
      unfold bind in E.
      destruct (get_estimated_value _ _ _ _ _ _ _ w0) as [rg w1].
      simpl in Eg. subst rg. simpl in E.
      fold (cache_data_of parsed (pricing_of sales tier)) in E.
      simpl snd.
      destruct (set_cached_value _ _ _ w1) as [rs w2] eqn:Es.
      assert (exists ok, rs = Return ok) as [ok ->].
      { rewrite set_cached_value_unfold in Es.
        destruct (cache_fails w1 _); injection Es as <- _; eexists;
          reflexivity. }
      simpl in E. simpl snd.
      destruct (calculate_profit_loss _ _) in *.
      injection E as <- <-. split; reflexivity.
    + left. exists e. simpl in E.
      split; [reflexivity|].
      unfold http_error. unfold raise in E.
      destruct (is_ValueError e); injection E as <- <-; split; reflexivity.
Qed.

Lemma cache_data_of_dom (parsed : ParsedCardData.t) (res : PricingResult.t) :
  dom (cache_data_of parsed res) = cached_fields.
Proof.
  unfold cache_data_of, cached_fields.
  rewrite !dom_insert_L, dom_singleton_L, !(assoc_L (∪)). reflexivity.
Qed.

Lemma cached_fields_no_verdict (d : gmap string value) :
  dom d = cached_fields ->
  d !! "profit_loss" = None /\ d !! "verdict" = None.
Proof.
  intros D. split; apply not_elem_of_dom; rewrite D; unfold cached_fields;
    rewrite !elem_of_union, !elem_of_singleton; intuition discriminate.
Qed.

Local Abbreviation key_of request :=
  (generate_cache_key md5_hexdigest "analysis" (AnalyzeRequest.title request)).

(** C4.  A request leaves the cache as it was, but possibly for the key
    of its title, under which it stores a dictionary with the parsed
    data, the estimated value, the match tier and the sales count and
    with neither profit nor verdict; what it leaves behind is the same
    for every asking price.  Every response, from the cache or not,
    carries the verdict that [calculate_profit_loss] gives for the asking
    price of the request and the estimated value of the response.  On a
    hit the valuation fields of the response are the cached values, and
    nothing but the read of the cache has happened. *)
Theorem analyze_listing_cache_contract (request : AnalyzeRequest.t)
    (w : World) :
  let key := generate_cache_key md5_hexdigest "analysis"
               (AnalyzeRequest.title request) in
  let a := analyze_listing similarity md5_hexdigest request in
  (forall k,
     cache (world_after a w) !! k = cache w !! k \/
     (k = key /\
      exists d,
        cache (world_after a w) !! k = Some (REDIS_DEFAULT_TTL, d) /\
        dom d = cached_fields /\
        d !! "profit_loss" = None /\ d !! "verdict" = None)) /\
  (forall listing_price',
     world_after
       (analyze_listing similarity md5_hexdigest
          (AnalyzeRequest.mk (AnalyzeRequest.title request) listing_price')) w
     = world_after a w) /\
  (forall resp,
     result_of a w = Return resp ->
     exists est,
       optional_float_of (AnalyzeResponse.estimated_value resp) = Some est /\
       (AnalyzeResponse.profit_loss resp, AnalyzeResponse.verdict resp) =
         calculate_profit_loss (AnalyzeRequest.listing_price request) est) /\
  (forall d resp,
     result_of (get_cached_value key) w = Return (Some d) -> d <> ∅ ->
     result_of a w = Return resp ->
     AnalyzeResponse.cached resp = true /\
     d !! "parsed_data" = Some (AnalyzeResponse.parsed_data resp) /\
     d !! "estimated_value" = Some (AnalyzeResponse.estimated_value resp) /\
     d !! "match_tier" = Some (AnalyzeResponse.match_tier resp) /\
     d !! "sales_count" = Some (AnalyzeResponse.sales_count resp) /\
     world_after a w = world_after (get_cached_value key) w).
Proof.
  intros key a. subst a key.
  assert (Hit : forall d,
            result_of (get_cached_value (key_of request)) w = Return (Some d) ->
            d <> ∅ ->
            truthy_dict
              (match result_of (get_cached_value (key_of request)) w with
               | Return r => r | Raise _ => None end) = None -> False).
  { intros d -> Hd. simpl. destruct (decide (d = ∅)); congruence. }
  assert (W0 : cache (world_after (get_cached_value (key_of request)) w)
               = cache w).
  { unfold world_after. rewrite get_cached_value_unfold. reflexivity. }
  split; [|split; [|split]].
  - intros k.
    destruct (analyze_listing_cases request w)
      as [[d [_ [_ [Ww _]]]]|[_ [[e [_ [_ Ww]]]|[parsed [res [_ [_ [_ Ww]]]]]]]];
      rewrite Ww; clear Ww.
    + left. rewrite W0. reflexivity.
    + left. rewrite W0. reflexivity.
    + set (w1 := world_after (valuation_of similarity parsed) _).
      assert (C1 : cache w1 = cache w).
      { subst w1. unfold valuation_of.
        rewrite get_estimated_value_cache. exact W0. }
      assert (C2 : cache
                     (world_after
                        (set_cached_value (key_of request)
                           (cache_data_of parsed res) REDIS_DEFAULT_TTL) w1) =
                   if cache_fails w1 (cache_commands w1) then cache w1
                   else <[key_of request :=
                            (REDIS_DEFAULT_TTL, cache_data_of parsed res)]>
                          (cache w1)).
      { unfold world_after. rewrite set_cached_value_unfold.
        destruct (cache_fails w1 _); reflexivity. }
      rewrite C2. clear C2.
      destruct (cache_fails w1 (cache_commands w1)).
      * left. rewrite C1. reflexivity.
      * destruct (decide (k = key_of request)) as [->|Hk].
        -- right. split; [reflexivity|].
           exists (cache_data_of parsed res).
           rewrite lookup_insert_eq. split; [reflexivity|].
           split; [apply cache_data_of_dom|].
           apply cached_fields_no_verdict, cache_data_of_dom.
        -- left. rewrite lookup_insert_ne by congruence.
           rewrite C1. reflexivity.
  - intros listing_price'.
    set (request' := AnalyzeRequest.mk _ listing_price').
    destruct (analyze_listing_cases request w)
      as [[d [Ed [Hd [Ww _]]]]
         |[T [[e [Ep [_ Ww]]]|[parsed [res [Ep [Er [_ Ww]]]]]]]];
      destruct (analyze_listing_cases request' w)
        as [[d' [Ed' [Hd' [Ww' _]]]]
           |[T' [[e' [Ep' [_ Ww']]]|[parsed' [res' [Ep' [Er' [_ Ww']]]]]]]];
      simpl AnalyzeRequest.title in *;
      try (exfalso; eapply Hit; eassumption);
      rewrite Ww, Ww'; try reflexivity; try congruence.
  - intros resp Er.
    destruct (analyze_listing_cases request w)
      as [[d [_ [_ [_ [[e Ee]
                      |[est [pd [ev [mt [sc [Eest [_ [_ [_ [_ Ea]]]]]]]]]]]]]]]
         |[_ [[e [_ [Ee _]]]|[parsed [res [_ [_ [Ea _]]]]]]]];
      try congruence.
    + rewrite Ea in Er. injection Er as <-. simpl.
      exists est. split; [exact Eest|].
      destruct (calculate_profit_loss _ est); reflexivity.
    + rewrite Ea in Er. injection Er as <-. simpl.
      exists (PricingResult.estimated_value res).
      split; [destruct (PricingResult.estimated_value res); reflexivity|].
      destruct (calculate_profit_loss _ _); reflexivity.
  - intros d resp Ed Hd Er.
    destruct (analyze_listing_cases request w)
      as [[d' [Ed' [_ [Ww [[e Ee]
                          |[est [pd [ev [mt [sc
                             [_ [Epd [Eev [Emt [Esc Ea]]]]]]]]]]]]]]]
         |[T _]];
      try congruence.
    + assert (d' = d) by congruence. subst d'.
      rewrite Ea in Er. injection Er as <-. simpl.
      repeat split; assumption.
    + exfalso. exact (Hit d Ed Hd T).
Qed.
End Pipeline.

(** * Further properties *)

(** ** Value estimator: closed form, order, bounds *)


















(** ** Identifier normaliser: what is kept *)

(** A letter or digit is of the class of identifiers, is no blank and no
    hyphen; a character of the class that is no hyphen is a letter or
    digit: a check of the 256 characters. *)
Lemma alnum_cases (c : ascii) :
  (alnum c = true ->
   slug_class c = true /\ Py.isspace c = false /\ Re.lit hyphen c = false) /\
  (slug_class c = true -> Re.lit hyphen c = false -> alnum c = true).
Proof.
  assert (H : implb (alnum c)
                (slug_class c && negb (Py.isspace c)
                 && negb (Re.lit hyphen c))
              && implb (slug_class c && negb (Re.lit hyphen c)) (alnum c)
              = true)
    by (destruct c as [[] [] [] [] [] [] [] []]; vm_compute; reflexivity).
  apply andb_true_iff in H. destruct H as [H1 H2]. split.
  - intros E. rewrite E in H1. simpl in H1.
    rewrite !andb_true_iff, !negb_true_iff in H1. tauto.
  - intros E1 E2. rewrite E1, E2 in H2. exact H2.
Qed.

Section Kept.
Variable keep : ascii -> bool.

Lemma filter_sub_plus (k : Re.class) (b : bool) (s : list ascii) :
  (forall c, k c = true -> keep c = false) -> keep hyphen = false ->
  List.filter keep (Re.sub_plus_from b k [hyphen] s) = List.filter keep s.
Proof.
  intros Hk Hh. revert b. induction s as [|c s IH]; intros b; simpl.
  - reflexivity.
  - destruct (k c) eqn:E.
    + rewrite (Hk c E). destruct b; simpl; rewrite ?Hh; apply IH.
    + simpl. rewrite IH. reflexivity.
Qed.

Lemma filter_lstrip (k : Re.class) (s : list ascii) :
  (forall c, k c = true -> keep c = false) ->
  List.filter keep (Py.lstrip k s) = List.filter keep s.
Proof.
  intros Hk. induction s as [|c s IH]; simpl; [reflexivity|].
  destruct (k c) eqn:E; [|reflexivity]. rewrite (Hk c E). exact IH.
Qed.

Lemma filter_rstrip (k : Re.class) (s : list ascii) :
  (forall c, k c = true -> keep c = false) ->
  List.filter keep (Py.rstrip k s) = List.filter keep s.
Proof.
  intros Hk. unfold Py.rstrip.
  rewrite List.filter_rev, (filter_lstrip k _ Hk), <- List.filter_rev.
  rewrite rev_involutive. reflexivity.
Qed.

Lemma filter_within (q : ascii -> bool) (s : list ascii) :
  (forall c, keep c = true -> q c = true) ->
  List.filter keep (List.filter q s) = List.filter keep s.
Proof.
  intros H. induction s as [|c s IH]; simpl; [reflexivity|].
  destruct (q c) eqn:E; simpl.
  - rewrite IH. reflexivity.
  - destruct (keep c) eqn:K; [|exact IH]. rewrite (H c K) in E. discriminate.
Qed.
End Kept.

Lemma slugify_steps_letters_digits (s : list ascii) :
  List.filter alnum (slugify_steps s) = List.filter alnum (Py.lower s).
Proof.
  assert (Hh : forall c, Re.lit hyphen c = true -> alnum c = false).
  { intros c E. destruct (alnum c) eqn:A; [|reflexivity].
    apply alnum_cases in A. destruct A as [_ [_ A]]. congruence. }
  assert (Hs : forall c, Re.space c = true -> alnum c = false).
  { intros c E. destruct (alnum c) eqn:A; [|reflexivity].
    apply alnum_cases in A. destruct A as [_ [A _]].
    unfold Re.space in E. congruence. }
  unfold slugify_steps, Py.strip, Re.sub_plus.
  rewrite (filter_rstrip alnum _ _ Hh), (filter_lstrip alnum _ _ Hh).
  rewrite (filter_sub_plus alnum _ _ _ Hh eq_refl).
  rewrite sub_neg_class_filter, filter_within.
  - apply (filter_sub_plus alnum _ _ _ Hs eq_refl).
  - intros c A. apply alnum_cases, A.
Qed.

Lemma slugify_filter_alnum (text : string) :
  List.filter alnum (list_ascii_of_string (slugify (Some text)))
    = letters_digits text.
Proof.
  rewrite slugify_unfold, list_ascii_of_string_of_list_ascii.
  apply slugify_steps_letters_digits.
Qed.

(** X5.  The letters and digits of an identifier are the letters and
    digits of the text in lowercase, in their order, and every other
    character of the identifier is a hyphen: [slugify] removes and joins,
    it never rewrites a letter or a digit. *)
Theorem slugify_letters_digits (text : string) :
  List.filter alnum (list_ascii_of_string (slugify (Some text)))
    = letters_digits text /\
  Forall (fun c => alnum c = true \/ c = hyphen)
         (list_ascii_of_string (slugify (Some text))).
Proof.
  split.
  - apply slugify_filter_alnum.
  - destruct (slugify_shaped (Some text)) as [C _ _ _].
    eapply List.Forall_impl; [|exact C]. intros c Hc.
    destruct (Re.lit hyphen c) eqn:E.
    + right. apply lit_hyphen, E.
    + left. apply alnum_cases; assumption.
Qed.

(** X6.  The identifier of a text is empty exactly when the text has no
    letter and no digit. *)
Theorem slugify_empty (text : string) :
  slugify (Some text) = "" <-> letters_digits text = [].
Proof.
  pose proof (slugify_filter_alnum text) as K. split.
  - intros E. rewrite <- K, E. reflexivity.
  - intros E. rewrite E in K.
    destruct (slugify_shaped (Some text)) as [C Hh _ _].
    rewrite <- (string_of_list_ascii_of_string (slugify (Some text))).
    destruct (list_ascii_of_string (slugify (Some text))) as [|c r];
      [reflexivity|exfalso].
    inversion C as [|? ? Hc _]; subst.
    destruct (Re.lit hyphen c) eqn:L.
    + apply lit_hyphen in L. subst c. exact (Hh r eq_refl).
    + simpl in K. rewrite (proj2 (alnum_cases c) Hc L) in K. discriminate.
Qed.

(** ** Result cache: round trip, failures, deletion *)

Lemma delete_cached_value_unfold (key : string) (w : World) :
  delete_cached_value key w =
    if cache_fails w (cache_commands w) then
      (Return false, count_command (cache w) w)
    else
      (Return true, count_command (delete key (cache w)) w).
Proof.
  unfold delete_cached_value, try_except, bind, client_delete, ret.
  destruct (cache_fails w _); [reflexivity|]. simpl.
  destruct (decide (is_Some (cache w !! key))); reflexivity.
Qed.

(** X7.  A value stored under a key is what a lookup of the key returns,
    when the cache answers both commands; the entries under other keys
    stay as they were. *)
Theorem cache_round_trip (key : string) (value : gmap string value)
    (ttl : Z) (w : World) :
  cache_fails w (cache_commands w) = false ->
  cache_fails w (S (cache_commands w)) = false ->
  result_of (set_cached_value key value ttl) w = Return true /\
  result_of (get_cached_value key)
            (world_after (set_cached_value key value ttl) w)
    = Return (Some value) /\
  (forall k, k <> key ->
     cache (world_after (set_cached_value key value ttl) w) !! k
     = cache w !! k).
Proof.
  intros F0 F1. unfold result_of, world_after.
  rewrite set_cached_value_unfold, F0. simpl fst. simpl snd.
  rewrite get_cached_value_unfold. simpl.
  rewrite F1, lookup_insert_eq. split; [reflexivity|].
  split; [reflexivity|].
  intros k Hk. apply lookup_insert_ne. congruence.
Qed.

(** X8.  No operation of the cache module raises.  When the command
    fails, a lookup returns [None], a store and a deletion return
    [False], and the entries stay as they were. *)
Theorem cache_failures_absorbed (key : string) (value : gmap string value)
    (ttl : Z) (w : World) :
  (exists r, result_of (get_cached_value key) w = Return r) /\
  (exists r, result_of (set_cached_value key value ttl) w = Return r) /\
  (exists r, result_of (delete_cached_value key) w = Return r) /\
  (cache_fails w (cache_commands w) = true ->
   result_of (get_cached_value key) w = Return None /\
   result_of (set_cached_value key value ttl) w = Return false /\
   result_of (delete_cached_value key) w = Return false /\
   cache (world_after (get_cached_value key) w) = cache w /\
   cache (world_after (set_cached_value key value ttl) w) = cache w /\
   cache (world_after (delete_cached_value key) w) = cache w).
Proof.
  unfold result_of, world_after.
  rewrite get_cached_value_unfold, set_cached_value_unfold,
    delete_cached_value_unfold.
  destruct (cache_fails w (cache_commands w)); simpl.
  - repeat split; eexists; reflexivity.
  - repeat split; try (eexists; reflexivity); discriminate.
Qed.

(** X9.  After a deletion that the cache answers, a lookup of the key
    returns [None], whether or not the key was there, and the entries
    under other keys stay as they were. *)
Theorem delete_then_get (key : string) (w : World) :
  cache_fails w (cache_commands w) = false ->
  result_of (delete_cached_value key) w = Return true /\
  result_of (get_cached_value key) (world_after (delete_cached_value key) w)
    = Return None /\
  (forall k, k <> key ->
     cache (world_after (delete_cached_value key) w) !! k = cache w !! k).
Proof.
  intros F0. unfold result_of, world_after.
  rewrite delete_cached_value_unfold, F0. simpl fst. simpl snd.
  rewrite get_cached_value_unfold. simpl.
  rewrite lookup_delete_eq. split; [reflexivity|]. split.
  - destruct (cache_fails w (S (cache_commands w))); reflexivity.
  - intros k Hk. apply lookup_delete_ne. congruence.
Qed.

Lemma delete_keys_lookup (keys : list string)
    (c : gmap string (Z * gmap string value)) (k : string) :
  snd (delete_keys keys c) !! k = if decide (k ∈ keys) then None else c !! k.
Proof.
  revert c. induction keys as [|a r IH]; intros c; simpl.
  - destruct (decide (k ∈ [])) as [H|_]; [|reflexivity].
    apply elem_of_nil in H. destruct H.
  - specialize (IH (delete a c)).
    destruct (delete_keys r (delete a c)) as [n c']. simpl in *.
    rewrite IH. destruct (decide (k ∈ r)) as [Hr|Hr].
    + rewrite decide_True by (right; exact Hr). reflexivity.
    + destruct (decide (k = a)) as [->|Ha].
      * rewrite decide_True by left. apply lookup_delete_eq.
      * rewrite decide_False.
        -- apply lookup_delete_ne. congruence.
        -- intros H. apply elem_of_cons in H. tauto.
Qed.

Lemma delete_keys_count (keys : list string)
    (c : gmap string (Z * gmap string value)) :
  NoDup keys -> (forall k, k ∈ keys -> is_Some (c !! k)) ->
  fst (delete_keys keys c) = length keys.
Proof.
  intros N. revert c. induction N as [|a r Ha _ IH]; intros c H; simpl.
  - reflexivity.
  - specialize (IH (delete a c)).
    destruct (delete_keys r (delete a c)) as [n c']. simpl in *.
    rewrite decide_True by (apply H; left).
    f_equal. apply IH. intros k Hk.
    rewrite lookup_delete_ne.
    + apply H. right. exact Hk.
    + intros ->. contradiction.
Qed.

Section CacheAdminFacts.
Variable glob_match : string -> string -> bool.

Lemma scan_keys (pattern : string) (c : gmap string (Z * gmap string value)) :
  let keys := List.filter (glob_match pattern) (map fst (map_to_list c)) in
  NoDup keys /\
  (forall k, k ∈ keys <-> is_Some (c !! k) /\ glob_match pattern k = true).
Proof.
  intros keys. split.
  - apply NoDup_ListNoDup, List.NoDup_filter, NoDup_ListNoDup,
      NoDup_fst_map_to_list.
  - intros k. subst keys. rewrite list_elem_of_In, List.filter_In.
    rewrite <- list_elem_of_In, list_elem_of_fmap. split.
    + intros [[[k' v] [-> H]] G]. split; [|exact G].
      apply elem_of_map_to_list in H. simpl. rewrite H. eexists.
      reflexivity.
    + intros [[v H] G]. split; [|exact G].
      exists (k, v). split; [reflexivity|].
      apply elem_of_map_to_list, H.
Qed.

(** X10.  [clear_cache_by_pattern] never raises.  When the cache answers,
    it removes the entries whose key matches the pattern and only these,
    and returns their number; when the scan or the deletion fails it
    returns 0 and the entries stay as they were. *)
Theorem clear_cache_by_pattern_spec (pattern : string) (w : World) :
  (exists n,
     result_of (clear_cache_by_pattern glob_match pattern) w = Return n) /\
  (cache_fails w (cache_commands w) = false ->
   cache_fails w (S (cache_commands w)) = false ->
   exists keys,
     NoDup keys /\
     (forall k, k ∈ keys <->
                is_Some (cache w !! k) /\ glob_match pattern k = true) /\
     result_of (clear_cache_by_pattern glob_match pattern) w
       = Return (length keys) /\
     (forall k,
        cache (world_after (clear_cache_by_pattern glob_match pattern) w) !! k
        = if glob_match pattern k then None else cache w !! k)) /\
  (cache_fails w (cache_commands w) = true \/
   cache_fails w (S (cache_commands w)) = true ->
   result_of (clear_cache_by_pattern glob_match pattern) w = Return 0%nat /\
   cache (world_after (clear_cache_by_pattern glob_match pattern) w)
     = cache w).
Proof.
  destruct (scan_keys pattern (cache w)) as [N K].
  set (keys := List.filter _ _) in *.
  assert (U : clear_cache_by_pattern glob_match pattern w =
              if cache_fails w (cache_commands w) then
                (Return 0%nat, count_command (cache w) w)
              else
                match keys with
                | [] => (Return 0%nat, count_command (cache w) w)
                | _ :: _ =>
                    if cache_fails w (S (cache_commands w)) then
                      (Return 0%nat,
                       count_command (cache w) (count_command (cache w) w))
                    else
                      (Return (fst (delete_keys keys (cache w))),
                       count_command (snd (delete_keys keys (cache w)))
                         (count_command (cache w) w))
                end).
  { unfold clear_cache_by_pattern, try_except, bind, client_scan,
      client_delete, ret.
    destruct (cache_fails w (cache_commands w)); [reflexivity|].
    fold keys. destruct keys as [|a r]; [reflexivity|].
    simpl cache_fails. simpl cache_commands.
    destruct (cache_fails w (S (cache_commands w))); [reflexivity|].
    simpl cache.
    destruct (delete_keys (a :: r) (cache w)); reflexivity. }
  unfold result_of, world_after. rewrite U. clear U.
  split; [|split].
  - destruct (cache_fails w (cache_commands w)); [eexists; reflexivity|].
    destruct keys; [eexists; reflexivity|].
    destruct (cache_fails w (S (cache_commands w))); eexists; reflexivity.
  - intros -> F1. exists keys. split; [exact N|]. split; [exact K|].
    destruct keys as [|a r] eqn:E.
    + split; [reflexivity|]. intros k. simpl.
      destruct (glob_match pattern k) eqn:G; [|reflexivity].
      destruct (cache w !! k) eqn:L; [|reflexivity].
      exfalso. apply (elem_of_nil k), K. rewrite L. split; [eexists; reflexivity|exact G].
    + rewrite F1. rewrite <- E in N, K |- *. cbn [fst snd]. split.
      * f_equal. apply delete_keys_count; [exact N|].
        intros k Hk. apply K, Hk.
      * intros k. cbn [cache count_command]. rewrite delete_keys_lookup.
        destruct (decide (k ∈ keys)) as [H|H].
        -- apply K in H. destruct H as [_ ->]. reflexivity.
        -- destruct (glob_match pattern k) eqn:G; [|reflexivity].
           destruct (cache w !! k) eqn:L; [|reflexivity].
           exfalso. apply H, K. rewrite L. split; [eexists; reflexivity|exact G].
  - intros F.
    destruct (cache_fails w (cache_commands w)); [split; reflexivity|].
    destruct F as [F|F]; [discriminate|].
    destruct keys as [|a r]; [split; reflexivity|].
    rewrite F. split; reflexivity.
Qed.
End CacheAdminFacts.

(** ** Request pipeline: misses, hits and failures *)

Section PipelineMore.
Variable similarity : string -> string -> Q.
Variable md5_hexdigest : string -> string.

Local Abbreviation key_of title :=
  (generate_cache_key md5_hexdigest "analysis" title).

(** The orchestrator only adds to the statements sent to the store. *)
Lemma get_estimated_value_frame p b v year grade grader w :
  exists sent,
    world_after (get_estimated_value similarity p b v year grade grader) w =
      mkWorld (table w) (statements w ++ sent)%list (store_fails w)
              (cache w) (cache_commands w) (cache_fails w) (parser w).
Proof.
  destruct (tier1_returns similarity p b v grade grader default_limit w)
    as [sales1 E1].
  destruct (tier2_returns similarity p b year default_limit
              (world_after
                 (query_tier1_exact_match similarity p b v grade grader
                    default_limit) w)) as [sales2 E2].
  unfold world_after at 1.
  rewrite (get_estimated_value_unfold _ _ _ _ _ _ _ _ _ _ E1 E2).
  assert (W1 : world_after
                 (query_tier1_exact_match similarity p b v grade grader
                    default_limit) w
               = log_statement (tier1_statement p b v grade grader default_limit) w)
    by (unfold world_after; rewrite tier1_unfold; reflexivity).
  destruct sales1 as [|x1 l1]; [|exists [tier1_statement p b v grade grader
                                           default_limit];
                                  simpl; rewrite W1; reflexivity].
  exists [tier1_statement p b v grade grader default_limit;
          tier2_statement p b year default_limit].
  assert (W2 : world_after (query_tier2_fuzzy_match similarity p b year
                              default_limit)
                 (world_after
                    (query_tier1_exact_match similarity p b v grade grader
                       default_limit) w)
               = log_statement (tier2_statement p b year default_limit)
                   (log_statement
                      (tier1_statement p b v grade grader default_limit) w)).
  { rewrite W1. unfold world_after. rewrite tier2_unfold. reflexivity. }
  destruct sales2; simpl; rewrite W2; unfold log_statement; simpl;
    rewrite <- List.app_assoc; reflexivity.
Qed.

(** A hit on a dictionary with the four names and a number or [None] as
    estimated value is answered from the dictionary. *)
Lemma analyze_listing_hit (request : AnalyzeRequest.t) (w : World)
    (d : gmap string value) (pd ev mt sc : value) (est : option Q) :
  result_of (get_cached_value (key_of (AnalyzeRequest.title request))) w
    = Return (Some d) ->
  d !! "parsed_data" = Some pd ->
  d !! "estimated_value" = Some ev ->
  d !! "match_tier" = Some mt ->
  d !! "sales_count" = Some sc ->
  optional_float_of ev = Some est ->
  analyze_listing similarity md5_hexdigest request w =
    (Return (AnalyzeResponse.mk pd ev
               (fst (calculate_profit_loss
                       (AnalyzeRequest.listing_price request) est))
               (snd (calculate_profit_loss
                       (AnalyzeRequest.listing_price request) est))
               mt sc true),
     world_after (get_cached_value (key_of (AnalyzeRequest.title request))) w).
Proof.
  intros G Epd Eev Emt Esc Eest.
  unfold analyze_listing, try_except at 1, bind at 1.
  unfold result_of in G. unfold world_after.
  destruct (get_cached_value _ w) as [r0 w0]. simpl in G. subst r0.
  assert (Hd : d <> ∅).
  { intros ->. rewrite lookup_empty in Epd. discriminate. }
  unfold truthy_dict. destruct (decide (d = ∅)) as [|_]; [contradiction|].
  unfold dict_get, as_optional_float, dict_getitem, bind, ret.
  cbn beta iota. rewrite Eev. simpl. rewrite Eest, Epd, Emt, Esc.
  destruct (calculate_profit_loss _ est). reflexivity.
Qed.

Lemma optional_float_of_optional_float (x : option Q) :
  optional_float_of (optional_float x) = Some x.
Proof. destruct x; reflexivity. Qed.

Lemma cache_data_of_lookups (parsed : ParsedCardData.t)
    (res : PricingResult.t) :
  cache_data_of parsed res !! "parsed_data" = Some (VModel parsed) /\
  cache_data_of parsed res !! "estimated_value"
    = Some (optional_float (PricingResult.estimated_value res)) /\
  cache_data_of parsed res !! "match_tier"
    = Some (VStr (PricingResult.match_tier res)) /\
  cache_data_of parsed res !! "sales_count"
    = Some (VInt (Z.of_nat (PricingResult.sales_count res))).
Proof.
  unfold cache_data_of. split; [apply lookup_insert_eq|].
  split; [rewrite lookup_insert_ne by discriminate; apply lookup_insert_eq|].
  split; [rewrite !lookup_insert_ne by discriminate; apply lookup_insert_eq|].
  rewrite !lookup_insert_ne by discriminate. apply lookup_singleton_eq.
Qed.

(** X11.  A request whose lookup finds nothing, because the title is not
    cached or because the cache does not answer, is answered from the
    parser and the store: with the valuation of the parsed title and the
    flag [cached] off when the parser answers, and otherwise with HTTP
    400 for a [ValueError] of the parser and HTTP 500 for any other
    error, the cache and the store being left alone. *)
Theorem analyze_listing_miss (request : AnalyzeRequest.t) (w : World) :
  let title := AnalyzeRequest.title request in
  let price := AnalyzeRequest.listing_price request in
  let a := analyze_listing similarity md5_hexdigest request in
  let w0 := world_after (get_cached_value (key_of title)) w in
  result_of (get_cached_value (key_of title)) w = Return None ->
  match parser w title with
  | Return parsed =>
      exists res,
        result_of (valuation_of similarity parsed) w0 = Return res /\
        result_of a w =
          Return (AnalyzeResponse.mk
                    (VModel parsed)
                    (optional_float (PricingResult.estimated_value res))
                    (fst (calculate_profit_loss price
                            (PricingResult.estimated_value res)))
                    (snd (calculate_profit_loss price
                            (PricingResult.estimated_value res)))
                    (VStr (PricingResult.match_tier res))
                    (VInt (Z.of_nat (PricingResult.sales_count res)))
                    false)
  | Raise e =>
      result_of a w =
        Raise (HTTPException (if is_ValueError e then 400 else 500) e) /\
      cache (world_after a w) = cache w /\
      statements (world_after a w) = statements w
  end.
Proof.
  intros title price a w0 G. subst title price a w0.
  destruct (analyze_listing_cases similarity md5_hexdigest request w)
    as [[d [Ed _]]|[_ [[e [Ep [Er Ew]]]|[parsed [res [Ep [Ev [Er _]]]]]]]].
  - rewrite G in Ed. discriminate.
  - rewrite Ep. split.
    + rewrite Er. unfold http_error. destruct (is_ValueError e); reflexivity.
    + rewrite Ew. unfold world_after. rewrite get_cached_value_unfold.
      split; reflexivity.
  - rewrite Ep. exists res. split; [exact Ev|exact Er].
Qed.

(** X12.  After a request that was not answered from the cache, a request
    for the same title at any asking price is answered from the cache,
    when the cache answers the store of the first and the lookup of the
    second: it repeats the parsed data, the estimated value, the match
    tier and the sales count of the first response, carries the verdict
    for its own asking price, and sends nothing to the store. *)
Theorem analyze_listing_miss_then_hit (request : AnalyzeRequest.t)
    (listing_price' : Q) (w : World) (resp : AnalyzeResponse.t) :
  let a := analyze_listing similarity md5_hexdigest request in
  let a' := analyze_listing similarity md5_hexdigest
              (AnalyzeRequest.mk (AnalyzeRequest.title request)
                 listing_price') in
  result_of a w = Return resp ->
  AnalyzeResponse.cached resp = false ->
  cache_fails w (S (cache_commands w)) = false ->
  cache_fails w (S (S (cache_commands w))) = false ->
  exists resp' est,
    result_of a' (world_after a w) = Return resp' /\
    AnalyzeResponse.cached resp' = true /\
    AnalyzeResponse.parsed_data resp' = AnalyzeResponse.parsed_data resp /\
    AnalyzeResponse.estimated_value resp'
      = AnalyzeResponse.estimated_value resp /\
    AnalyzeResponse.match_tier resp' = AnalyzeResponse.match_tier resp /\
    AnalyzeResponse.sales_count resp' = AnalyzeResponse.sales_count resp /\
    optional_float_of (AnalyzeResponse.estimated_value resp) = Some est /\
    (AnalyzeResponse.profit_loss resp', AnalyzeResponse.verdict resp')
      = calculate_profit_loss listing_price' est /\
    statements (world_after a' (world_after a w))
      = statements (world_after a w) /\
    cache (world_after a' (world_after a w)) = cache (world_after a w).
Proof.
  intros a a' Er Hc F1 F2. subst a a'.
  destruct (analyze_listing_cases similarity md5_hexdigest request w)
    as [[d [_ [_ [_ [[e Ee]|[est [pd [ev [mt [sc [_ [_ [_ [_ [_ Ea]]]]]]]]]]]]]]]
       |[_ [[e [_ [Ee _]]]|[parsed [res [_ [Ev [Ea Ew]]]]]]]]; try congruence.
  { rewrite Ea in Er. injection Er as <-. discriminate. }
  rewrite Ea in Er. injection Er as <-. clear Hc Ea.
  (* the world the first request leaves *)
  set (key := key_of (AnalyzeRequest.title request)) in *.
  set (w0 := world_after (get_cached_value key) w) in *.
  destruct (get_estimated_value_frame
              (slugify (Some (ParsedCardData.player_name parsed)))
              (slugify (Some (ParsedCardData.brand parsed)))
              (slugify (Some (default "Base"
                 (truthy_str (ParsedCardData.variation parsed)))))
              (ParsedCardData.year parsed) (ParsedCardData.grade parsed)
              (ParsedCardData.grading_company parsed) w0) as [sent Ws].
  fold (valuation_of similarity parsed) in Ws.
  assert (W0 : w0 = count_command (cache w) w).
  { subst w0. unfold world_after. rewrite get_cached_value_unfold.
    reflexivity. }
  set (w1 := world_after (valuation_of similarity parsed) w0) in *.
  assert (Ew' : world_after (analyze_listing similarity md5_hexdigest request) w
                = count_command
                    (<[key := (REDIS_DEFAULT_TTL, cache_data_of parsed res)]>
                       (cache w)) w1).
  { rewrite Ew. unfold world_after at 1. rewrite set_cached_value_unfold.
    rewrite Ws, W0. simpl. rewrite F1. reflexivity. }
  set (w' := world_after (analyze_listing similarity md5_hexdigest request) w)
    in *.
  assert (G : result_of (get_cached_value key) w'
              = Return (Some (cache_data_of parsed res))).
  { unfold result_of. rewrite get_cached_value_unfold, Ew', Ws, W0. simpl.
    rewrite F2, lookup_insert_eq. reflexivity. }
  destruct (cache_data_of_lookups parsed res) as [L1 [L2 [L3 L4]]].
  pose proof (analyze_listing_hit
                (AnalyzeRequest.mk (AnalyzeRequest.title request) listing_price')
                w' _ _ _ _ _ _ G L1 L2 L3 L4
                (optional_float_of_optional_float _)) as H.
  simpl AnalyzeRequest.title in H. simpl AnalyzeRequest.listing_price in H.
  fold key in H.
  eexists. exists (PricingResult.estimated_value res).
  unfold result_of, world_after. rewrite H. cbn [fst snd].
  cbn [AnalyzeResponse.cached AnalyzeResponse.parsed_data
       AnalyzeResponse.estimated_value AnalyzeResponse.match_tier
       AnalyzeResponse.sales_count AnalyzeResponse.profit_loss
       AnalyzeResponse.verdict].
  split; [reflexivity|]. repeat split.
  - apply optional_float_of_optional_float.
  - destruct (calculate_profit_loss listing_price' _); reflexivity.
  - unfold world_after. rewrite get_cached_value_unfold. reflexivity.
  - unfold world_after. rewrite get_cached_value_unfold. reflexivity.
Qed.
End PipelineMore.

(** ** Validation of a request *)

Lemma strip_head (k : Re.class) (s r : list ascii) (c : ascii) :
  Py.strip k s = c :: r -> k c = false.
Proof.
  unfold Py.strip. intros E.
  destruct (rstrip_split k (Py.lstrip k s)) as [suf Es].
  rewrite E in Es. simpl in Es. exact (lstrip_head _ _ _ _ Es).
Qed.

Lemma strip_fixed (k : Re.class) (s : list ascii) :
  Py.strip k (Py.strip k s) = Py.strip k s.
Proof.
  unfold Py.strip at 1. rewrite lstrip_fixed.
  - apply rstrip_fixed. intros c l E. exact (rstrip_last _ _ _ _ E).
  - intros c r E. exact (strip_head _ _ _ _ E).
Qed.

Lemma strip_length (k : Re.class) (s : list ascii) :
  (length (Py.strip k s) <= length s)%nat.
Proof.
  unfold Py.strip.
  destruct (lstrip_split k s) as [pre E1].
  destruct (rstrip_split k (Py.lstrip k s)) as [suf E2].
  rewrite E1 at 2. rewrite E2 at 2. rewrite !length_app. lia.
Qed.

Lemma string_length_chars (s : string) :
  String.length s = length (list_ascii_of_string s).
Proof. induction s as [|c s IH]; simpl; congruence. Qed.

Lemma lstrip_empty (k : Re.class) (l : list ascii) :
  Py.lstrip k l = [] -> Forall (fun c => k c = true) l.
Proof.
  induction l as [|c l IH]; simpl; [constructor|].
  destruct (k c) eqn:Hc; [|discriminate].
  intros E. constructor; [exact Hc|exact (IH E)].
Qed.

Lemma lstrip_all (k : Re.class) (l : list ascii) :
  Forall (fun c => k c = true) l -> Py.lstrip k l = [].
Proof.
  induction 1 as [|c l Hc _ IH]; simpl; [reflexivity|].
  rewrite Hc. exact IH.
Qed.

Lemma strip_all (k : Re.class) (l : list ascii) :
  Forall (fun c => k c = true) l -> Py.strip k l = [].
Proof.
  intros H. unfold Py.strip. rewrite (lstrip_all k l H). reflexivity.
Qed.

Lemma strip_empty (k : Re.class) (l : list ascii) :
  Py.strip k l = [] -> Forall (fun c => k c = true) l.
Proof.
  unfold Py.strip, Py.rstrip. intros E.
  apply (f_equal (@rev ascii)) in E. rewrite rev_involutive in E.
  simpl in E. apply lstrip_empty in E.
  destruct (Py.lstrip k l) as [|c r] eqn:El; [exact (lstrip_empty k l El)|].
  exfalso. pose proof (lstrip_head k l r c El) as Hc.
  apply List.Forall_rev in E. rewrite rev_involutive in E.
  inversion E; congruence.
Qed.

(** X13.  The limits of 1 and 500 characters apply to the title as it
    is sent, before the whitespace around it is taken off: a title of no
    character or of more than 500 characters is refused, whatever is left
    of it without the whitespace.  So is a title of whitespace only, and a
    price that is not above 0.  Every other request is accepted: its title
    is the title as sent less the whitespace around it, has no whitespace
    at either end and 1 to 500 characters, its price is the price as
    sent, and its fields are accepted again, unchanged.  A refusal is a
    [ValueError]. *)
Theorem validate_AnalyzeRequest_spec (title : string) (listing_price : Q) :
  match validate_AnalyzeRequest title listing_price with
  | Return request =>
      let t := list_ascii_of_string (AnalyzeRequest.title request) in
      (1 <= String.length title <= 500)%nat /\
      t = Py.strip Py.isspace (list_ascii_of_string title) /\
      (forall c r, t = c :: r -> Py.isspace c = false) /\
      (forall l c, t = (l ++ [c])%list -> Py.isspace c = false) /\
      (1 <= length t <= 500)%nat /\
      AnalyzeRequest.listing_price request = listing_price /\
      0 < listing_price /\
      validate_AnalyzeRequest (AnalyzeRequest.title request)
                              (AnalyzeRequest.listing_price request)
        = Return request
  | Raise e =>
      e = ValueError /\
      ((String.length title < 1)%nat \/ (500 < String.length title)%nat \/
       Forall (fun c => Py.isspace c = true) (list_ascii_of_string title) \/
       listing_price <= 0)
  end /\
  ((String.length title < 1)%nat \/ (500 < String.length title)%nat ->
   validate_AnalyzeRequest title listing_price = Raise ValueError) /\
  (Forall (fun c => Py.isspace c = true) (list_ascii_of_string title) ->
   validate_AnalyzeRequest title listing_price = Raise ValueError) /\
  (listing_price <= 0 ->
   validate_AnalyzeRequest title listing_price = Raise ValueError).
Proof.
  unfold validate_AnalyzeRequest, validate_title.
  split; [|split; [|split]].
  - destruct (_ || _) eqn:B.
    { split; [reflexivity|]. apply orb_true_iff in B.
      destruct B as [B|B]; apply Nat.ltb_lt in B; tauto. }
    apply orb_false_iff in B. destruct B as [B1 B2].
    apply Nat.ltb_ge in B1, B2.
    assert (Raw : (1 <= String.length title <= 500)%nat) by lia.
    rewrite string_length_chars in B1, B2.
    set (s := Py.strip Py.isspace (list_ascii_of_string title)).
    assert (Ls : (length s <= length (list_ascii_of_string title))%nat)
      by apply strip_length.
    destruct s as [|c r] eqn:Es.
    { split; [reflexivity|]. right. right. left.
      exact (strip_empty _ _ Es). }
    destruct (Py.ltb 0 listing_price) eqn:P.
    2:{ split; [reflexivity|]. right. right. right.
        apply ltb_ascending. unfold ascending. exact P. }
    cbn [AnalyzeRequest.title AnalyzeRequest.listing_price].
    rewrite list_ascii_of_string_of_list_ascii.
    split; [exact Raw|].
    split; [reflexivity|].
    split; [intros c' r' E; apply (strip_head Py.isspace
                                     (list_ascii_of_string title) r');
            fold s; rewrite Es; exact E|].
    split.
    { intros l c' E. unfold s, Py.strip in Es. rewrite E in Es.
      exact (rstrip_last _ _ _ _ Es). }
    split; [simpl in *; lia|]. split; [reflexivity|].
    split; [apply ltb_lt, P|].
    rewrite string_length_chars, list_ascii_of_string_of_list_ascii.
    replace ((length (c :: r) <? 1)%nat || (500 <? length (c :: r))%nat)
      with false.
    2:{ symmetry. apply orb_false_iff. split; apply Nat.ltb_ge;
          simpl in *; lia. }
    rewrite <- Es. unfold s. rewrite strip_fixed. fold s. rewrite Es, P.
    reflexivity.
  - intros H.
    replace ((String.length title <? 1)%nat || (500 <? String.length title)%nat)
      with true; [reflexivity|].
    symmetry. apply orb_true_iff.
    destruct H as [H|H]; [left|right]; apply Nat.ltb_lt; exact H.
  - intros H. destruct (_ || _); [reflexivity|].
    rewrite (strip_all _ _ H). reflexivity.
  - intros H. destruct (_ || _); [reflexivity|].
    destruct (Py.strip Py.isspace (list_ascii_of_string title));
      [reflexivity|].
    replace (Py.ltb 0 listing_price) with false; [reflexivity|].
    symmetry. apply ltb_ascending, H.
Qed.

(** ** The retries of the title parser *)

Section RetryFacts.
Variable parse_listing_title : nat -> string -> outcome ParsedCardData.t.

Lemma attempts_all_fail (title : string) (n k : nat) (last : option exn) :
  (forall i, (k <= i < k + n)%nat ->
             exists e, parse_listing_title i title = Raise e) ->
  OpenAI.attempts parse_listing_title title n k last =
    (match n with
     | O => match last with Some e => Raise e | None => Raise TypeError end
     | S m =>
         match parse_listing_title (k + m) title with
         | Raise e => Raise e
         | Return _ => Raise TypeError
         end
     end, (k + n)%nat).
Proof.
  revert k last. induction n as [|n IH]; intros k last H.
  - simpl. rewrite Nat.add_0_r. reflexivity.
  - simpl. destruct (H k) as [e E]; [lia|]. rewrite E.
    rewrite IH by (intros i Hi; apply H; lia).
    destruct n as [|m].
    + cbn beta iota. rewrite (Nat.add_0_r k), E. f_equal. lia.
    + cbn beta iota. replace (S k + m)%nat with (k + S m)%nat by lia.
      f_equal. lia.
Qed.

Lemma attempts_first_success (title : string) (n k i : nat)
    (last : option exn) (data : ParsedCardData.t) :
  (i < n)%nat ->
  (forall j, (k <= j < k + i)%nat ->
             exists e, parse_listing_title j title = Raise e) ->
  parse_listing_title (k + i) title = Return data ->
  OpenAI.attempts parse_listing_title title n k last
    = (Return data, S (k + i)).
Proof.
  revert n k last. induction i as [|i IH]; intros n k last Hn Hf Hs.
  - destruct n as [|n]; [lia|]. simpl. rewrite Nat.add_0_r in Hs.
    rewrite Hs, Nat.add_0_r. reflexivity.
  - destruct n as [|n]; [lia|]. simpl.
    destruct (Hf k) as [e E]; [lia|]. rewrite E.
    rewrite (IH n (S k) (Some e)).
    + f_equal. lia.
    + lia.
    + intros j Hj. apply Hf. lia.
    + replace (S k + i)%nat with (k + S i)%nat by lia. exact Hs.
Qed.

(** X14.  The parser is called until it answers, at most
    [max_retries + 1] times: the answer of the first call that succeeds
    is returned at once; when all these calls fail, the error of the last
    one is raised; and with a negative [max_retries] no call is made and
    the function ends in a [TypeError]. *)
Theorem parse_listing_title_with_retry_spec (title : string)
    (max_retries : Z) :
  (forall i data,
     (Z.of_nat i <= max_retries)%Z ->
     (forall j, (j < i)%nat ->
                exists e, parse_listing_title j title = Raise e) ->
     parse_listing_title i title = Return data ->
     OpenAI.parse_listing_title_with_retry parse_listing_title title
       max_retries = (Return data, S i)) /\
  (forall e,
     (0 <= max_retries)%Z ->
     (forall j, (Z.of_nat j < max_retries)%Z ->
                exists e', parse_listing_title j title = Raise e') ->
     parse_listing_title (Z.to_nat max_retries) title = Raise e ->
     OpenAI.parse_listing_title_with_retry parse_listing_title title
       max_retries = (Raise e, Z.to_nat (max_retries + 1))) /\
  ((max_retries < 0)%Z ->
   OpenAI.parse_listing_title_with_retry parse_listing_title title
     max_retries = (Raise TypeError, 0%nat)).
Proof.
  unfold OpenAI.parse_listing_title_with_retry. split; [|split].
  - intros i data Hi Hf Hs.
    apply (attempts_first_success title _ 0 i None data).
    + lia.
    + intros j Hj. apply Hf. lia.
    + exact Hs.
  - intros e H0 Hf He.
    rewrite attempts_all_fail.
    + replace (Z.to_nat (max_retries + 1)) with (S (Z.to_nat max_retries))
        by lia.
      simpl. rewrite He. reflexivity.
    + intros i Hi. destruct (Z.eq_dec (Z.of_nat i) max_retries) as [D|D].
      * exists e. rewrite <- He. f_equal. lia.
      * apply Hf. lia.
  - intros H. replace (Z.to_nat (max_retries + 1)) with 0%nat by lia.
    reflexivity.
Qed.
End RetryFacts.

(** ** Bulk analysis *)

Lemma bindL_liftL {A B} (m : M A) (k : A -> L B) (l : locals) (w : World) :
  (x <~ liftL m ;; k x) l w =
    match m w with
    | (Return a, w') => k a l w'
    | (Raise e, w') => (Raise e, l, w')
    end.
Proof. unfold bindL, liftL. destruct (m w) as [[a|e] w']; reflexivity. Qed.

Lemma bindL_increment {B} (k : unit -> L B) (l : locals) (w : World) :
  (x <~ increment ;; k x) l w =
    k tt (mkLocals (analysis_steps l) (step_counter l + 1)) w.
Proof. reflexivity. Qed.

Lemma bindL_steps_so_far {B} (k : list AnalysisStep.t -> L B) (l : locals)
    (w : World) :
  (x <~ steps_so_far ;; k x) l w = k (analysis_steps l) l w.
Proof. reflexivity. Qed.

Lemma bindL_append_step {B} (now : nat -> string)
    (name status details : string) (data : option step_data)
    (k : unit -> L B) (l : locals) (w : World) :
  (x <~ append_step now name status details data ;; k x) l w =
    k tt (mkLocals
            (analysis_steps l
             ++ [AnalysisStep.mk (step_counter l) name status details data
                   (now (length (analysis_steps l)))])%list
            (step_counter l)) w.
Proof. reflexivity. Qed.

Lemma pricing_of_no_estimate (sales : list SalesHistory.t) (tier : string) :
  PricingResult.estimated_value (pricing_of sales tier) = None <->
  PricingResult.sales_count (pricing_of sales tier) = 0%nat.
Proof.
  unfold pricing_of. cbn [PricingResult.estimated_value
                          PricingResult.sales_count].
  destruct sales as [|s r]; [tauto|]. split; [|discriminate].
  intros E. apply calculate_sanity_average_none in E. discriminate.
Qed.

Section BulkFacts.
Variable similarity : string -> string -> Q.
Variable md5_hexdigest : string -> string.
Variable now : nat -> string.
Variable str_float : Q -> string.
Variable str_title : string -> string.
Variable str_exn : exn -> string.

Local Abbreviation single :=
  (analyze_single_listing similarity md5_hexdigest now str_float str_title
     str_exn).

Local Ltac item_fields :=
  cbn [BulkAnalyzeResultItem.success BulkAnalyzeResultItem.data
       BulkAnalyzeResultItem.error BulkAnalyzeResultItem.index
       BulkAnalyzeResultItem.title BulkAnalyzeResultItem.listing_price
       BulkAnalyzeResultItem.analysis_steps].

(** The run of [analyze_single_listing] beside the run of
    [analyze_listing] in the same world. *)
Lemma analyze_single_listing_run (index : Z) (title : string)
    (listing_price : Q) (w : World) :
  let a := analyze_listing similarity md5_hexdigest
             (AnalyzeRequest.mk title listing_price) in
  exists item,
    single index title listing_price w = (Return item, world_after a w) /\
    (BulkAnalyzeResultItem.index item = index /\
     BulkAnalyzeResultItem.title item = title /\
     BulkAnalyzeResultItem.listing_price item = listing_price) /\
    match result_of a w with
    | Return response =>
        BulkAnalyzeResultItem.success item = true /\
        BulkAnalyzeResultItem.data item = Some (item_data_of response) /\
        BulkAnalyzeResultItem.error item = None /\
        if AnalyzeResponse.cached response then
          step_names item = ["Cache Check"; "Pricing Calculation"] /\
          step_numbers item = [1; 2]%Z /\
          step_statuses item = ["success"; "success"]
        else
          step_names item =
            ["Cache Check"; "LLM Parsing"; "ID Normalization";
             "Database Matching"; "Pricing Calculation"] /\
          step_numbers item = [1; 2; 3; 4; 5]%Z /\
          exists s,
            step_statuses item = ["success"; "success"; "success"; s; s] /\
            s = (if is_VNone (AnalyzeResponse.estimated_value response)
                 then "warning" else "success")
    | Raise e =>
        BulkAnalyzeResultItem.success item = false /\
        BulkAnalyzeResultItem.data item = None /\
        (exists status_code cause,
           e = HTTPException status_code cause /\
           BulkAnalyzeResultItem.error item = Some (str_exn cause)) /\
        ((step_names item = ["Cache Check"; "Error"] /\
          step_numbers item = [1; 2]%Z /\
          step_statuses item = ["success"; "error"]) \/
         (step_names item = ["Cache Check"; "Pricing Calculation"; "Error"] /\
          step_numbers item = [1; 2; 2]%Z /\
          step_statuses item = ["success"; "success"; "error"]))
    end /\
    step_timestamps item
      = map now (seq 0 (length (BulkAnalyzeResultItem.analysis_steps item))).
Proof.
  intros a. subst a.
  unfold result_of, world_after.
  destruct (analyze_listing similarity md5_hexdigest
              (AnalyzeRequest.mk title listing_price) w) as [ra wa] eqn:Ea.
  cbn [fst snd].
  unfold analyze_listing in Ea. unfold analyze_single_listing.
  cbn [AnalyzeRequest.title AnalyzeRequest.listing_price] in Ea.
  set (key := generate_cache_key md5_hexdigest "analysis" title) in *.
  unfold try_exceptL. unfold try_except in Ea.
  unfold bind at 1 in Ea. rewrite bindL_liftL.
  rewrite get_cached_value_unfold in *.
  set (w0 := count_command (cache w) w) in *.
  set (r0 := if cache_fails w (cache_commands w) then None else _) in *.
  destruct (truthy_dict r0) as [d|] eqn:T.
  - cbv beta iota zeta delta
      [bindL bind liftL retL ret raise append_step increment steps_so_far
       as_optional_float dict_getitem analysis_steps step_counter] in Ea |- *.
    destruct (optional_float_of (dict_get d "estimated_value")) as [est|].
    + destruct (calculate_profit_loss listing_price est) as [pl vd].
      destruct (d !! "parsed_data") as [pd|];
      [destruct (d !! "estimated_value") as [ev|];
       [destruct (d !! "match_tier") as [mt|];
        [destruct (d !! "sales_count") as [sc|]|]|]|];
      cbn in Ea; injection Ea as <- <-;
      (eexists; split; [reflexivity|]); item_fields;
      (split; [repeat split|]); (split; [|reflexivity]);
      cbn [AnalyzeResponse.cached];
      repeat (split; [reflexivity|]);
      try (split; reflexivity);
      (split; [eexists _, _; split; reflexivity|]);
      right; repeat split.
    + cbn in Ea; injection Ea as <- <-.
      eexists; split; [reflexivity|]. item_fields.
      split; [repeat split|]. split; [|reflexivity].
      repeat (split; [reflexivity|]).
      split; [eexists _, _; split; reflexivity|].
      left. repeat split.
  - rewrite bindL_append_step, bindL_increment, bindL_liftL.
    cbn [analysis_steps step_counter].
    unfold parse_listing_title_with_retry in *. unfold bind at 1 in Ea.
    change (parser w0) with (parser w) in *.
    destruct (parser w title) as [parsed|e] eqn:Ep.
    + rewrite bindL_append_step, bindL_increment.
      rewrite bindL_append_step, bindL_increment.
      rewrite bindL_liftL.
      cbn [analysis_steps step_counter].
      unfold bind at 1 in Ea.
      destruct (get_estimated_value_returns similarity
                  (slugify (Some (ParsedCardData.player_name parsed)))
                  (slugify (Some (ParsedCardData.brand parsed)))
                  (slugify (Some (default "Base"
                     (truthy_str (ParsedCardData.variation parsed)))))
                  (ParsedCardData.year parsed)
                  (ParsedCardData.grade parsed)
                  (ParsedCardData.grading_company parsed) w0)
        as [sales [tier [Eg _]]].
      unfold result_of in Eg.
      destruct (get_estimated_value _ _ _ _ _ _ _ w0) as [rg w1].
      cbn [fst] in Eg. subst rg.
      pose proof (pricing_of_no_estimate sales tier) as N.
      set (res := pricing_of sales tier) in *. clearbody res.
      unfold bind at 1 in Ea.
      assert (S : exists ok w2,
                 set_cached_value key
                   {[ "parsed_data" := VModel parsed;
                      "estimated_value" :=
                        optional_float (PricingResult.estimated_value res);
                      "match_tier" := VStr (PricingResult.match_tier res);
                      "sales_count" :=
                        VInt (Z.of_nat (PricingResult.sales_count res)) ]}
                   REDIS_DEFAULT_TTL w1 = (Return ok, w2)).
      { rewrite set_cached_value_unfold.
        destruct (cache_fails w1 _); eexists _, _; reflexivity. }
      destruct S as [ok [w2 S]].
      assert (B : forall (b : bool) (x y : L unit) B (k : unit -> L B) l w',
                 (u <~ (if b then x else y) ;; k u) l w'
                 = if b then (u <~ x ;; k u) l w' else (u <~ y ;; k u) l w').
      { intros [] ? ? ? ? ? ?; reflexivity. }
      rewrite S in Ea.
      destruct (calculate_profit_loss listing_price
                  (PricingResult.estimated_value res)) as [pl vd] eqn:Ec.
      unfold ret in Ea. injection Ea as <- <-.
      rewrite B.
      destruct (0 <? PricingResult.sales_count res)%nat eqn:P;
        rewrite bindL_append_step, bindL_increment, bindL_liftL, S;
        cbv beta iota; rewrite B;
        cbn [analysis_steps step_counter].
      * assert (V : is_VNone (optional_float
                                (PricingResult.estimated_value res)) = false).
        { destruct (PricingResult.estimated_value res); [reflexivity|].
          apply Nat.ltb_lt in P. destruct N as [N _]. specialize (N eq_refl).
          lia. }
        destruct (3 <=? PricingResult.sales_count res)%nat;
          rewrite bindL_append_step, bindL_steps_so_far;
          cbn [analysis_steps step_counter retL];
          (eexists; split; [reflexivity|]); item_fields;
          (split; [repeat split|]); (split; [|reflexivity]);
          cbn [AnalyzeResponse.cached AnalyzeResponse.estimated_value];
          repeat (split; [reflexivity|]);
          exists "success"; rewrite V; split; reflexivity.
      * assert (V : is_VNone (optional_float
                                (PricingResult.estimated_value res)) = true).
        { apply Nat.ltb_ge in P. destruct N as [_ N].
          rewrite N by lia. reflexivity. }
        assert (P3 : (3 <=? PricingResult.sales_count res)%nat = false).
        { apply Nat.ltb_ge in P. apply Nat.leb_gt. lia. }
        rewrite P3.
        rewrite bindL_append_step, bindL_steps_so_far;
          cbn [analysis_steps step_counter retL];
          (eexists; split; [reflexivity|]); item_fields;
          (split; [repeat split|]); (split; [|reflexivity]);
          cbn [AnalyzeResponse.cached AnalyzeResponse.estimated_value];
          repeat (split; [reflexivity|]);
          exists "warning"; rewrite V; split; reflexivity.
    + cbn in Ea. rewrite bindL_append_step, bindL_steps_so_far.
      cbn [analysis_steps step_counter retL].
      unfold raise in Ea.
      destruct (is_ValueError e); injection Ea as <- <-;
        (eexists; split; [reflexivity|]); item_fields;
        (split; [repeat split|]); (split; [|reflexivity]);
        repeat (split; [reflexivity|]);
        (split; [eexists _, _; split; reflexivity|]);
        left; repeat split.
Qed.

Lemma item_data_of_lookups (response : AnalyzeResponse.t) :
  item_data_of response !! "cached"
    = Some (Flag (AnalyzeResponse.cached response)) /\
  item_data_of response !! "estimated_value"
    = Some (Plain (AnalyzeResponse.estimated_value response)).
Proof. split; reflexivity. Qed.

(** X15.  The bulk path gives a listing the analysis that the single
    endpoint gives it, in a world whose cached entry for the title, if
    any, holds values of the types the response model declares: the same
    effects on the cache and the store; on success the fields of the
    response of [analyze_listing], as a dictionary; and a failed item,
    carrying the text of the error, exactly when [analyze_listing] ends in
    an HTTP error, whose cause that error is. *)
Theorem analyze_single_listing_agrees (index : Z) (title : string)
    (listing_price : Q) (w : World) :
  let key := generate_cache_key md5_hexdigest "analysis" title in
  let a := analyze_listing similarity md5_hexdigest
             (AnalyzeRequest.mk title listing_price) in
  (forall ttl d, cache w !! key = Some (ttl, d) -> entry_typed d) ->
  exists item,
    single index title listing_price w = (Return item, world_after a w) /\
    match result_of a w with
    | Return response =>
        BulkAnalyzeResultItem.success item = true /\
        BulkAnalyzeResultItem.data item = Some (item_data_of response) /\
        BulkAnalyzeResultItem.error item = None
    | Raise e =>
        BulkAnalyzeResultItem.success item = false /\
        BulkAnalyzeResultItem.data item = None /\
        exists status_code cause,
          e = HTTPException status_code cause /\
          BulkAnalyzeResultItem.error item = Some (str_exn cause)
    end.
Proof.
  intros key a _.
  destruct (analyze_single_listing_run index title listing_price w)
    as [item [E [_ [H _]]]].
  exists item. split; [exact E|]. fold a in H.
  destruct (result_of a w) as [response|e]; tauto.
Qed.

(** X16.  [analyze_single_listing] never raises: it returns an item for
    the index, title and price it was given, whose steps carry the
    readings of the clock in order.  A successful item has data and no
    error, and its steps are the two of a cache hit, numbered 1 and 2, or
    the five of a fresh analysis, numbered 1 to 5, of which the last two
    are warnings exactly when the item has no estimated value.  A failed
    item has an error and no data; its steps end with the step [Error],
    which is numbered 2, after the cache check alone or after the cache
    check and a pricing step that is numbered 2 as well. *)
Theorem analyze_single_listing_steps (index : Z) (title : string)
    (listing_price : Q) (w : World) :
  exists item,
    result_of (single index title listing_price) w = Return item /\
    BulkAnalyzeResultItem.index item = index /\
    BulkAnalyzeResultItem.title item = title /\
    BulkAnalyzeResultItem.listing_price item = listing_price /\
    step_timestamps item
      = map now (seq 0 (length (BulkAnalyzeResultItem.analysis_steps item))) /\
    if BulkAnalyzeResultItem.success item then
      BulkAnalyzeResultItem.error item = None /\
      exists d v,
        BulkAnalyzeResultItem.data item = Some d /\
        d !! "estimated_value" = Some (Plain v) /\
        ((d !! "cached" = Some (Flag true) /\
          step_names item = ["Cache Check"; "Pricing Calculation"] /\
          step_numbers item = [1; 2]%Z /\
          step_statuses item = ["success"; "success"]) \/
         (d !! "cached" = Some (Flag false) /\
          step_names item =
            ["Cache Check"; "LLM Parsing"; "ID Normalization";
             "Database Matching"; "Pricing Calculation"] /\
          step_numbers item = [1; 2; 3; 4; 5]%Z /\
          step_statuses item =
            ["success"; "success"; "success";
             if is_VNone v then "warning" else "success";
             if is_VNone v then "warning" else "success"]))
    else
      BulkAnalyzeResultItem.data item = None /\
      is_Some (BulkAnalyzeResultItem.error item) /\
      ((step_names item = ["Cache Check"; "Error"] /\
        step_numbers item = [1; 2]%Z /\
        step_statuses item = ["success"; "error"]) \/
       (step_names item = ["Cache Check"; "Pricing Calculation"; "Error"] /\
        step_numbers item = [1; 2; 2]%Z /\
        step_statuses item = ["success"; "success"; "error"])).
Proof.
  destruct (analyze_single_listing_run index title listing_price w)
    as [item [E [[I [Ti P]] [H Ts]]]].
  exists item. unfold result_of. rewrite E.
  split; [reflexivity|]. split; [exact I|]. split; [exact Ti|].
  split; [exact P|]. split; [exact Ts|].
  destruct (result_of _ w) as [response|e].
  - destruct H as [-> [-> [-> H]]]. split; [reflexivity|].
    destruct (item_data_of_lookups response) as [Lc Le].
    exists (item_data_of response), (AnalyzeResponse.estimated_value response).
    split; [reflexivity|]. split; [exact Le|]. rewrite Lc.
    destruct (AnalyzeResponse.cached response).
    + left. tauto.
    + right. destruct H as [Hn [Hm [s [Hs ->]]]]. tauto.
  - destruct H as [-> [-> [[sc [cause [_ ->]]] H]]].
    split; [reflexivity|]. split; [eexists; reflexivity|]. exact H.
Qed.
End BulkFacts.

(** ** Seeding the store *)

Lemma firstn_add_skipn {A} (a b : nat) (l : list A) :
  firstn (a + b) l = (firstn a l ++ firstn b (skipn a l))%list.
Proof.
  revert l. induction a as [|a IH]; intros l; [reflexivity|].
  destruct l as [|x l]; simpl.
  - rewrite firstn_nil. reflexivity.
  - rewrite IH. reflexivity.
Qed.

Lemma batches_concat {A} (s n : nat) (l : list A) :
  concat (map (fun i => firstn s (skipn i l))
              (map (fun k => k * s)%nat (seq 0 n)))
  = firstn (n * s) l.
Proof.
  induction n as [|n IH]; [reflexivity|].
  rewrite seq_S, !map_app, concat_app, IH. simpl.
  rewrite app_nil_r, <- firstn_add_skipn. f_equal. lia.
Qed.

Lemma range_covers (stop s : nat) :
  (0 < s)%nat -> (stop <= (stop + s - 1) / s * s)%nat.
Proof.
  intros Hs.
  pose proof (Nat.div_mod_eq (stop + s - 1) s) as D.
  pose proof (Nat.mod_upper_bound (stop + s - 1) s) as U.
  nia.
Qed.

Lemma slice_positive (records : list Seed.Instance.t) (i : nat)
    (batch_size : Z) :
  (1 <= batch_size)%Z ->
  Seed.slice records i batch_size
  = firstn (Z.to_nat batch_size) (skipn i records).
Proof.
  intros H. unfold Seed.slice.
  destruct (Z.ltb_spec (Z.of_nat i + batch_size) 0); [lia|].
  f_equal. lia.
Qed.

Lemma range_batches (records : list Seed.Instance.t) (batch_size : Z)
    (starts : list nat) :
  (1 <= batch_size)%Z ->
  Seed.range (length records) batch_size = Seed.Ok starts ->
  concat (map (fun i => Seed.slice records i batch_size) starts) = records.
Proof.
  intros H E. unfold Seed.range in E.
  destruct (Z.eqb_spec batch_size 0); [lia|].
  destruct (Z.ltb_spec batch_size 0); [lia|].
  injection E as <-.
  erewrite map_ext; [|intros i; apply slice_positive, H].
  rewrite batches_concat. apply firstn_all2, range_covers. lia.
Qed.

Lemma insert_batches_spec (starts : list nat) (records : list Seed.Instance.t)
    (batch_size : Z) (total : nat) (stats : Seed.Stats) (db : Seed.Db) :
  Seed.inserted stats = total ->
  exists stats' db' added,
    Seed.insert_batches starts records batch_size total stats db
      = (Seed.Ok stats', db') /\
    Seed.rows db' = (Seed.rows db ++ added)%list /\
    added `sublist_of`
      concat (map (fun i => Seed.slice records i batch_size) starts) /\
    Seed.inserted stats' = (Seed.inserted stats + length added)%nat /\
    (Seed.errors stats' + length added
     = Seed.errors stats
       + length (concat (map (fun i => Seed.slice records i batch_size)
                             starts)))%nat /\
    Seed.total_records stats' = Seed.total_records stats /\
    Seed.cleared stats' = Seed.cleared stats /\
    ((forall n, (Seed.sessions db <= n)%nat ->
                Seed.session_fails db n = false) ->
     added = concat (map (fun i => Seed.slice records i batch_size) starts)).
Proof.
  revert total stats db.
  induction starts as [|i starts IH]; intros total stats db Ht.
  - exists stats, db, []. simpl. rewrite app_nil_r.
    repeat split; try reflexivity; try lia.
  - cbn [Seed.insert_batches map concat].
    set (batch := Seed.slice records i batch_size).
    unfold Seed.insert_batch, Seed.session.
    destruct (Seed.session_fails db (Seed.sessions db)) eqn:F.
    + edestruct (IH total
                   (Seed.mkStats (Seed.total_records stats)
                      (Seed.inserted stats) (Seed.cleared stats)
                      (Seed.errors stats + length batch))
                   (Seed.mkDb (Seed.rows db) (S (Seed.sessions db))
                      (Seed.session_fails db) (Seed.files db)))
        as [stats' [db' [added [E [R [Sb [I [Er [T [C All]]]]]]]]]];
        [exact Ht|].
      cbn [Seed.rows Seed.sessions Seed.session_fails Seed.inserted
           Seed.errors Seed.total_records Seed.cleared] in *.
      exists stats', db', added. rewrite E.
      split; [reflexivity|]. split; [exact R|].
      split; [apply sublist_inserts_l, Sb|].
      split; [exact I|]. split; [rewrite length_app; lia|].
      split; [exact T|]. split; [exact C|].
      intros H. rewrite (H (Seed.sessions db)) in F by lia. discriminate.
    + edestruct (IH (total + length batch)%nat
                   (Seed.mkStats (Seed.total_records stats)
                      (total + length batch) (Seed.cleared stats)
                      (Seed.errors stats))
                   (Seed.mkDb (Seed.rows db ++ batch) (S (Seed.sessions db))
                      (Seed.session_fails db) (Seed.files db)))
        as [stats' [db' [added [E [R [Sb [I [Er [T [C All]]]]]]]]]];
        [reflexivity|].
      cbn [Seed.rows Seed.sessions Seed.session_fails Seed.inserted
           Seed.errors Seed.total_records Seed.cleared] in *.
      exists stats', db', (batch ++ added)%list. rewrite E.
      split; [reflexivity|]. split; [rewrite R, app_assoc; reflexivity|].
      split; [apply sublist_app; [reflexivity|exact Sb]|].
      split; [rewrite length_app; lia|].
      split; [rewrite !length_app; lia|].
      split; [exact T|]. split; [exact C|].
      intros H. f_equal. apply All. intros n Hn. apply H. lia.
Qed.

Lemma check_fields_object (o : gmap string Json.t) (fields : list string) :
  match Seed.check_fields (Json.Object o) fields with
  | Seed.Ok _ => Forall (fun field => is_Some (o !! field)) fields
  | Seed.Err e =>
      e = Seed.ValueError /\
      ~ Forall (fun field => is_Some (o !! field)) fields
  end.
Proof.
  induction fields as [|f fields IH]; [constructor|].
  cbn [Seed.check_fields Seed.contains Seed.and_then].
  destruct (bool_decide_reflect (is_Some (o !! f))) as [H|H].
  - destruct (Seed.check_fields (Json.Object o) fields).
    + constructor; assumption.
    + destruct IH as [-> IH]. split; [reflexivity|].
      intros F. inversion F; subst. tauto.
  - split; [reflexivity|]. intros F. inversion F; subst. tauto.
Qed.

Lemma check_fields_error (record : Json.t) (fields : list string)
    (e : Seed.error) :
  Seed.check_fields record fields = Seed.Err e ->
  e = Seed.ValueError \/ e = Seed.TypeError.
Proof.
  induction fields as [|f fields IH]; [discriminate|].
  cbn [Seed.check_fields].
  destruct (Seed.contains record f) as [[|]|e'] eqn:C;
    cbn [Seed.and_then].
  - exact IH.
  - intros [= <-]. tauto.
  - intros [= <-]. destruct record; try discriminate C;
      injection C as <-; tauto.
Qed.

Lemma validate_record_spec (record : Json.t) (index : nat) :
  match Seed.validate_record record index with
  | Seed.Ok _ => accepted_record record
  | Seed.Err e =>
      ~ accepted_record record /\
      (e = Seed.ValueError \/
       (e = Seed.TypeError /\ forall o, record <> Json.Object o))
  end.
Proof.
  unfold Seed.validate_record.
  destruct record as [| | | | | |o];
    try (destruct (Seed.check_fields _ Seed.required_fields) as [[]|e] eqn:C;
         cbn [Seed.and_then Seed.getitem];
         [|apply check_fields_error in C];
         (split; [intros [o [E _]]; discriminate E|]);
         [|destruct C as [->| ->]]; tauto || (right; split; [reflexivity|]);
         intros o; discriminate).
  pose proof (check_fields_object o Seed.required_fields) as C.
  destruct (Seed.check_fields (Json.Object o) Seed.required_fields)
    as [[]|e]; cbn [Seed.and_then].
  - assert (K : forall f, In f Seed.required_fields -> is_Some (o !! f)).
    { apply List.Forall_forall. exact C. }
    destruct (K "year") as [y Ey]; [simpl; tauto|].
    destruct (K "grade") as [g Eg]; [simpl; tauto|].
    destruct (K "price") as [p Ep]; [simpl; tauto|].
    cbn [Seed.getitem]. rewrite Ey, Eg, Ep. cbn [Seed.and_then].
    destruct (Seed.is_int y) eqn:Iy; cbn [negb].
    2:{ split; [|tauto]. intros [o' [[= <-] [_ [H _]]]].
        rewrite (H y Ey) in Iy. discriminate. }
    destruct (Seed.is_number g) eqn:Ig; cbn [negb].
    2:{ split; [|tauto]. intros [o' [[= <-] [_ [_ [H _]]]]].
        rewrite (H g Eg) in Ig. discriminate. }
    destruct (Seed.is_number p) eqn:Ip; cbn [negb].
    2:{ split; [|tauto]. intros [o' [[= <-] [_ [_ [_ H]]]]].
        rewrite (H p Ep) in Ip. discriminate. }
    exists o. split; [reflexivity|]. split; [exact C|].
    repeat split; intros v E; congruence.
  - destruct C as [-> C]. split; [|tauto].
    intros [o' [[= <-] [F _]]]. tauto.
Qed.

Section SeedFacts.
Variable fromisoformat : string -> option Z.
Variable float_of_str : string -> option Q.
Variable decimal_of_str : string -> option Q.

Local Abbreviation transform :=
  (Seed.transform_record fromisoformat float_of_str decimal_of_str).
Local Abbreviation validate_all :=
  (Seed.validate_and_transform fromisoformat float_of_str decimal_of_str).
Local Abbreviation seed :=
  (Seed.seed_database fromisoformat float_of_str decimal_of_str).

Lemma slugify_value_shaped (v : Json.t) (s : string) :
  Seed.slugify_value v = Seed.Ok s -> slug_shaped (list_ascii_of_string s).
Proof.
  unfold Seed.slugify_value.
  destruct v as [|b|n|x|t|l|o];
    try (destruct (Json.truthy _); [discriminate|]);
    intros E; injection E as <-;
    first [exact (slugify_shaped (Some t)) | exact (slugify_shaped None)].
Qed.

Lemma slugify_value_error (v : Json.t) (e : Seed.error) :
  Seed.slugify_value v = Seed.Err e -> e = Seed.AttributeError.
Proof.
  unfold Seed.slugify_value.
  destruct v; try discriminate; destruct (Json.truthy _); try discriminate;
    intros [= <-]; reflexivity.
Qed.

Lemma transform_record_shaped (record : Json.t) (r : Seed.Instance.t) :
  transform record = Seed.Ok r ->
  slug_shaped (list_ascii_of_string (Seed.Instance.player_id r)) /\
  slug_shaped (list_ascii_of_string (Seed.Instance.brand_id r)) /\
  slug_shaped (list_ascii_of_string (Seed.Instance.variation_id r)) /\
  Seed.getitem record "year" = Seed.Ok (Seed.Instance.year r) /\
  Seed.getitem record "grader" = Seed.Ok (Seed.Instance.grader r).
Proof.
  unfold Seed.transform_record.
  destruct (Seed.getitem record "player_name") as [n|]; [|discriminate].
  cbn [Seed.and_then].
  destruct (Seed.slugify_value n) as [pid|] eqn:Ep; [|discriminate].
  cbn [Seed.and_then].
  destruct (Seed.getitem record "brand") as [b|]; [|discriminate].
  cbn [Seed.and_then].
  destruct (Seed.slugify_value b) as [bid|] eqn:Eb; [|discriminate].
  cbn [Seed.and_then].
  destruct (Seed.getitem record "variation") as [v|]; [|discriminate].
  cbn [Seed.and_then].
  destruct (Seed.slugify_value v) as [vid|] eqn:Ev; [|discriminate].
  cbn [Seed.and_then].
  destruct (Seed.getitem record "sold_at") as [t|]; [|discriminate].
  cbn [Seed.and_then].
  match goal with |- Seed.and_then ?m _ = _ -> _ => destruct m end;
    [|discriminate].
  cbn [Seed.and_then].
  destruct (Seed.getitem record "year") as [y|]; [|discriminate].
  cbn [Seed.and_then].
  destruct (Seed.getitem record "grade") as [g|]; [|discriminate].
  cbn [Seed.and_then].
  destruct (Seed.float_of float_of_str g); [|discriminate].
  cbn [Seed.and_then].
  destruct (Seed.getitem record "grader") as [gr|]; [|discriminate].
  cbn [Seed.and_then].
  destruct (Seed.getitem record "price") as [p|]; [|discriminate].
  cbn [Seed.and_then].
  destruct (Seed.decimal_of decimal_of_str p); [|discriminate].
  cbn [Seed.and_then].
  intros [= <-].
  cbn [Seed.Instance.player_id Seed.Instance.brand_id
       Seed.Instance.variation_id Seed.Instance.year Seed.Instance.grader].
  split; [exact (slugify_value_shaped _ _ Ep)|].
  split; [exact (slugify_value_shaped _ _ Eb)|].
  split; [exact (slugify_value_shaped _ _ Ev)|].
  split; reflexivity.
Qed.

Lemma transform_record_error (record : Json.t) (e : Seed.error) :
  accepted_record record ->
  transform record = Seed.Err e ->
  e = Seed.ValueError \/ e = Seed.AttributeError \/
  e = Seed.InvalidOperation \/ e = Seed.OverflowError.
Proof.
  intros [o [-> [F [Hy [Hg Hp]]]]].
  assert (K : forall f, In f Seed.required_fields -> is_Some (o !! f)).
  { apply List.Forall_forall. exact F. }
  destruct (K "player_name") as [n En]; [simpl; tauto|].
  destruct (K "brand") as [b Eb]; [simpl; tauto|].
  destruct (K "variation") as [v Ev]; [simpl; tauto|].
  destruct (K "sold_at") as [t Et]; [simpl; tauto|].
  destruct (K "year") as [y Ey]; [simpl; tauto|].
  destruct (K "grade") as [g Eg]; [simpl; tauto|].
  destruct (K "grader") as [gr Egr]; [simpl; tauto|].
  destruct (K "price") as [p Ep]; [simpl; tauto|].
  unfold Seed.transform_record. cbn [Seed.getitem].
  rewrite En, Eb, Ev, Et, Ey, Eg, Egr, Ep. cbn [Seed.and_then].
  destruct (Seed.slugify_value n) eqn:S1; cbn [Seed.and_then];
    [|intros [= <-]; apply slugify_value_error in S1; tauto].
  destruct (Seed.slugify_value b) eqn:S2; cbn [Seed.and_then];
    [|intros [= <-]; apply slugify_value_error in S2; tauto].
  destruct (Seed.slugify_value v) eqn:S3; cbn [Seed.and_then];
    [|intros [= <-]; apply slugify_value_error in S3; tauto].
  assert (T : forall e',
             match t with
             | Json.Str s =>
                 match fromisoformat (Seed.replace_Z s) with
                 | Some t' => Seed.Ok t'
                 | None => Seed.Err Seed.ValueError
                 end
             | _ => Seed.Err Seed.AttributeError
             end = Seed.Err e' ->
             e' = Seed.ValueError \/ e' = Seed.AttributeError).
  { intros e'. destruct t; try (intros [= <-]; tauto).
    destruct (fromisoformat _); [discriminate|]. intros [= <-]. tauto. }
  match goal with |- Seed.and_then ?m _ = _ -> _ => destruct m eqn:St end;
    cbn [Seed.and_then];
    [|intros [= <-]; destruct (T _ eq_refl); tauto].
  specialize (Hg g Eg). specialize (Hp p Ep).
  destruct g; try discriminate Hg; cbn [Seed.float_of];
    try destruct (Binary64.is_infinite _); cbn [Seed.and_then];
    try (intros [= <-]; tauto);
    destruct p; try discriminate Hp; cbn [Seed.decimal_of Seed.and_then];
    try discriminate; intros [= <-]; tauto.
Qed.

Lemma validate_and_transform_spec (raw_data : list Json.t) (i : nat)
    (records : list Seed.Instance.t) (errors : nat) :
  match validate_all raw_data i records errors with
  | Seed.Ok (records', errors') =>
      exists kept new,
        records' = (records ++ new)%list /\
        kept `sublist_of` raw_data /\
        Forall2 (fun record r =>
                   accepted_record record /\ transform record = Seed.Ok r)
                kept new /\
        (length new + errors' = length raw_data + errors)%nat
  | Seed.Err e =>
      e = Seed.TypeError \/ e = Seed.AttributeError \/
      e = Seed.InvalidOperation \/ e = Seed.OverflowError
  end.
Proof.
  revert i records errors.
  induction raw_data as [|record raw_data IH]; intros i records errors.
  - exists [], []. rewrite app_nil_r. repeat split; constructor.
  - cbn [Seed.validate_and_transform].
    pose proof (validate_record_spec record i) as V.
    destruct (Seed.validate_record record i) as [[]|e]; cbn [Seed.and_then].
    + destruct (transform record) as [r|e] eqn:Et.
      * specialize (IH (S i) (records ++ [r])%list errors).
        destruct (validate_all raw_data (S i) _ errors) as [[recs errs]|e];
          [|exact IH].
        destruct IH as [kept [new [-> [Sb [F L]]]]].
        exists (record :: kept), (r :: new).
        rewrite <- app_assoc. split; [reflexivity|].
        split; [apply sublist_skip, Sb|].
        split; [constructor; tauto|]. simpl. lia.
      * pose proof (transform_record_error record e V Et) as Te.
        destruct (Seed.is_ValueError e) eqn:Ie.
        -- specialize (IH (S i) records (S errors)).
           destruct (validate_all raw_data (S i) records (S errors))
             as [[recs errs]|e']; [|exact IH].
           destruct IH as [kept [new [-> [Sb [F L]]]]].
           exists kept, new. split; [reflexivity|].
           split; [apply sublist_cons, Sb|]. split; [exact F|]. simpl. lia.
        -- destruct Te as [->|[->|[->| ->]]];
             [discriminate|tauto|tauto|tauto].
    + destruct V as [_ V]. destruct (Seed.is_ValueError e) eqn:Ie.
      * specialize (IH (S i) records (S errors)).
        destruct (validate_all raw_data (S i) records (S errors))
          as [[recs errs]|e']; [|exact IH].
        destruct IH as [kept [new [-> [Sb [F L]]]]].
        exists kept, new. split; [reflexivity|].
        split; [apply sublist_cons, Sb|]. split; [exact F|]. simpl. lia.
      * destruct V as [->|[-> _]]; [discriminate|tauto].
Qed.

(** X17.  The records the seeding keeps are, in the order of the file, the
    transforms of records that are dictionaries with the eight fields, an
    integer year and a numeric grade and price (a boolean passing for an
    integer); their identifiers have the shape of a normalised identifier;
    every record of the file is kept or counted as an error.  When the
    loop ends with an exception instead, it is a [TypeError], an
    [AttributeError], an [InvalidOperation] or an [OverflowError]; the
    last one is what an integer grade too large for a float raises. *)
Theorem validate_and_transform_records (raw_data : list Json.t) :
  match validate_all raw_data 0 [] 0 with
  | Seed.Ok (records, errors) =>
      (length records + errors = length raw_data)%nat /\
      Forall instance_shaped records /\
      exists kept,
        kept `sublist_of` raw_data /\
        Forall2 (fun record r =>
                   accepted_record record /\ transform record = Seed.Ok r)
                kept records
  | Seed.Err e =>
      e = Seed.TypeError \/ e = Seed.AttributeError \/
      e = Seed.InvalidOperation \/ e = Seed.OverflowError
  end.
Proof.
  pose proof (validate_and_transform_spec raw_data 0 [] 0) as H.
  destruct (validate_all raw_data 0 [] 0) as [[records errors]|e];
    [|exact H].
  destruct H as [kept [new [-> [Sb [F L]]]]]. cbn [app].
  split; [lia|]. split; [|exists kept; tauto].
  clear Sb L. induction F as [|record r kept new [A T] F IH]; constructor;
    [|exact IH].
  destruct (transform_record_shaped record r T) as [P [B [V [Y _]]]].
  unfold instance_shaped.
  split; [exact P|]. split; [exact B|]. split; [exact V|].
  destruct A as [o [-> [_ [Hy _]]]]. cbn [Seed.getitem] in Y.
  destruct (o !! "year") as [y|] eqn:Ey; [|discriminate].
  injection Y as <-. apply Hy. reflexivity.
Qed.

(** X18.  With a batch size of at least 1, a seeding that returns has
    accounted for every record of the file: [inserted + errors] is
    [total_records].  The rows it adds are valid records in the order of
    the file, as many as [inserted]; the valid records it does not add,
    those of the batches whose insertion failed, are counted as errors
    with the invalid ones; when no session fails, every valid record is
    added.  [cleared] is the number of rows there were when clearing was
    asked for. *)
Theorem seed_database_accounts (file_path : string) (batch_size : Z)
    (clear_existing : bool) (db db' : Seed.Db) (stats : Seed.Stats) :
  (1 <= batch_size)%Z ->
  seed file_path batch_size clear_existing db = (Seed.Ok stats, db') ->
  (Seed.inserted stats + Seed.errors stats = Seed.total_records stats)%nat /\
  Seed.cleared stats
    = (if clear_existing then length (Seed.rows db) else 0%nat) /\
  exists data records invalid added,
    Seed.files db file_path = Some (Some (Json.Array data)) /\
    Seed.total_records stats = length data /\
    validate_all data 0 [] 0 = Seed.Ok (records, invalid) /\
    Seed.rows db'
      = ((if clear_existing then [] else Seed.rows db) ++ added)%list /\
    added `sublist_of` records /\
    Seed.inserted stats = length added /\
    (Seed.errors stats + length added = invalid + length records)%nat /\
    ((forall n, Seed.session_fails db n = false) -> added = records).
Proof.
  intros Hb E. unfold Seed.seed_database in E.
  unfold Seed.bindS at 1 in E.
  set (db1 := if clear_existing
              then Seed.mkDb [] (S (Seed.sessions db)) (Seed.session_fails db)
                             (Seed.files db)
              else db).
  set (stats1 := Seed.mkStats 0 0
                   (if clear_existing then length (Seed.rows db) else 0%nat)
                   0).
  assert (E1 : (if clear_existing
                then Seed.bindS Seed.clear_sales_history
                       (fun cleared =>
                          Seed.retS (Seed.mkStats 0 0 cleared 0))
                else Seed.retS (Seed.mkStats 0 0 0 0)) db
               = (Seed.Ok stats1, db1) \/
               exists db2,
                 (if clear_existing
                  then Seed.bindS Seed.clear_sales_history
                         (fun cleared =>
                            Seed.retS (Seed.mkStats 0 0 cleared 0))
                  else Seed.retS (Seed.mkStats 0 0 0 0)) db
                 = (Seed.Err Seed.Exception, db2)).
  { subst db1 stats1. destruct clear_existing; [|left; reflexivity].
    unfold Seed.bindS, Seed.clear_sales_history, Seed.session, Seed.retS.
    destruct (Seed.session_fails db (Seed.sessions db));
      [right; eexists; reflexivity|left; reflexivity]. }
  cbn [Seed.total_records Seed.inserted Seed.cleared Seed.errors] in E.
  destruct E1 as [E1|[db2 E1]]; rewrite E1 in E; [|discriminate].
  subst stats1.
  unfold Seed.bindS at 1 in E. unfold Seed.load_json_data in E.
  assert (Fi : Seed.files db1 = Seed.files db)
    by (subst db1; destruct clear_existing; reflexivity).
  rewrite Fi in E.
  destruct (Seed.files db file_path) as [[[| | | | |data|]|]|] eqn:Ef;
    try discriminate E.
  unfold Seed.bindS at 1 in E. unfold Seed.liftS at 1 in E.
  cbn [Seed.total_records Seed.inserted Seed.cleared Seed.errors] in E.
  destruct (validate_all data 0 [] 0) as [[records invalid]|e] eqn:Ev;
    [|discriminate].
  cbn [fst snd] in E.
  unfold Seed.bindS at 1 in E. unfold Seed.liftS at 1 in E.
  destruct (Seed.range (length records) batch_size) as [starts|e] eqn:Er;
    [|discriminate].
  destruct (insert_batches_spec starts records batch_size 0
              (Seed.mkStats (length data) 0
                 (if clear_existing then length (Seed.rows db) else 0%nat)
                 invalid)
              db1 eq_refl)
    as [stats' [db'' [added [Ei [R [Sb [I [Err [T [C All]]]]]]]]]].
  rewrite (range_batches records batch_size starts Hb Er) in *.
  rewrite Ei in E. injection E as <- <-.
  cbn [Seed.total_records Seed.inserted Seed.cleared Seed.errors] in *.
  pose proof (validate_and_transform_spec data 0 [] 0) as Vs.
  rewrite Ev in Vs. destruct Vs as [kept [new [Hn [_ [_ L]]]]].
  cbn [app] in Hn. subst new.
  split; [lia|]. split; [exact C|].
  exists data, records, invalid, added.
  split; [reflexivity|]. split; [exact T|]. split; [exact Ev|].
  split.
  { rewrite R. subst db1. destruct clear_existing; reflexivity. }
  split; [exact Sb|]. split; [exact I|]. split; [exact Err|].
  intros H. apply All. intros n _. subst db1.
  destruct clear_existing; apply H.
Qed.

Lemma seed_database_clears (clear_existing : bool) (db : Seed.Db) :
  (if clear_existing
   then Seed.bindS Seed.clear_sales_history
          (fun cleared => Seed.retS (Seed.mkStats 0 0 cleared 0))
   else Seed.retS (Seed.mkStats 0 0 0 0)) db
  = if clear_existing && Seed.session_fails db (Seed.sessions db) then
      (Seed.Err Seed.Exception,
       Seed.mkDb (Seed.rows db) (S (Seed.sessions db))
                 (Seed.session_fails db) (Seed.files db))
    else
      (Seed.Ok (Seed.mkStats 0 0
                  (if clear_existing then length (Seed.rows db) else 0%nat)
                  0),
       if clear_existing
       then Seed.mkDb [] (S (Seed.sessions db)) (Seed.session_fails db)
                      (Seed.files db)
       else db).
Proof.
  destruct clear_existing; [|reflexivity].
  unfold Seed.bindS, Seed.clear_sales_history, Seed.session, Seed.retS.
  cbn [andb]. destruct (Seed.session_fails db (Seed.sessions db));
    reflexivity.
Qed.

(** X19.  A batch size that is not positive inserts nothing.  With a
    negative batch size the seeding returns statistics in which no record
    is inserted and only the invalid records are counted as errors: the
    valid records are dropped without a trace.  With the batch size 0 the
    seeding ends with an exception whatever the file holds.  In both
    cases a table that was to be cleared has been cleared by then. *)
Theorem seed_database_batch_size (file_path : string) (batch_size : Z)
    (clear_existing : bool) (db : Seed.Db) :
  (batch_size <= 0)%Z ->
  match seed file_path batch_size clear_existing db with
  | (Seed.Ok stats, db') =>
      (batch_size < 0)%Z /\
      Seed.inserted stats = 0%nat /\
      Seed.rows db' = (if clear_existing then [] else Seed.rows db) /\
      exists data records,
        Seed.files db file_path = Some (Some (Json.Array data)) /\
        validate_all data 0 [] 0 = Seed.Ok (records, Seed.errors stats) /\
        Seed.total_records stats = length data /\
        (Seed.inserted stats + Seed.errors stats + length records
         = Seed.total_records stats)%nat
  | (Seed.Err e, db') =>
      Seed.rows db'
      = (if clear_existing
            && negb (Seed.session_fails db (Seed.sessions db))
         then [] else Seed.rows db)
  end.
Proof.
  intros Hb. unfold Seed.seed_database.
  unfold Seed.bindS at 1. rewrite seed_database_clears.
  destruct clear_existing;
    [destruct (Seed.session_fails db (Seed.sessions db)) eqn:F|];
    cbn [andb negb]; try reflexivity;
    unfold Seed.bindS at 1; unfold Seed.load_json_data;
    cbn [Seed.files Seed.rows];
    (destruct (Seed.files db file_path) as [[[| | | | |data|]|]|] eqn:Ef;
     try reflexivity);
    unfold Seed.bindS at 1; unfold Seed.liftS at 1;
    cbn [Seed.total_records Seed.inserted Seed.cleared Seed.errors];
    pose proof (validate_and_transform_spec data 0 [] 0) as Vs;
    (destruct (validate_all data 0 [] 0) as [[records invalid]|e] eqn:Ev;
     [|reflexivity]);
    destruct Vs as [kept [new [Hn [_ [_ L]]]]];
    cbn [app] in Hn; subst new;
    cbn [fst snd]; unfold Seed.bindS at 1; unfold Seed.liftS at 1;
    unfold Seed.range;
    (destruct (Z.eqb_spec batch_size 0); [reflexivity|]);
    (destruct (Z.ltb_spec batch_size 0); [|lia]);
    cbn [Seed.insert_batches Seed.retS Seed.inserted Seed.errors
         Seed.total_records Seed.rows];
    (split; [assumption|]); (split; [reflexivity|]);
    (split; [reflexivity|]);
    exists data, records; repeat split; try lia; exact Ev.
Qed.
End SeedFacts.

(** ** Browsing the sales *)

Section BrowseFacts.
Variable collation_lt : string -> string -> bool.

Local Abbreviation browse :=
  (Browse.get_sales_history collation_lt).

Lemma truthy_str_holds (x : option string) (mk : string -> Browse.condition)
    (r : SalesHistory.t) (field : string) :
  (forall s, Browse.holds r (mk s) = String.eqb field s) ->
  forallb (Browse.holds r)
    match truthy_str x with Some s => [mk s] | None => [] end = true
  <-> match x with Some s => s = "" \/ field = s | None => True end.
Proof.
  intros H. destruct x as [[|c s]|]; cbn [truthy_str forallb];
    [tauto| |tauto].
  rewrite H, andb_true_r, String.eqb_eq. split; [tauto|].
  intros [E|E]; [discriminate|exact E].
Qed.

Lemma filters_of_holds p b g lo hi (r : SalesHistory.t) :
  forallb (Browse.holds r) (filters_of p b g lo hi) = true
  <-> wanted p b g lo hi r.
Proof.
  unfold filters_of, wanted. rewrite !forallb_app, !andb_true_iff.
  rewrite (truthy_str_holds p Browse.PlayerIdEq r (SalesHistory.player_id r))
    by reflexivity.
  rewrite (truthy_str_holds b Browse.BrandIdEq r (SalesHistory.brand_id r))
    by reflexivity.
  rewrite (truthy_str_holds g Browse.GraderEq r (SalesHistory.grader r))
    by reflexivity.
  assert (L : forallb (Browse.holds r)
                match lo with Some x => [Browse.GradeGe x] | None => [] end
              = true
              <-> match lo with
                  | Some x => x <= SalesHistory.grade r
                  | None => True
                  end).
  { destruct lo; cbn [forallb Browse.holds]; [|tauto].
    rewrite andb_true_r. apply Qle_bool_iff. }
  assert (U : forallb (Browse.holds r)
                match hi with Some x => [Browse.GradeLe x] | None => [] end
              = true
              <-> match hi with
                  | Some x => SalesHistory.grade r <= x
                  | None => True
                  end).
  { destruct hi; cbn [forallb Browse.holds]; [|tauto].
    rewrite andb_true_r. apply Qle_bool_iff. }
  rewrite L, U. tauto.
Qed.

Lemma matching_wanted p b g lo hi (rows : list SalesHistory.t) :
  Browse.matching (filters_of p b g lo hi) rows
  = filter (wanted p b g lo hi) rows.
Proof. apply filter_decide. intros r. apply filters_of_holds. Qed.

Lemma total_pages_ceiling (total per_page : Z) :
  (0 < total)%Z -> (1 <= per_page)%Z ->
  let n := ((total + per_page - 1) / per_page)%Z in
  ((n - 1) * per_page < total <= n * per_page)%Z.
Proof.
  intros Ht Hp n. subst n.
  pose proof (Z.div_mod (total + per_page - 1) per_page) as D.
  pose proof (Z.mod_pos_bound (total + per_page - 1) per_page) as B.
  nia.
Qed.

Lemma page_length {A} (limit offset : Z) (l : list A) :
  (0 <= offset)%Z -> (0 <= limit)%Z ->
  Z.of_nat (length (firstn (Z.to_nat limit) (skipn (Z.to_nat offset) l)))
  = Z.min limit (Z.max 0 (Z.of_nat (length l) - offset)).
Proof.
  intros Ho Hl. rewrite length_firstn, length_skipn. lia.
Qed.

Lemma In_page {A} (n m : nat) (l : list A) (x : A) :
  In x (firstn n (skipn m l)) -> In x l.
Proof.
  revert n l. induction m as [|m IH]; intros n l.
  - cbn [skipn]. revert l. induction n as [|n IHn]; intros [|y l]; simpl;
      try tauto. intros [H|H]; [tauto|right; apply IHn, H].
  - destruct l as [|y l]; cbn [skipn].
    + destruct n; simpl; tauto.
    + intros H. right. apply (IH n l H).
Qed.

(** X20.  A page of the sales, for a page number and a page size of at
    least 1, a name of a column to sort by and a store that answers:
    [total] is the number of rows that pass the filters; [total_pages]
    is the least number of pages of that size that hold them, 0 when
    there are none; the page holds rows that pass the filters, as their
    dictionaries, [per_page] of them or what is left after the pages
    before it, so that it is empty exactly when the page number is above
    [total_pages]; and two statements were sent. *)
Theorem get_sales_history_page (page per_page : Z)
    (player_id brand_id grader : option string)
    (min_grade max_grade : option Q) (sort_by sort_order : string)
    (c : Browse.column) (s : Browse.Session) :
  (1 <= page)%Z ->
  (1 <= per_page)%Z ->
  Browse.column_of sort_by = Some c ->
  Browse.statement_fails s (length (Browse.statements s)) = false ->
  Browse.statement_fails s (S (length (Browse.statements s))) = false ->
  let hits :=
    filter (wanted player_id brand_id grader min_grade max_grade)
           (Browse.table s) in
  let total := Z.of_nat (length hits) in
  let run := browse page per_page player_id brand_id grader min_grade
               max_grade sort_by sort_order s in
  exists rows total_pages,
    fst run = Browse.Return
                (Browse.mkResponse (map SalesHistory.to_dict rows)
                   (Browse.mkPagination total page per_page total_pages)) /\
    (forall r, In r rows -> In r hits) /\
    Z.of_nat (length rows)
      = Z.min per_page (Z.max 0 (total - (page - 1) * per_page)) /\
    (total = 0%Z -> total_pages = 0%Z) /\
    ((0 < total)%Z ->
     ((total_pages - 1) * per_page < total <= total_pages * per_page)%Z) /\
    (rows <> [] <-> (page <= total_pages)%Z) /\
    length (Browse.statements (snd run))
      = S (S (length (Browse.statements s))).
Proof.
  intros Hp Hpp Hc F1 F2 hits total run.
  assert (Ho : (0 <= (page - 1) * per_page)%Z) by nia.
  set (rows := firstn (Z.to_nat per_page)
                 (skipn (Z.to_nat ((page - 1) * per_page))
                    (Browse.ordered collation_lt c
                       (String.eqb sort_order "desc") hits))).
  set (tp := if (0 <? total)%Z
             then ((total + per_page - 1) / per_page)%Z else 0%Z).
  assert (E : run =
              (Browse.Return
                 (Browse.mkResponse (map SalesHistory.to_dict rows)
                    (Browse.mkPagination total page per_page tp)),
               Browse.log
                 (Browse.Select
                    (filters_of player_id brand_id grader min_grade max_grade)
                    c (String.eqb sort_order "desc")
                    ((page - 1) * per_page) per_page)
                 (Browse.log
                    (Browse.Count
                       (filters_of player_id brand_id grader min_grade
                          max_grade)) s))).
  { subst run. unfold Browse.get_sales_history.
    fold (filters_of player_id brand_id grader min_grade max_grade).
    unfold Browse.try_except. unfold Browse.bind at 1.
    unfold Browse.execute_scalar. rewrite F1.
    unfold Browse.bind at 1. rewrite Hc. unfold Browse.ret at 1.
    unfold Browse.bind at 1. unfold Browse.execute_scalars.
    cbn [Browse.statements Browse.statement_fails Browse.table Browse.log].
    rewrite length_app. cbn [length]. rewrite Nat.add_1_r, F2.
    destruct (Z.ltb_spec ((page - 1) * per_page) 0) as [H|_]; [lia|].
    destruct (Z.ltb_spec per_page 0) as [H|_]; [lia|].
    cbn [orb].
    rewrite !matching_wanted. fold hits. fold total. fold rows.
    unfold Browse.bind, Browse.ret. subst tp.
    destruct (0 <? total)%Z; [|reflexivity].
    destruct (Z.eqb_spec per_page 0) as [H|_]; [lia|]. reflexivity. }
  rewrite E. cbn [fst snd Browse.statements Browse.log].
  assert (Lr : Z.of_nat (length rows)
               = Z.min per_page
                   (Z.max 0 (total - (page - 1) * per_page))).
  { unfold rows. rewrite page_length by lia.
    unfold Browse.ordered. rewrite sorted_length. reflexivity. }
  assert (Ir : forall r, In r rows -> In r hits).
  { intros r Hr. apply In_page in Hr. unfold Browse.ordered in Hr.
    eapply Permutation_in; [apply sorted_perm|exact Hr]. }
  clearbody rows. clear E.
  exists rows, tp.
  split; [reflexivity|]. split; [exact Ir|]. split; [exact Lr|].
  assert (Tp : (0 < total)%Z ->
               ((tp - 1) * per_page < total <= tp * per_page)%Z).
  { intros Ht. subst tp. destruct (Z.ltb_spec 0 total); [|lia].
    apply (total_pages_ceiling total per_page Ht Hpp). }
  assert (T0 : total = 0%Z -> tp = 0%Z).
  { intros Ht. subst tp. destruct (Z.ltb_spec 0 total); [lia|reflexivity]. }
  clearbody tp.
  split; [exact T0|]. split; [exact Tp|].
  split; [|rewrite !length_app; simpl; lia].
  assert (Nt : (0 <= total)%Z) by (subst total; lia).
  destruct rows as [|r rows]; cbn [length] in Lr.
  - split; [tauto|]. intros H. exfalso.
    destruct (Z.eq_dec total 0%Z) as [Z0|Z0]; [specialize (T0 Z0); lia|].
    assert (Ht : (0 < total)%Z) by lia. specialize (Tp Ht). nia.
  - split; [|discriminate]. intros _.
    destruct (Z.eq_dec total 0%Z) as [Z0|Z0]; [lia|].
    assert (Ht : (0 < total)%Z) by lia. specialize (Tp Ht). nia.
Qed.

(** X21.  Whatever goes wrong while browsing is answered with HTTP 500,
    the cause being an error of the store, a name that is no column or a
    division by zero.  When the count fails nothing else is sent to the
    store; a name that is no column is found out only after the count
    was sent, and no rows are asked for then. *)
Theorem get_sales_history_failures (page per_page : Z)
    (player_id brand_id grader : option string)
    (min_grade max_grade : option Q) (sort_by sort_order : string)
    (s : Browse.Session) :
  let run := browse page per_page player_id brand_id grader min_grade
               max_grade sort_by sort_order s in
  let count :=
    Browse.Count (filters_of player_id brand_id grader min_grade max_grade) in
  (forall e, fst run = Browse.Raise e ->
     exists cause,
       e = Browse.HTTPException 500 cause /\
       (cause = Browse.DatabaseError \/ cause = Browse.AttributeError \/
        cause = Browse.ZeroDivisionError)) /\
  (Browse.statement_fails s (length (Browse.statements s)) = true ->
   run = (Browse.Raise (Browse.HTTPException 500 Browse.DatabaseError),
          Browse.log count s)) /\
  (Browse.statement_fails s (length (Browse.statements s)) = false ->
   Browse.column_of sort_by = None ->
   run = (Browse.Raise (Browse.HTTPException 500 Browse.AttributeError),
          Browse.log count s)).
Proof.
  intros run count. subst run count.
  unfold Browse.get_sales_history.
  fold (filters_of player_id brand_id grader min_grade max_grade).
  unfold Browse.try_except, Browse.bind, Browse.execute_scalar,
    Browse.execute_scalars, Browse.ret, Browse.raise.
  destruct (Browse.statement_fails s (length (Browse.statements s))) eqn:F1.
  - split; [|split; [reflexivity|discriminate]].
    intros e [= <-]. eexists. split; [reflexivity|tauto].
  - destruct (Browse.column_of sort_by) as [c|].
    + split; [|split; discriminate].
      destruct (_ || _ || _).
      * intros e [= <-]. eexists. split; [reflexivity|tauto].
      * destruct (0 <? _)%Z; [destruct (per_page =? 0)%Z|];
          intros e E; try discriminate E.
        injection E as <-. eexists. split; [reflexivity|tauto].
    + split; [|split; [discriminate|reflexivity]].
      intros e [= <-]. eexists. split; [reflexivity|tauto].
Qed.
End BrowseFacts.

(** ** The statements at the sample data *)

Lemma query_tier1_exact_match_spec_witness :
  store_fails sample_world (length (statements sample_world)) = false /\
  exists sales rest,
    result_of (query_tier1_exact_match sample_similarity
                 "ken-griffey-jr" "topps-chrome" "base"
                 (Some (19 # 2)) (Some "PSA") 10) sample_world
      = Return sales /\
    Permutation
      (filter (tier1_hit "ken-griffey-jr" "topps-chrome" "base"
                 (Some (19 # 2)) (Some "PSA")) (table sample_world))
      (sales ++ rest)%list /\
    StronglySorted recent_first (sales ++ rest)%list /\
    length sales = Nat.min 10 (length (sales ++ rest)%list) /\
    (filter (tier1_hit "ken-griffey-jr" "topps-chrome" "base"
               (Some (19 # 2)) (Some "PSA")) (table sample_world) = [] ->
     sales = []).
Proof.
  split; [reflexivity|].
  apply (query_tier1_exact_match_spec sample_similarity
           "ken-griffey-jr" "topps-chrome" "base" (Some (19 # 2)) (Some "PSA")
           sample_world).
  reflexivity.
Defined.

Lemma query_tier2_fuzzy_match_spec_witness :
  store_fails sample_world (length (statements sample_world)) = false /\
  SIMILARITY_THRESHOLD == 3 / 10 /\
  exists sales rest,
    result_of (query_tier2_fuzzy_match sample_similarity
                 "ken-griffey-jr" "topps-chrome" (Some 1990%Z) 10) sample_world
      = Return sales /\
    Permutation
      (filter (tier2_hit sample_similarity "ken-griffey-jr" "topps-chrome"
                 (Some 1990%Z)) (table sample_world))
      (sales ++ rest)%list /\
    StronglySorted (closest_first sample_similarity "ken-griffey-jr")
                   (sales ++ rest)%list /\
    length sales = Nat.min 10 (length (sales ++ rest)%list).
Proof.
  split; [reflexivity|].
  apply (query_tier2_fuzzy_match_spec sample_similarity
           "ken-griffey-jr" "topps-chrome" (Some 1990%Z) sample_world).
  reflexivity.
Defined.

(** Tier 1 on the sample table: the three base cards, the latest sale
    first.  Tier 2 would also find the refractor. *)
Example sample_tier1 :
  ids (result_of (query_tier1_exact_match sample_similarity
                    "ken-griffey-jr" "topps-chrome" "base"
                    (Some (19 # 2)) (Some "PSA") 10) sample_world)
  = Some [2; 3; 1]%Z.
Proof. vm_compute. reflexivity. Qed.

Example sample_tier2 :
  ids (result_of (query_tier2_fuzzy_match sample_similarity
                    "ken-griffey-jr" "topps-chrome" (Some 1989%Z) 10)
         sample_world)
  = Some [4; 2; 3; 1]%Z.
Proof. vm_compute. reflexivity. Qed.

(** Trimming at exactly three records: 80 and 120 go, 100 stays. *)
Example sample_valuation_exact :
  summary (result_of sample_valuation sample_world)
  = Some (Some 100, "exact", 3%nat).
Proof. vm_compute. reflexivity. Qed.

(** Tier 1 fails, Tier 2 answers. *)
Example sample_valuation_flaky :
  summary (result_of sample_valuation sample_world_store_flaky)
  = Some (Some (220 # 2), "fuzzy", 4%nat) /\
  length (statements (world_after sample_valuation sample_world_store_flaky))
  = 2%nat.
Proof. vm_compute. split; reflexivity. Qed.

(** Both tiers fail. *)
Example sample_valuation_down :
  summary (result_of sample_valuation sample_world_store_down)
  = Some (None, "none", 0%nat).
Proof. vm_compute. reflexivity. Qed.

(** A first request misses the cache and a second one, at another price,
    hits it: same valuation, fresh verdict, no statement sent. *)
Example sample_miss_then_hit :
  let first :=
    analyze_listing sample_similarity sample_md5
      (AnalyzeRequest.mk sample_title 90) in
  let second :=
    analyze_listing sample_similarity sample_md5
      (AnalyzeRequest.mk sample_title 150) in
  result_of first sample_world =
    Return (AnalyzeResponse.mk (VModel sample_card) (VFloat 100) (Some 10)
              "GOOD DEAL - Potential profit: $10.00"
              (VStr "exact") (VInt 3) false) /\
  result_of second (world_after first sample_world) =
    Return (AnalyzeResponse.mk (VModel sample_card) (VFloat 100) (Some (-50))
              "OVERPRICED - Potential loss: $50.00"
              (VStr "exact") (VInt 3) true) /\
  statements (world_after second (world_after first sample_world)) =
    statements (world_after first sample_world).
Proof. vm_compute. repeat split; reflexivity. Qed.

Lemma get_estimated_value_absorbs_failures_witness :
  store_fails sample_world_store_down
    (length (statements sample_world_store_down)) = true /\
  store_fails sample_world_store_down
    (S (length (statements sample_world_store_down))) = true /\
  result_of sample_valuation sample_world_store_down
    = Return (PricingResult.mk None "none" 0 []).
Proof.
  split; [reflexivity|]. split; [reflexivity|].
  apply (get_estimated_value_absorbs_failures sample_similarity
           "ken-griffey-jr" "topps-chrome" "base"
           (Some 1989%Z) (Some (19 # 2)) (Some "PSA")
           sample_world_store_down); reflexivity.
Defined.

Lemma analyze_listing_cache_contract_witness :
  result_of (get_cached_value
               (generate_cache_key sample_md5 "analysis" sample_title))
            sample_world_cached = Return (Some sample_cached) /\
  sample_cached <> ∅ /\
  result_of (analyze_listing sample_similarity sample_md5 sample_request_150)
            sample_world_cached = Return sample_response_150 /\
  AnalyzeResponse.cached sample_response_150 = true /\
  sample_cached !! "parsed_data"
    = Some (AnalyzeResponse.parsed_data sample_response_150) /\
  sample_cached !! "estimated_value"
    = Some (AnalyzeResponse.estimated_value sample_response_150) /\
  sample_cached !! "match_tier"
    = Some (AnalyzeResponse.match_tier sample_response_150) /\
  sample_cached !! "sales_count"
    = Some (AnalyzeResponse.sales_count sample_response_150) /\
  world_after (analyze_listing sample_similarity sample_md5 sample_request_150)
              sample_world_cached
  = world_after (get_cached_value
                   (generate_cache_key sample_md5 "analysis" sample_title))
                sample_world_cached.
Proof.
  assert (H1 : result_of (get_cached_value
                            (generate_cache_key sample_md5 "analysis"
                               sample_title))
                 sample_world_cached = Return (Some sample_cached))
    by (vm_compute; reflexivity).
  assert (H2 : sample_cached <> ∅) by (apply insert_non_empty).
  assert (H3 : result_of (analyze_listing sample_similarity sample_md5
                            sample_request_150)
                 sample_world_cached = Return sample_response_150)
    by (vm_compute; reflexivity).
  split; [exact H1|]. split; [exact H2|]. split; [exact H3|].
  exact (proj2 (proj2 (proj2
           (analyze_listing_cache_contract sample_similarity sample_md5
              sample_request_150 sample_world_cached)))
           sample_cached sample_response_150 H1 H2 H3).
Defined.

(** ** The estimator and the verdict on floats at sample prices *)

Lemma all_tenths (mid : list Binary64.t) :
  Forall (eq tenth) mid -> length mid = 3%nat -> mid = [tenth; tenth; tenth].
Proof.
  intros F L. destruct mid as [|a [|b [|c [|d r]]]]; try discriminate L.
  inversion F as [|? ? <- F1]; subst.
  inversion F1 as [|? ? <- F2]; subst.
  inversion F2 as [|? ? <- F3]; subst. reflexivity.
Qed.

(** C1, as the claim has it, fails for five sales at 0.10: what is
    returned is 0.10000000000000002 and not the mean of the three prices
    that are left, which is 0.1 itself; with and without compensation in
    [sum]. *)
Lemma calculate_sanity_average_not_the_mean :
  let claim compensated :=
    exists lo mid hi r,
      Permutation five_tenths (lo :: mid ++ [hi])%list /\
      StronglySorted float_le (lo :: mid ++ [hi])%list /\
      length mid = (length five_tenths - 2)%nat /\
      Binary64.calculate_sanity_average compensated (fun xs => xs)
        five_tenths = Some r /\
      Binary64.to_Q r == arithmetic_mean (map Binary64.to_Q mid) in
  ~ claim false /\ ~ claim true.
Proof.
  assert (K : forall lo mid hi,
             Permutation five_tenths (lo :: mid ++ [hi])%list ->
             length mid = (length five_tenths - 2)%nat ->
             mid = [tenth; tenth; tenth]).
  { intros lo mid hi P L. apply all_tenths; [|exact L].
    assert (F : Forall (eq tenth) (lo :: mid ++ [hi])%list).
    { eapply Permutation_Forall; [exact P|].
      unfold five_tenths. simpl. repeat constructor. }
    inversion F as [|? ? _ F']. apply List.Forall_app in F'. tauto. }
  split; intros [lo [mid [hi [r [P [_ [L [E M]]]]]]]];
    rewrite (K lo mid hi P L) in M;
    vm_compute in E; injection E as <-;
    apply Qeq_bool_iff in M; vm_compute in M; discriminate M.
Qed.

Lemma calculate_sanity_average_binary64_witness :
  (forall xs : list Binary64.t, Permutation xs xs) /\
  exists lo mid hi,
    Permutation five_tenths (lo :: mid ++ [hi])%list /\
    (Forall not_nan five_tenths ->
     StronglySorted float_le (lo :: mid ++ [hi])%list) /\
    length mid = 3%nat /\
    Binary64.calculate_sanity_average false (fun xs => xs) five_tenths
    = Some (float_mean false mid).
Proof.
  split; [reflexivity|].
  exact (proj1 (calculate_sanity_average_binary64
                  false (fun xs => xs) (fun xs => Permutation_refl xs))
               five_tenths).
Defined.

(** C3, as the claim has it, fails at the asking price 0.3 and the
    estimate 1000.1: the amount returned is 999.8000000000001 and not
    the estimate minus the asking price. *)
Lemma calculate_profit_loss_not_the_difference :
  exists profit_loss,
    fst (Binary64.calculate_profit_loss three_tenths
           (Some thousand_and_tenth)) = Some profit_loss /\
    ~ Binary64.to_Q profit_loss
      == Binary64.to_Q thousand_and_tenth - Binary64.to_Q three_tenths.
Proof.
  eexists. split; [vm_compute; reflexivity|].
  intros H. apply Qeq_bool_iff in H. vm_compute in H. discriminate H.
Qed.

Lemma calculate_profit_loss_binary64_witness :
  Binary64.ltb Binary64.zero
    (Binary64.sub thousand_and_tenth three_tenths) = true /\
  snd (Binary64.calculate_profit_loss three_tenths (Some thousand_and_tenth))
  = "GOOD DEAL - Potential profit: $999.80".
Proof.
  split; [reflexivity|].
  apply (proj1 (proj2 (proj1 (proj2 calculate_profit_loss_binary64)
                         three_tenths thousand_and_tenth))).
  reflexivity.
Defined.

(** Ties at the extremes: one lowest and one highest price go, the other
    equal prices stay; the order of the prices does not matter. *)
Example calculate_sanity_average_ties :
  Binary64.calculate_sanity_average false (fun xs => xs)
    (float_prices [10; 10; 10; 20]%Z) = Some (Binary64.of_Z 10) /\
  Binary64.calculate_sanity_average false (fun xs => xs)
    (float_prices [1000; 50; 200; 100; 150]%Z) = Some (Binary64.of_Z 150) /\
  Binary64.calculate_sanity_average false (fun xs => xs)
    (float_prices [7; 7; 7]%Z) = Some (Binary64.of_Z 7).
Proof. repeat split; vm_compute; reflexivity. Qed.

(** The rounding at work: ten sales at 0.10 with and without the
    compensation of [sum], and a loss too small to change the amount. *)
Example float_rounding :
  Binary64.sum false (repeat tenth 10) <> Binary64.of_Z 1 /\
  Binary64.sum true (repeat tenth 10) = Binary64.of_Z 1 /\
  Binary64.calculate_profit_loss
    (Binary64.of_Q (1 # 2 ^ 80)) (Some (Binary64.of_Q (3 # 8)))
  = (Some (Binary64.of_Q (3 # 8)), "GOOD DEAL - Potential profit: $0.38").
Proof.
  split; [vm_compute; discriminate|]. split; vm_compute; reflexivity.
Qed.

(** ** The further statements at the sample data *)


Lemma cache_round_trip_witness :
  cache_fails sample_world (cache_commands sample_world) = false /\
  cache_fails sample_world (S (cache_commands sample_world)) = false /\
  result_of (get_cached_value "analysis:title")
            (world_after
               (set_cached_value "analysis:title" sample_cached 3600)
               sample_world)
    = Return (Some sample_cached).
Proof.
  split; [reflexivity|]. split; [reflexivity|].
  apply (cache_round_trip "analysis:title" sample_cached 3600 sample_world);
    reflexivity.
Defined.

Lemma delete_then_get_witness :
  cache_fails sample_world_cached (cache_commands sample_world_cached)
    = false /\
  result_of (get_cached_value
               (generate_cache_key sample_md5 "analysis" sample_title))
            (world_after
               (delete_cached_value
                  (generate_cache_key sample_md5 "analysis" sample_title))
               sample_world_cached)
    = Return None.
Proof.
  split; [reflexivity|].
  apply (delete_then_get
           (generate_cache_key sample_md5 "analysis" sample_title)
           sample_world_cached).
  reflexivity.
Defined.

Lemma analyze_listing_miss_witness :
  result_of (get_cached_value
               (generate_cache_key sample_md5 "analysis" sample_title))
            sample_world = Return None /\
  exists res,
    result_of (valuation_of sample_similarity sample_card)
              (world_after
                 (get_cached_value
                    (generate_cache_key sample_md5 "analysis" sample_title))
                 sample_world) = Return res /\
    result_of (analyze_listing sample_similarity sample_md5 sample_request_90)
              sample_world =
      Return (AnalyzeResponse.mk
                (VModel sample_card)
                (optional_float (PricingResult.estimated_value res))
                (fst (calculate_profit_loss 90
                        (PricingResult.estimated_value res)))
                (snd (calculate_profit_loss 90
                        (PricingResult.estimated_value res)))
                (VStr (PricingResult.match_tier res))
                (VInt (Z.of_nat (PricingResult.sales_count res)))
                false).
Proof.
  split; [reflexivity|].
  apply (analyze_listing_miss sample_similarity sample_md5 sample_request_90
           sample_world).
  reflexivity.
Defined.

Lemma analyze_listing_miss_then_hit_witness :
  result_of (analyze_listing sample_similarity sample_md5 sample_request_90)
            sample_world = Return sample_response_90 /\
  AnalyzeResponse.cached sample_response_90 = false /\
  cache_fails sample_world (S (cache_commands sample_world)) = false /\
  cache_fails sample_world (S (S (cache_commands sample_world))) = false /\
  exists resp' est,
    result_of (analyze_listing sample_similarity sample_md5
                 (AnalyzeRequest.mk sample_title 150))
              sample_world_cached = Return resp' /\
    AnalyzeResponse.cached resp' = true /\
    AnalyzeResponse.parsed_data resp'
      = AnalyzeResponse.parsed_data sample_response_90 /\
    AnalyzeResponse.estimated_value resp'
      = AnalyzeResponse.estimated_value sample_response_90 /\
    AnalyzeResponse.match_tier resp'
      = AnalyzeResponse.match_tier sample_response_90 /\
    AnalyzeResponse.sales_count resp'
      = AnalyzeResponse.sales_count sample_response_90 /\
    optional_float_of (AnalyzeResponse.estimated_value sample_response_90)
      = Some est /\
    (AnalyzeResponse.profit_loss resp', AnalyzeResponse.verdict resp')
      = calculate_profit_loss 150 est /\
    statements
      (world_after (analyze_listing sample_similarity sample_md5
                      (AnalyzeRequest.mk sample_title 150))
                   sample_world_cached)
      = statements sample_world_cached /\
    cache
      (world_after (analyze_listing sample_similarity sample_md5
                      (AnalyzeRequest.mk sample_title 150))
                   sample_world_cached)
      = cache sample_world_cached.
Proof.
  assert (H : result_of (analyze_listing sample_similarity sample_md5
                           sample_request_90) sample_world
              = Return sample_response_90) by (vm_compute; reflexivity).
  split; [exact H|]. split; [reflexivity|].
  split; [reflexivity|]. split; [reflexivity|].
  exact (analyze_listing_miss_then_hit sample_similarity sample_md5
           sample_request_90 150 sample_world sample_response_90
           H eq_refl eq_refl eq_refl).
Defined.

Lemma analyze_single_listing_agrees_witness :
  (forall ttl d,
     cache sample_world_cached
       !! generate_cache_key sample_md5 "analysis" sample_title
     = Some (ttl, d) -> entry_typed d) /\
  exists item,
    analyze_single_listing sample_similarity sample_md5 sample_now
      sample_str_float sample_str_title sample_str_exn
      0 sample_title 150 sample_world_cached
    = (Return item,
       world_after
         (analyze_listing sample_similarity sample_md5 sample_request_150)
         sample_world_cached) /\
    BulkAnalyzeResultItem.success item = true /\
    BulkAnalyzeResultItem.data item = Some (item_data_of sample_response_150) /\
    BulkAnalyzeResultItem.error item = None.
Proof.
  assert (H : forall ttl d,
             cache sample_world_cached
               !! generate_cache_key sample_md5 "analysis" sample_title
             = Some (ttl, d) -> entry_typed d).
  { intros ttl d E. vm_compute in E. injection E as _ <-.
    repeat split; intros v E; vm_compute in E; injection E as <-;
      eauto. }
  split; [exact H|].
  exact (analyze_single_listing_agrees sample_similarity sample_md5
           sample_now sample_str_float sample_str_title sample_str_exn
           0 sample_title 150 sample_world_cached H).
Defined.

(** The item of a first, fresh analysis of the sample title. *)
Example sample_single_listing :
  let item :=
    result_of (analyze_single_listing sample_similarity sample_md5 sample_now
                 sample_str_float sample_str_title sample_str_exn
                 7 sample_title 90) sample_world in
  match item with
  | Return item =>
      BulkAnalyzeResultItem.success item = true /\
      map AnalysisStep.details (BulkAnalyzeResultItem.analysis_steps item) =
        ["Cache miss - No cached result found, proceeding with fresh analysis";
         "Extracted: Ken Griffey Jr., 1989, Topps Chrome, Base, PSA 9.50";
         "Normalized IDs - player: ken-griffey-jr, brand: topps-chrome, variation: base";
         "exact Match - Found 3 comparable sales";
         "Used 3 sales, removed 2 outliers (highest & lowest), averaged remaining 1 sales: $100.00"]
  | Raise _ => False
  end.
Proof. vm_compute. split; reflexivity. Qed.

Lemma seed_database_accounts_witness :
  (1 <= 2)%Z /\
  sample_seed 2 false sample_db
    = (Seed.Ok sample_stats, snd (sample_seed 2 false sample_db)) /\
  (Seed.inserted sample_stats + Seed.errors sample_stats
   = Seed.total_records sample_stats)%nat.
Proof.
  assert (H : sample_seed 2 false sample_db
              = (Seed.Ok sample_stats, snd (sample_seed 2 false sample_db)))
    by (vm_compute; reflexivity).
  split; [lia|]. split; [exact H|].
  apply (seed_database_accounts sample_fromisoformat sample_number_of_str
           sample_number_of_str "dummy_sales_data.json" 2 false sample_db
           (snd (sample_seed 2 false sample_db)) sample_stats);
    [lia|exact H].
Defined.

Lemma seed_database_batch_size_witness :
  (-1 <= 0)%Z /\
  match sample_seed (-1) true sample_db with
  | (Seed.Ok stats, db') =>
      (-1 < 0)%Z /\
      Seed.inserted stats = 0%nat /\
      Seed.rows db' = [] /\
      exists data records,
        Seed.files sample_db "dummy_sales_data.json"
          = Some (Some (Json.Array data)) /\
        Seed.validate_and_transform sample_fromisoformat
          sample_number_of_str sample_number_of_str data 0 [] 0
          = Seed.Ok (records, Seed.errors stats) /\
        Seed.total_records stats = length data /\
        (Seed.inserted stats + Seed.errors stats + length records
         = Seed.total_records stats)%nat
  | (Seed.Err e, db') =>
      Seed.rows db'
      = (if true && negb (Seed.session_fails sample_db
                            (Seed.sessions sample_db))
         then [] else Seed.rows sample_db)
  end.
Proof.
  split; [lia|].
  apply (seed_database_batch_size sample_fromisoformat sample_number_of_str
           sample_number_of_str "dummy_sales_data.json" (-1) true sample_db).
  lia.
Defined.

(** The sample file seeded in batches of two: the two valid records are
    inserted with their normalised identifiers, the other is an error. *)
Example sample_seeding :
  fst (sample_seed 2 false sample_db) = Seed.Ok (Seed.mkStats 3 2 0 1) /\
  map Seed.Instance.player_id (Seed.rows (snd (sample_seed 2 false sample_db)))
    = ["ken-griffey-jr"; "ken-griffey-jr"] /\
  fst (sample_seed (-1) false sample_db) = Seed.Ok (Seed.mkStats 3 0 0 1) /\
  fst (sample_seed 0 false sample_db) = Seed.Err Seed.ValueError.
Proof. vm_compute. repeat split; reflexivity. Qed.

(** A grade that is an integer too large for a float ends the loop, and
    with it the seeding: the records before it are not inserted and those
    behind it are not looked at. *)
Example sample_seeding_overflow :
  Seed.float_of sample_number_of_str (Json.Int (2 ^ 1024 - 2 ^ 970 - 1))
    = Seed.Ok (inject_Z (2 ^ 1024 - 2 ^ 971)) /\
  Seed.float_of sample_number_of_str (Json.Int (2 ^ 1024 - 2 ^ 970))
    = Seed.Err Seed.OverflowError /\
  Seed.validate_and_transform sample_fromisoformat sample_number_of_str
    sample_number_of_str
    [sample_record; sample_huge_record; sample_bad_record] 0 [] 0
    = Seed.Err Seed.OverflowError.
Proof. vm_compute. repeat split; reflexivity. Qed.

Lemma get_sales_history_page_witness :
  (1 <= 2)%Z /\ (1 <= 3)%Z /\
  Browse.column_of "price" = Some Browse.Price /\
  Browse.statement_fails sample_session
    (length (Browse.statements sample_session)) = false /\
  Browse.statement_fails sample_session
    (S (length (Browse.statements sample_session))) = false /\
  exists rows total_pages,
    fst (Browse.get_sales_history sample_collation_lt 2 3
           (Some "ken-griffey-jr") None (Some "") None None
           "price" "desc" sample_session)
    = Browse.Return
        (Browse.mkResponse (map SalesHistory.to_dict rows)
           (Browse.mkPagination 4 2 3 total_pages)) /\
    Z.of_nat (length rows) = 1%Z /\
    (rows <> [] <-> (2 <= total_pages)%Z).
Proof.
  split; [lia|]. split; [lia|]. split; [reflexivity|].
  split; [reflexivity|]. split; [reflexivity|].
  destruct (get_sales_history_page sample_collation_lt 2 3
              (Some "ken-griffey-jr") None (Some "") None None
              "price" "desc" Browse.Price sample_session)
    as [rows [total_pages [E [_ [L [_ [_ [N _]]]]]]]];
    [lia|lia|reflexivity|reflexivity|reflexivity|].
  exists rows, total_pages. split; [exact E|]. split; [exact L|exact N].
Defined.

(** The second page of three of the four sales of the player, the
    dearest first: the cheapest one is left. *)
Example sample_page :
  match fst (Browse.get_sales_history sample_collation_lt 2 3
               (Some "ken-griffey-jr") None (Some "") None None
               "price" "desc" sample_session) with
  | Browse.Return response =>
      map (fun d => d !! "id") (Browse.data response) = [Some (VInt 1)] /\
      Browse.total_pages (Browse.pagination response) = 2%Z
  | Browse.Raise _ => False
  end.
Proof. vm_compute. split; reflexivity. Qed.
